(** * Offline-first audit synchronisation: a shallow embedding

    The development follows the TypeScript services of the sandbox:

    - [AuditSyncService]      (conflict detection and resolution),
    - [SyncStateService]      (the process-wide sync state container),
    - [AuditStorageService]   (the durable object store, keyed by [ExternalId]),
    - [AuditStateService]     (the published, active record view),
    - [AuditTransformationService] and [AuditActionService] (the orchestrator).

    Conventions of the embedding.

    - A JavaScript string is the [string] of the bytes of its UTF-8 encoding
      (a well-formed string; a lone surrogate has no encoding).  [===] on
      strings is [String.eqb]; the ASCII tests of the code ([startsWith] of
      an ASCII prefix, the digits of [/\D/]) read the bytes below 128, which
      occur in the encoding exactly where the ASCII characters occur in the
      string; [trim] is taken with all the white space of the language (see
      [AuditTransformationService.blank]).
    - JavaScript numbers that hold millisecond timestamps and counters are
      [Z] (timestamps) or [nat] (array lengths, closure counters).
    - [T | null] is [option T].
    - The object store of IndexedDB, whose key path is [ExternalId], is a
      [gmap string OfflineAuditItem]: [put] is insert, [delete] is delete,
      [get] is lookup.  [getAll] enumerates the map with [map_to_list]; the
      order of that enumeration is not the key order of IndexedDB, and no
      statement below depends on it.
    - Every reading of the clock ([Date.now()], [new Date()]) and of
      [Math.random()] is an explicit argument.
    - An Observable pipeline is cut at its asynchronous remote call: what runs
      up to the dispatch of the call is one function, what runs when the call
      reports success or failure is another.
    - A storage request is asynchronous as well.  The functions named after a
      method of the orchestrator ([createAudit], [deleteAudit],
      [loadFromServerWithFallback_next], [backgroundSyncFromServer_next])
      give the outcome of the method when its storage requests succeed and
      complete before anything else runs.  The pieces that run in separate
      tasks are defined next to them ([deleteAudit_called] and
      [deleteAudit_stored], and so on, and the callbacks of a failed storage
      request), and [AuditActionService.Task] lets them interleave with the
      tasks of other operations.  A write takes effect in the task in which
      its request completes.
    - The network gate is not part of these services: each function that reads
      [isOnline()] takes the answer as its argument [online]. *)

From Stdlib Require Import ZArith String Ascii List Bool Lia DecimalString.
From stdpp Require Import base gmap strings list fin_maps.
Import ListNotations.

Local Open Scope string_scope.
Local Open Scope Z_scope.
Local Open Scope list_scope.

(* ===================================================================== *)
(** * Models *)
(* ===================================================================== *)

(** [ApiAuditRecord] of audit.model.ts. *)
Record ApiAuditRecord := mkApiAuditRecord {
  ExternalId : string;
  SlotNumber : string;
  PrimaryBarcode : string;
  WarehouseLogistics : string;
  Comments : string;
  DateReceived : string;
  TimeReceived : string;
  Auditors : string;
  WarehouseLocation : string;
  Synced : option Z
}.

(** [new Date(text)]: the domain record keeps the text the date was built from. *)
Inductive Date := mkDate (text : string).

(** [AuditRecord] of audit.model.ts (the domain model shown in the view). *)
Record AuditRecord := mkAuditRecord {
  externalId : string;
  slotNumber : string;
  primaryBarcode : string;
  warehouseLogistics : string;
  comments : string;
  dateReceived : Date;
  timeReceived : string;
  auditors : string;
  warehouseLocation : string;
  synced : bool
}.

(** [CreateAuditRequest]; the fields carry the prefix [rq_] because the
    domain record already owns the bare names. *)
Record CreateAuditRequest := mkCreateAuditRequest {
  rq_slotNumber : string;
  rq_primaryBarcode : string;
  rq_warehouseLogistics : string;
  rq_comments : string;
  rq_auditors : string;
  rq_warehouseLocation : string
}.

(** [UpdateAuditRequest extends CreateAuditRequest]. *)
Record UpdateAuditRequest := mkUpdateAuditRequest {
  up_externalId : string;
  up_fields : CreateAuditRequest
}.

(** The [_status] tag of a stored record. *)
Inductive ItemStatus := StSynced | StPending | StDeleted.

(** [OfflineAuditItem extends ApiAuditRecord] of audit-storage.service.ts. *)
Record OfflineAuditItem := mkOfflineAuditItem {
  api : ApiAuditRecord;
  _localId : string;
  _status : ItemStatus;
  _lastModified : Z;
  _conflictData : option ApiAuditRecord
}.

(** sync.model.ts *)
Inductive SyncStatus := Idle | Syncing | Success | Error.
Inductive SyncOperation := OpCreate | OpUpdate | OpDelete | OpFetch.

Record ConflictInfo := mkConflictInfo {
  itemId : string;
  ci_localModified : Z;
  ci_serverModified : Z;
  resolved : bool
}.

Definition ItemStatus_eqb (a b : ItemStatus) : bool :=
  match a, b with
  | StSynced, StSynced | StPending, StPending | StDeleted, StDeleted => true
  | _, _ => false
  end.

Definition SyncStatus_eqb (a b : SyncStatus) : bool :=
  match a, b with
  | Idle, Idle | Syncing, Syncing | Success, Success | Error, Error => true
  | _, _ => false
  end.

(** [a !== b] on strings. *)
Definition strict_neq (a b : string) : bool := negb (String.eqb a b).

(* ===================================================================== *)
(** * AuditSyncService (audit-sync.service.ts) *)
(* ===================================================================== *)

Module AuditSyncService.

Record AuditConflictData := mkAuditConflictData {
  localAudit : ApiAuditRecord;
  serverAudit : ApiAuditRecord;
  localModified : Z;
  serverModified : Z
}.

Inductive Resolution := use_local | use_server.

(** The disjunction of the six [!==] tests of [detectConflict]. *)
Definition businessFieldsDiffer (l s : ApiAuditRecord) : bool :=
  strict_neq (SlotNumber l) (SlotNumber s) ||
  strict_neq (PrimaryBarcode l) (PrimaryBarcode s) ||
  strict_neq (WarehouseLogistics l) (WarehouseLogistics s) ||
  strict_neq (Comments l) (Comments s) ||
  strict_neq (Auditors l) (Auditors s) ||
  strict_neq (WarehouseLocation l) (WarehouseLocation s).

(** [detectConflict].  [now] is the value of [new Date().getTime()] read in
    the first statement of the method; the source uses it as the server's
    modification time ("placeholder"). *)
Definition detectConflict (now : Z) (l s : ApiAuditRecord) (localModified : Z)
  : option AuditConflictData :=
  let serverModified := now in
  let hasConflict :=
    (serverModified <? localModified) && businessFieldsDiffer l s in
  if hasConflict
  then Some (mkAuditConflictData l s localModified serverModified)
  else None.

(** [resolveConflict]: last write wins. *)
Definition resolveConflict (conflict : AuditConflictData) : Resolution :=
  if serverModified conflict <? localModified conflict
  then use_local else use_server.

(** [isSyncNeeded]: the two times are more than one second apart. *)
Definition isSyncNeeded (localModified serverModified : Z) : bool :=
  1000 <? Z.abs (localModified - serverModified).

(** [areAuditsIdentical]: the eight payload fields agree. *)
Definition areAuditsIdentical (l s : ApiAuditRecord) : bool :=
  String.eqb (SlotNumber l) (SlotNumber s) &&
  String.eqb (PrimaryBarcode l) (PrimaryBarcode s) &&
  String.eqb (WarehouseLogistics l) (WarehouseLogistics s) &&
  String.eqb (Comments l) (Comments s) &&
  String.eqb (DateReceived l) (DateReceived s) &&
  String.eqb (TimeReceived l) (TimeReceived s) &&
  String.eqb (Auditors l) (Auditors s) &&
  String.eqb (WarehouseLocation l) (WarehouseLocation s).

(** [getSyncPriority]: the [switch] on the name of the operation. *)
Definition getSyncPriority (operation : string) : Z :=
  if String.eqb operation "delete" then 1
  else if String.eqb operation "update" then 2
  else if String.eqb operation "create" then 3
  else if String.eqb operation "fetch" then 4
  else 5.

(** [validateAuditForSync]: the four strings are truthy, that is, not empty. *)
Definition validateAuditForSync (audit : ApiAuditRecord) : bool :=
  negb (String.eqb (ExternalId audit) "") &&
  negb (String.eqb (SlotNumber audit) "") &&
  negb (String.eqb (PrimaryBarcode audit) "") &&
  negb (String.eqb (WarehouseLocation audit) "").

Definition isAuditSyncable (audit : ApiAuditRecord) : bool := validateAuditForSync audit.

(** The result of [getConflictResolutionStrategy]. *)
Inductive StrategyAction := merge | action_use_local | action_use_server.

Record Strategy := mkStrategy {
  action : StrategyAction;
  mergedAudit : option ApiAuditRecord
}.

Definition getConflictResolutionStrategy (conflict : AuditConflictData) : Strategy :=
  if serverModified conflict <? localModified conflict
  then mkStrategy action_use_local None
  else mkStrategy action_use_server None.

End AuditSyncService.

(* ===================================================================== *)
(** * SyncStateService (sync-state.service.ts) *)
(* ===================================================================== *)

Module SyncStateService.

(** The seven private signals. *)
Record State := mkState {
  syncStatus : SyncStatus;
  currentOperation : option SyncOperation;
  currentItemId : option string;
  lastSyncTime : option Z;
  syncError : option string;
  pendingRecordsCount : Z;
  conflicts : list ConflictInfo
}.

Definition initial : State := mkState Idle None None None None 0 [].

(** Truthiness of a [string | null]: [null] and the empty string are falsy. *)
Definition truthy (e : option string) : bool :=
  match e with
  | None => false
  | Some s => negb (String.eqb s "")
  end.

Definition isSyncing (s : State) : bool := SyncStatus_eqb (syncStatus s) Syncing.

(** [hasError = computed(() => this._syncError() !== null)] *)
Definition hasError (s : State) : bool :=
  match syncError s with None => false | Some _ => true end.

(** [setSyncStatus]; [now] is the [new Date()] stored on success. *)
Definition setSyncStatus (now : Z) (status : SyncStatus) (s : State) : State :=
  let s1 := mkState status (currentOperation s) (currentItemId s) (lastSyncTime s)
                    (syncError s) (pendingRecordsCount s) (conflicts s) in
  match status with
  | Success =>
      mkState (syncStatus s1) (currentOperation s1) (currentItemId s1) (Some now)
              None (pendingRecordsCount s1) (conflicts s1)
  | _ => s1
  end.

Definition setCurrentOperation (operation : option SyncOperation)
           (item : option string) (s : State) : State :=
  mkState (syncStatus s) operation item (lastSyncTime s)
          (syncError s) (pendingRecordsCount s) (conflicts s).

Definition setSyncError (e : option string) (s : State) : State :=
  let s1 := mkState (syncStatus s) (currentOperation s) (currentItemId s)
                    (lastSyncTime s) e (pendingRecordsCount s) (conflicts s) in
  if truthy e
  then mkState Error (currentOperation s1) (currentItemId s1) (lastSyncTime s1)
               (syncError s1) (pendingRecordsCount s1) (conflicts s1)
  else s1.

Definition clearSyncError (s : State) : State :=
  let s1 := mkState (syncStatus s) (currentOperation s) (currentItemId s)
                    (lastSyncTime s) None (pendingRecordsCount s) (conflicts s) in
  if SyncStatus_eqb (syncStatus s1) Error
  then mkState Idle (currentOperation s1) (currentItemId s1) (lastSyncTime s1)
               (syncError s1) (pendingRecordsCount s1) (conflicts s1)
  else s1.

(** [Math.max(0, count)] *)
Definition setPendingRecordsCount (count : Z) (s : State) : State :=
  mkState (syncStatus s) (currentOperation s) (currentItemId s) (lastSyncTime s)
          (syncError s) (Z.max 0 count) (conflicts s).

Definition with_conflicts (f : list ConflictInfo -> list ConflictInfo) (s : State) : State :=
  mkState (syncStatus s) (currentOperation s) (currentItemId s) (lastSyncTime s)
          (syncError s) (pendingRecordsCount s) (f (conflicts s)).

Definition addConflict (id : string) (localModified serverModified : Z) (s : State) : State :=
  let conflict := mkConflictInfo id localModified serverModified false in
  with_conflicts
    (fun cs =>
       match List.find (fun c => String.eqb (itemId c) id) cs with
       | Some _ => List.map (fun c => if String.eqb (itemId c) id then conflict else c) cs
       | None => cs ++ [conflict]
       end) s.

Definition removeConflict (id : string) (s : State) : State :=
  with_conflicts (List.filter (fun c => strict_neq (itemId c) id)) s.

Definition markConflictResolved (id : string) (s : State) : State :=
  with_conflicts
    (List.map (fun c =>
       if String.eqb (itemId c) id
       then mkConflictInfo (itemId c) (ci_localModified c) (ci_serverModified c) true
       else c)) s.

Definition clearConflicts (s : State) : State := with_conflicts (fun _ => []) s.

Definition updateLastSyncTime (now : Z) (s : State) : State :=
  mkState (syncStatus s) (currentOperation s) (currentItemId s) (Some now)
          (syncError s) (pendingRecordsCount s) (conflicts s).

Definition reset (s : State) : State := initial.

(** One call of a mutation method, with its arguments. *)
Inductive Call :=
| CSetSyncStatus (now : Z) (status : SyncStatus)
| CSetCurrentOperation (operation : option SyncOperation) (item : option string)
| CSetSyncError (e : option string)
| CClearSyncError
| CSetPendingRecordsCount (count : Z)
| CAddConflict (id : string) (localModified serverModified : Z)
| CRemoveConflict (id : string)
| CMarkConflictResolved (id : string)
| CClearConflicts
| CUpdateLastSyncTime (now : Z)
| CReset.

Definition call (c : Call) (s : State) : State :=
  match c with
  | CSetSyncStatus now st => setSyncStatus now st s
  | CSetCurrentOperation o i => setCurrentOperation o i s
  | CSetSyncError e => setSyncError e s
  | CClearSyncError => clearSyncError s
  | CSetPendingRecordsCount n => setPendingRecordsCount n s
  | CAddConflict id l r => addConflict id l r s
  | CRemoveConflict id => removeConflict id s
  | CMarkConflictResolved id => markConflictResolved id s
  | CClearConflicts => clearConflicts s
  | CUpdateLastSyncTime now => updateLastSyncTime now s
  | CReset => reset s
  end.

(** The calls are applied from the head of the list. *)
Definition calls (cs : list Call) (s : State) : State :=
  fold_left (fun acc c => call c acc) cs s.

(** The computed signals not used by the orchestrator itself. *)
Definition hasPendingRecords (s : State) : bool := 0 <? pendingRecordsCount s.

Definition hasConflicts (s : State) : bool := (0 <? List.length (conflicts s))%nat.

Definition canSync (s : State) : bool := negb (isSyncing s) && negb (hasError s).

End SyncStateService.

(* ===================================================================== *)
(** * Readings of the environment *)
(* ===================================================================== *)

(** What one step reads from the clock and the random generator:
    [now] is [Date.now()], [rand36] is the base-36 suffix taken from
    [Math.random()], [isoDate] is [new Date().toISOString().split('T')[0]]
    and [timeOfDay] is [new Date().toTimeString().split(' ')[0]].  The
    readings of the clock made within one step are taken to agree. *)
Record Tick := mkTick {
  now : Z;
  rand36 : string;
  isoDate : string;
  timeOfDay : string
}.

(** The decimal text of a number inside a template literal. *)
Definition decimal (n : Z) : string := NilZero.string_of_int (Z.to_int n).

(** [`local_${Date.now()}_${suffix}`] *)
Definition localIdOf (t : Tick) : string :=
  "local_" +:+ decimal (now t) +:+ "_" +:+ rand36 t.

(** [id.startsWith('local_')] *)
Definition startsWith_local (id : string) : bool := String.prefix "local_" id.

(* ===================================================================== *)
(** * AuditStorageService (audit-storage.service.ts) *)
(* ===================================================================== *)

Module AuditStorageService.

(** [store.put(item)]: the key is read from the item, by the key path. *)
Definition put (item : OfflineAuditItem) (db : gmap string OfflineAuditItem)
  : gmap string OfflineAuditItem :=
  <[ExternalId (api item) := item]> db.

(** [store.getAll()] *)
Definition getAll (db : gmap string OfflineAuditItem) : list OfflineAuditItem :=
  List.map snd (map_to_list db).

(** [index('_status').getAll(status)] *)
Definition getAllByStatus (status : ItemStatus) (db : gmap string OfflineAuditItem)
  : list OfflineAuditItem :=
  List.filter (fun a => ItemStatus_eqb (_status a) status) (getAll db).

Definition getAllItems (db : gmap string OfflineAuditItem) : list OfflineAuditItem :=
  List.filter (fun a => negb (ItemStatus_eqb (_status a) StDeleted)) (getAll db).

Definition getItem (id : string) (db : gmap string OfflineAuditItem)
  : option OfflineAuditItem :=
  match db !! id with
  | Some audit => if negb (ItemStatus_eqb (_status audit) StDeleted) then Some audit else None
  | None => None
  end.

(** [generateLocalId] *)
Definition generateLocalId (t : Tick) : string := localIdOf t.

(** [saveItem]: the stored item and the store after the [put].
    [audit.ExternalId || this.generateLocalId()] takes the generated
    identifier when [ExternalId] is the empty string. *)
Definition saveItem (t : Tick) (audit : ApiAuditRecord) (status : ItemStatus)
           (db : gmap string OfflineAuditItem)
  : gmap string OfflineAuditItem * OfflineAuditItem :=
  let offlineAudit :=
    {| api := audit;
       _localId := if String.eqb (ExternalId audit) "" then generateLocalId t
                   else ExternalId audit;
       _status := status;
       _lastModified := now t;
       _conflictData := None |} in
  (put offlineAudit db, offlineAudit).

(** [deleteItem]: the soft delete. *)
Definition deleteItem (t : Tick) (id : string) (db : gmap string OfflineAuditItem)
  : gmap string OfflineAuditItem :=
  match db !! id with
  | None => db
  | Some audit =>
      put {| api := api audit; _localId := _localId audit; _status := StDeleted;
             _lastModified := now t; _conflictData := _conflictData audit |} db
  end.

Definition getPendingItems (db : gmap string OfflineAuditItem) : list OfflineAuditItem :=
  getAllByStatus StPending db.

Definition getDeletedItems (db : gmap string OfflineAuditItem) : list OfflineAuditItem :=
  getAllByStatus StDeleted db.

Definition markAsSynced (t : Tick) (id : string) (db : gmap string OfflineAuditItem)
  : gmap string OfflineAuditItem :=
  match db !! id with
  | None => db
  | Some audit =>
      put {| api := api audit; _localId := _localId audit; _status := StSynced;
             _lastModified := now t; _conflictData := _conflictData audit |} db
  end.

(** [removeItem]: the hard delete. *)
Definition removeItem (id : string) (db : gmap string OfflineAuditItem)
  : gmap string OfflineAuditItem :=
  delete id db.

(** [Partial<ApiAuditRecord>]: a field that is absent is [None]. *)
Record PartialApiAuditRecord := mkPartialApiAuditRecord {
  p_ExternalId : option string;
  p_SlotNumber : option string;
  p_PrimaryBarcode : option string;
  p_WarehouseLogistics : option string;
  p_Comments : option string;
  p_DateReceived : option string;
  p_TimeReceived : option string;
  p_Auditors : option string;
  p_WarehouseLocation : option string;
  p_Synced : option Z
}.

(** [{ ...existing, ...updates }] on the payload fields. *)
Definition spread (existing : ApiAuditRecord) (updates : PartialApiAuditRecord)
  : ApiAuditRecord :=
  {| ExternalId := default (ExternalId existing) (p_ExternalId updates);
     SlotNumber := default (SlotNumber existing) (p_SlotNumber updates);
     PrimaryBarcode := default (PrimaryBarcode existing) (p_PrimaryBarcode updates);
     WarehouseLogistics := default (WarehouseLogistics existing) (p_WarehouseLogistics updates);
     Comments := default (Comments existing) (p_Comments updates);
     DateReceived := default (DateReceived existing) (p_DateReceived updates);
     TimeReceived := default (TimeReceived existing) (p_TimeReceived updates);
     Auditors := default (Auditors existing) (p_Auditors updates);
     WarehouseLocation := default (WarehouseLocation existing) (p_WarehouseLocation updates);
     Synced := match p_Synced updates with Some n => Some n | None => Synced existing end |}.

(** [updateItem]: rejected with a message when no record is stored under
    [id] (the store is not written); otherwise the merged record is [put]
    and returned. *)
Definition updateItem (t : Tick) (id : string) (updates : PartialApiAuditRecord)
           (status : ItemStatus) (db : gmap string OfflineAuditItem)
  : gmap string OfflineAuditItem * (OfflineAuditItem + string) :=
  match db !! id with
  | None => (db, inr ("Audit with id " +:+ id +:+ " not found"))
  | Some existingAudit =>
      let updatedAudit :=
        {| api := spread (api existingAudit) updates;
           _localId := _localId existingAudit;
           _status := status;
           _lastModified := now t;
           _conflictData := _conflictData existingAudit |} in
      (put updatedAudit db, inl updatedAudit)
  end.

(** [clear], on the audits store. *)
Definition clear (db : gmap string OfflineAuditItem) : gmap string OfflineAuditItem := ∅.

End AuditStorageService.

(* ===================================================================== *)
(** * AuditStateService (the second service of the orchestrator file) *)
(* ===================================================================== *)

Module AuditStateService.

Record State := mkState {
  audits : list AuditRecord;
  selectedAudit : option AuditRecord;
  loading : bool;
  error : option string
}.

Definition initial : State := mkState [] None false None.

(** [this._selectedAudit()?.externalId === id] *)
Definition selectedIs (id : string) (s : State) : bool :=
  match selectedAudit s with
  | Some a => String.eqb (externalId a) id
  | None => false
  end.

Definition setAudits (l : list AuditRecord) (s : State) : State :=
  mkState l (selectedAudit s) (loading s) (error s).

Definition addAudit (audit : AuditRecord) (s : State) : State :=
  mkState (audits s ++ [audit]) (selectedAudit s) (loading s) (error s).

Definition updateAudit (updatedAudit : AuditRecord) (s : State) : State :=
  let current :=
    List.map (fun audit =>
                if String.eqb (externalId audit) (externalId updatedAudit)
                then updatedAudit else audit) (audits s) in
  mkState current
          (if selectedIs (externalId updatedAudit) s then Some updatedAudit
           else selectedAudit s)
          (loading s) (error s).

Definition removeAudit (auditId : string) (s : State) : State :=
  let current :=
    List.filter (fun audit => strict_neq (externalId audit) auditId) (audits s) in
  mkState current
          (if selectedIs auditId s then None else selectedAudit s)
          (loading s) (error s).

Definition selectAudit (audit : option AuditRecord) (s : State) : State :=
  mkState (audits s) audit (loading s) (error s).

Definition setLoading (b : bool) (s : State) : State :=
  mkState (audits s) (selectedAudit s) b (error s).

Definition setError (e : option string) (s : State) : State :=
  mkState (audits s) (selectedAudit s) (loading s) e.

Definition clearError (s : State) : State := setError None s.

Definition reset (s : State) : State := initial.

Definition auditCount (s : State) : nat := List.length (audits s).

Definition hasAudits (s : State) : bool := (0 <? List.length (audits s))%nat.

(** [[...new Set(values)]]: the distinct values, each at its first occurrence. *)
Fixpoint distinct (values : list string) : list string :=
  match values with
  | [] => []
  | v :: rest => v :: List.filter (fun x => strict_neq x v) (distinct rest)
  end.

(** [auditsByLocation]: one entry per distinct location, with the records of
    that location in the order of the view. *)
Definition auditsByLocation (s : State) : list (string * list AuditRecord) :=
  List.map (fun location =>
              (location,
               List.filter (fun audit => String.eqb (warehouseLocation audit) location)
                           (audits s)))
           (distinct (List.map warehouseLocation (audits s))).

End AuditStateService.

(* ===================================================================== *)
(** * AuditTransformationService *)
(* ===================================================================== *)

Module AuditTransformationService.

Definition transformApiAuditToAudit (apiAudit : ApiAuditRecord) : AuditRecord :=
  {| externalId := ExternalId apiAudit;
     slotNumber := SlotNumber apiAudit;
     primaryBarcode := PrimaryBarcode apiAudit;
     warehouseLogistics := WarehouseLogistics apiAudit;
     comments := Comments apiAudit;
     dateReceived := mkDate (DateReceived apiAudit);
     timeReceived := TimeReceived apiAudit;
     auditors := Auditors apiAudit;
     warehouseLocation := WarehouseLocation apiAudit;
     synced := match Synced apiAudit with Some 1 => true | _ => false end |}.

Definition transformApiAuditsToAudits (l : list ApiAuditRecord) : list AuditRecord :=
  List.map transformApiAuditToAudit l.

(** [transformCreateRequestToApiRequest], the branch taken for a request
    without a [SlotNumber] property. *)
Definition transformCreateRequestToApiRequest (request : CreateAuditRequest)
  : CreateAuditRequest :=
  {| rq_slotNumber := rq_slotNumber request;
     rq_primaryBarcode := rq_primaryBarcode request;
     rq_warehouseLogistics := rq_warehouseLogistics request;
     rq_comments := rq_comments request;
     rq_auditors := rq_auditors request;
     rq_warehouseLocation := rq_warehouseLocation request |}.

(** The same method, the branch taken for a stored record
    (['SlotNumber' in request]). *)
Definition transformOfflineRecordToApiRequest (request : OfflineAuditItem)
  : CreateAuditRequest :=
  {| rq_slotNumber := SlotNumber (api request);
     rq_primaryBarcode := PrimaryBarcode (api request);
     rq_warehouseLogistics := WarehouseLogistics (api request);
     rq_comments := Comments (api request);
     rq_auditors := Auditors (api request);
     rq_warehouseLocation := WarehouseLocation (api request) |}.

(** [const { externalId, ...updateFields } = request] *)
Definition transformUpdateRequestToApiRequest (request : UpdateAuditRequest)
  : CreateAuditRequest := up_fields request.

(** The white space that [trim] removes is the WhiteSpace and the
    LineTerminator of the language.  Those of one byte: U+0009 to U+000D
    (tab, line feed, vertical tab, form feed, carriage return) and U+0020. *)
Definition isWhiteSpace (c : ascii) : bool :=
  let n := nat_of_ascii c in
  ((9 <=? n)%nat && (n <=? 13)%nat) || (n =? 32)%nat.

(** Of two bytes: U+00A0 (no-break space), encoded C2 A0. *)
Definition isWhiteSpace2 (c1 c2 : ascii) : bool :=
  (nat_of_ascii c1 =? 194)%nat && (nat_of_ascii c2 =? 160)%nat.

(** Of three bytes: U+1680 (E1 9A 80); U+2000 to U+200A, U+2028, U+2029 and
    U+202F (E2 80 and 80 to 8A, A8, A9, AF); U+205F (E2 81 9F); U+3000
    (E3 80 80); U+FEFF (EF BB BF). *)
Definition isWhiteSpace3 (c1 c2 c3 : ascii) : bool :=
  let b1 := nat_of_ascii c1 in
  let b2 := nat_of_ascii c2 in
  let b3 := nat_of_ascii c3 in
  ((b1 =? 225) && (b2 =? 154) && (b3 =? 128))%nat ||
  ((b1 =? 226) && (b2 =? 128) &&
   (((128 <=? b3) && (b3 <=? 138)) || (b3 =? 168) || (b3 =? 169) || (b3 =? 175)))%nat ||
  ((b1 =? 226) && (b2 =? 129) && (b3 =? 159))%nat ||
  ((b1 =? 227) && (b2 =? 128) && (b3 =? 128))%nat ||
  ((b1 =? 239) && (b2 =? 187) && (b3 =? 191))%nat.

(** [!s?.trim()]: the trimmed string is empty, that is, [s] is a sequence of
    white space characters and nothing else. *)
Fixpoint blank (s : string) : bool :=
  match s with
  | EmptyString => true
  | String c1 s1 =>
      if isWhiteSpace c1 then blank s1
      else
        match s1 with
        | EmptyString => false
        | String c2 s2 =>
            if isWhiteSpace2 c1 c2 then blank s2
            else
              match s2 with
              | EmptyString => false
              | String c3 s3 => if isWhiteSpace3 c1 c2 c3 then blank s3 else false
              end
        end
  end.

Definition isDigit (c : ascii) : bool :=
  let n := nat_of_ascii c in (48 <=? n)%nat && (n <=? 57)%nat.

(** [isValidGTIN]: [barcode.replace(/\D/g, '')] keeps the digits. *)
Definition isValidGTIN (barcode : string) : bool :=
  let digits := List.filter isDigit (list_ascii_of_string barcode) in
  let n := List.length digits in
  if negb ((n =? 8)%nat || (n =? 12)%nat || (n =? 13)%nat || (n =? 14)%nat)
  then false
  else (8 <=? n)%nat.

Definition validateAuditData (audit : CreateAuditRequest) : list string :=
  (if blank (rq_slotNumber audit) then ["Slot number is required"] else []) ++
  (if blank (rq_primaryBarcode audit) then ["Primary barcode is required"] else []) ++
  (if blank (rq_warehouseLogistics audit) then ["Warehouse logistics is required"] else []) ++
  (if blank (rq_auditors audit) then ["Auditor name is required"] else []) ++
  (if blank (rq_warehouseLocation audit) then ["Warehouse location is required"] else []) ++
  (if negb (String.eqb (rq_primaryBarcode audit) "") && negb (isValidGTIN (rq_primaryBarcode audit))
   then ["Invalid barcode format"] else []).

(** [parseBarcodeType] *)
Definition parseBarcodeType (barcode : string) : string :=
  if String.eqb barcode "" then "Unknown"
  else if String.prefix "]C1" barcode then "GS1-128"
  else if String.prefix "]d2" barcode then "GS1 DataMatrix"
  else
    let n := List.length (List.filter isDigit (list_ascii_of_string barcode)) in
    if (n =? 8)%nat || (n =? 12)%nat || (n =? 13)%nat || (n =? 14)%nat
    then
      if (n =? 8)%nat then "EAN-8"
      else if (n =? 12)%nat then "UPC-A"
      else if (n =? 13)%nat then "EAN-13"
      else if (n =? 14)%nat then "GTIN-14"
      else "GTIN"
    else "Unknown".

(** The result of [getAuditSummary]. *)
Record AuditSummary := mkAuditSummary {
  totalAudits : nat;
  syncedAudits : nat;
  pendingAudits : nat;
  todayAudits : nat;
  locations : list string;
  auditorNames : list string
}.

(** [getAuditSummary].  [toDateString] is [Date.prototype.toDateString] (it
    depends on the time zone of the host) and [today] is
    [new Date().toDateString()]. *)
Definition getAuditSummary (toDateString : Date -> string) (today : string)
           (audits : list AuditRecord) : AuditSummary :=
  {| totalAudits := List.length audits;
     syncedAudits := List.length (List.filter (fun audit => synced audit) audits);
     pendingAudits := List.length (List.filter (fun audit => negb (synced audit)) audits);
     todayAudits :=
       List.length (List.filter (fun audit => String.eqb (toDateString (dateReceived audit)) today)
                                audits);
     locations := AuditStateService.distinct (List.map warehouseLocation audits);
     auditorNames := AuditStateService.distinct (List.map auditors audits) |}.

End AuditTransformationService.

(* ===================================================================== *)
(** * The remote source, as the orchestrator sees it *)
(* ===================================================================== *)

(** The calls the orchestrator makes on [AuditApiService].  The service is a
    mock behind the CRUD contract; the orchestrator is modelled against the
    contract: a call is recorded when it is made, and its outcome reaches the
    orchestrator later as a [next] or an [error]. *)
Module AuditApiService.

Inductive Call :=
| getAudits
| createAudit (request : CreateAuditRequest)
| updateAudit (id : string) (request : CreateAuditRequest)
| deleteAudit (id : string).

End AuditApiService.

(** What an [error] callback receives: the properties the orchestrator reads.
    A property that is absent is [None]. *)
Record ApiFailure := mkApiFailure {
  f_status : option Z;
  f_error : option string;
  f_message : option string;
  f_serverAudit : option ApiAuditRecord
}.

(** [`${error.message}`] *)
Definition messageText (e : ApiFailure) : string :=
  match f_message e with Some m => m | None => "undefined" end.

(** [error?.error || fallback] *)
Definition errorOr (e : ApiFailure) (fallback : string) : string :=
  match f_error e with
  | Some m => if String.eqb m "" then fallback else m
  | None => fallback
  end.

(* ===================================================================== *)
(** * The mock behind AuditApiService (audit-api.service.ts) *)
(* ===================================================================== *)

(** The state of the mock is its array [mockAudits]; a method returns the
    array after the call and either the value the Observable emits or the
    error it fails with.  The delays of the Observables are left out. *)
Module AuditApiMock.

(** [ApiError] *)
Record ApiError := mkApiError {
  error : string;
  status : Z;
  timestamp : Z
}.

(** [Partial<CreateAuditRequest>]: a field that is absent is [None]. *)
Record PartialCreateAuditRequest := mkPartialCreateAuditRequest {
  pr_slotNumber : option string;
  pr_primaryBarcode : option string;
  pr_warehouseLogistics : option string;
  pr_comments : option string;
  pr_auditors : option string;
  pr_warehouseLocation : option string
}.

(** The request the orchestrator sends with an update: every field present. *)
Definition allFields (request : CreateAuditRequest) : PartialCreateAuditRequest :=
  mkPartialCreateAuditRequest
    (Some (rq_slotNumber request)) (Some (rq_primaryBarcode request))
    (Some (rq_warehouseLogistics request)) (Some (rq_comments request))
    (Some (rq_auditors request)) (Some (rq_warehouseLocation request)).

(** The four records the mock starts with. *)
Definition mockAudits : list ApiAuditRecord :=
  [mkApiAuditRecord "1" "A-001" "01304567890123456789" "Inbound" "Initial audit scan"
                    "2024-01-15" "09:30:00" "John Doe" "Warehouse A - Sector 1" (Some 1);
   mkApiAuditRecord "2" "B-045" "01305678901234567890" "Storage" "Weekly inventory check"
                    "2024-01-16" "14:15:00" "Jane Smith" "Warehouse B - Sector 3" (Some 1);
   mkApiAuditRecord "3" "C-122" "01306789012345678901" "Outbound" "Pre-shipment verification"
                    "2024-01-17" "11:45:00" "Mike Johnson" "Warehouse C - Loading Dock" (Some 1);
   mkApiAuditRecord "4" "A-234" "01307890123456789012" "Quality Check"
                    "Damaged packaging inspection" "2024-01-18" "16:20:00" "Sarah Wilson"
                    "Warehouse A - QC Station" (Some 1)].

Definition createApiError (t : Tick) (message : string) (code : Z) : ApiError :=
  mkApiError message code (now t).

(** [validateCreateRequest]: the first required field that is blank. *)
Definition validateCreateRequest (request : CreateAuditRequest) : option string :=
  if AuditTransformationService.blank (rq_slotNumber request)
  then Some "Slot number is required"
  else if AuditTransformationService.blank (rq_primaryBarcode request)
  then Some "Primary barcode is required"
  else if AuditTransformationService.blank (rq_warehouseLogistics request)
  then Some "Warehouse logistics is required"
  else if AuditTransformationService.blank (rq_auditors request)
  then Some "Auditor name is required"
  else if AuditTransformationService.blank (rq_warehouseLocation request)
  then Some "Warehouse location is required"
  else None.

(** [array.findIndex(a => a.ExternalId === id)]; [None] is [-1]. *)
Fixpoint findIndex (id : string) (audits : list ApiAuditRecord) : option nat :=
  match audits with
  | [] => None
  | a :: rest =>
      if String.eqb (ExternalId a) id then Some 0%nat
      else match findIndex id rest with
           | Some i => Some (S i)
           | None => None
           end
  end.

Definition getAudits (audits : list ApiAuditRecord) : list ApiAuditRecord := audits.

Definition getAudit (t : Tick) (id : string) (audits : list ApiAuditRecord)
  : ApiAuditRecord + ApiError :=
  if AuditTransformationService.blank id
  then inr (createApiError t "Audit ID is required" 400)
  else match List.find (fun a => String.eqb (ExternalId a) id) audits with
       | None => inr (createApiError t "Audit record not found" 404)
       | Some audit => inl audit
       end.

(** [createAudit]: the new identifier is the length of the array plus one. *)
Definition createAudit (t : Tick) (request : CreateAuditRequest)
           (audits : list ApiAuditRecord)
  : list ApiAuditRecord * (ApiAuditRecord + ApiError) :=
  match validateCreateRequest request with
  | Some validationError => (audits, inr (createApiError t validationError 400))
  | None =>
      let newAudit :=
        {| ExternalId := decimal (Z.of_nat (List.length audits) + 1);
           SlotNumber := rq_slotNumber request;
           PrimaryBarcode := rq_primaryBarcode request;
           WarehouseLogistics := rq_warehouseLogistics request;
           Comments := if String.eqb (rq_comments request) "" then ""
                       else rq_comments request;
           DateReceived := isoDate t;
           TimeReceived := timeOfDay t;
           Auditors := rq_auditors request;
           WarehouseLocation := rq_warehouseLocation request;
           Synced := Some 1 |} in
      (audits ++ [newAudit], inl newAudit)
  end.

(** [updateAudit]: [request.field ?? current.field] for each of the six
    fields; identifier and dates are kept. *)
Definition updateAudit (t : Tick) (id : string) (request : PartialCreateAuditRequest)
           (audits : list ApiAuditRecord)
  : list ApiAuditRecord * (ApiAuditRecord + ApiError) :=
  if AuditTransformationService.blank id
  then (audits, inr (createApiError t "Audit ID is required" 400))
  else match findIndex id audits with
       | None => (audits, inr (createApiError t "Audit record not found" 404))
       | Some index =>
           match audits !! index with
           | None => (audits, inr (createApiError t "Failed to update audit record" 500))
           | Some current =>
               let updatedAudit :=
                 {| ExternalId := ExternalId current;
                    SlotNumber := default (SlotNumber current) (pr_slotNumber request);
                    PrimaryBarcode := default (PrimaryBarcode current) (pr_primaryBarcode request);
                    WarehouseLogistics :=
                      default (WarehouseLogistics current) (pr_warehouseLogistics request);
                    Comments := default (Comments current) (pr_comments request);
                    DateReceived := DateReceived current;
                    TimeReceived := TimeReceived current;
                    Auditors := default (Auditors current) (pr_auditors request);
                    WarehouseLocation :=
                      default (WarehouseLocation current) (pr_warehouseLocation request);
                    Synced := Some 1 |} in
               (<[index := updatedAudit]> audits, inl updatedAudit)
           end
       end.

(** [deleteAudit]: [splice(index, 1)] at the first record of that identifier. *)
Definition deleteAudit (t : Tick) (id : string) (audits : list ApiAuditRecord)
  : list ApiAuditRecord * (unit + ApiError) :=
  if AuditTransformationService.blank id
  then (audits, inr (createApiError t "Audit ID is required" 400))
  else match findIndex id audits with
       | None => (audits, inr (createApiError t "Audit record not found" 404))
       | Some index => (firstn index audits ++ skipn (S index) audits, inl tt)
       end.

Definition getUnsyncedAudits (audits : list ApiAuditRecord) : list ApiAuditRecord :=
  List.filter (fun audit => match Synced audit with Some 0 => true | _ => false end) audits.

End AuditApiMock.

(* ===================================================================== *)
(** * AuditActionService: the orchestrator *)
(* ===================================================================== *)

Module AuditActionService.

Import AuditStorageService AuditTransformationService.

(** The injected services that hold state: the object store, the published
    view, the sync state, and the calls made on the remote source so far
    (oldest first). *)
Record World := mkWorld {
  db : gmap string OfflineAuditItem;
  ui : AuditStateService.State;
  sync : SyncStateService.State;
  remote : list AuditApiService.Call
}.

Definition initial : World :=
  mkWorld ∅ AuditStateService.initial SyncStateService.initial [].

Definition withDb (d : gmap string OfflineAuditItem) (w : World) : World :=
  mkWorld d (ui w) (sync w) (remote w).

Definition withUi (f : AuditStateService.State -> AuditStateService.State) (w : World) : World :=
  mkWorld (db w) (f (ui w)) (sync w) (remote w).

Definition withSync (f : SyncStateService.State -> SyncStateService.State) (w : World) : World :=
  mkWorld (db w) (ui w) (f (sync w)) (remote w).

(** The remote calls [cs] are made, in this order. *)
Definition dispatch (cs : list AuditApiService.Call) (w : World) : World :=
  mkWorld (db w) (ui w) (sync w) (remote w ++ cs).

(** [updatePendingCount].  The read of the pending records is a storage
    request of its own; it is taken at once, and only the pending count
    depends on it. *)
Definition updatePendingCount (w : World) : World :=
  withSync (SyncStateService.setPendingRecordsCount
              (Z.of_nat (List.length (getPendingItems (db w))))) w.

(** ** Load *)

(** [loadAudits]: what runs before the storage read resolves. *)
Definition loadAudits (w : World) : World :=
  withUi AuditStateService.clearError (withUi (AuditStateService.setLoading true) w).

(** [backgroundSyncFromServer], up to the remote call. *)
Definition backgroundSyncFromServer (t : Tick) (w : World) : World :=
  dispatch [AuditApiService.getAudits]
    (withSync (SyncStateService.setCurrentOperation (Some OpFetch) None)
       (withSync (SyncStateService.setSyncStatus (now t) Syncing) w)).

(** The callback of [getAllItems] in [loadFromStorage], up to a remote call. *)
Definition loadFromStorage (online : bool) (t : Tick) (w : World) : World :=
  let offlineItems := getAllItems (db w) in
  if (List.length offlineItems =? 0)%nat && online
  then dispatch [AuditApiService.getAudits] w
  else
    let audits := List.map (fun item => transformApiAuditToAudit (api item)) offlineItems in
    let w1 := updatePendingCount (withUi (AuditStateService.setAudits audits) w) in
    if online then backgroundSyncFromServer t w1
    else withUi (AuditStateService.setLoading false) w1.

(** [serverAudits.map(audit => saveItem(audit, 'synced'))] *)
Definition saveAllSynced (t : Tick) (serverAudits : list ApiAuditRecord)
           (d : gmap string OfflineAuditItem) : gmap string OfflineAuditItem :=
  fold_left (fun acc audit => fst (saveItem t audit StSynced acc)) serverAudits d.

(** [loadFromServerWithFallback]: the remote list arrived; the first
    statement of the callback publishes it. *)
Definition loadFromServerWithFallback_publish (serverAudits : list ApiAuditRecord)
           (w : World) : World :=
  withUi (AuditStateService.setAudits (transformApiAuditsToAudits serverAudits)) w.

(** [loadFromServerWithFallback]: the saves of the published list completed
    (the [then] of [Promise.all]).  Each save is a transaction of its own; the
    transactions are created one after the other in the task that published
    the list, so no other write to the store completes between them. *)
Definition loadFromServerWithFallback_saved (t : Tick) (serverAudits : list ApiAuditRecord)
           (w : World) : World :=
  withUi (AuditStateService.setLoading false)
    (withDb (saveAllSynced t serverAudits (db w)) w).

(** [loadFromServerWithFallback]: the remote list arrived.  The list is
    published first and saved to the store afterwards; this is the outcome
    when the saves succeed and complete before anything else runs
    ([loadFromServerWithFallback_publish], then
    [loadFromServerWithFallback_saved]). *)
Definition loadFromServerWithFallback_next (t : Tick) (serverAudits : list ApiAuditRecord)
           (w : World) : World :=
  let w1 := loadFromServerWithFallback_publish serverAudits w in
  let w2 := withDb (saveAllSynced t serverAudits (db w1)) w1 in
  withUi (AuditStateService.setLoading false) w2.

(** [loadFromServerWithFallback]: the remote call failed, or a save of the
    published list did (the [catchError]). *)
Definition loadFromServerWithFallback_error (w : World) : World :=
  withUi (AuditStateService.setLoading false)
    (withUi (AuditStateService.setError (Some "Failed to load audit records from server")) w).

(** [loadFromStorage]: the storage read failed (its [catchError]): online,
    [fallbackToServer] asks the remote source; offline, the load ends with an
    error. *)
Definition loadFromStorage_error (online : bool) (w : World) : World :=
  if online then dispatch [AuditApiService.getAudits] w
  else
    withUi (AuditStateService.setLoading false)
      (withUi (AuditStateService.setError
                 (Some "Failed to load audit records - offline and no cached data")) w).

(** [fallbackToServer]: the remote list arrived and is published; the saves
    are requested. *)
Definition fallbackToServer_publish (serverAudits : list ApiAuditRecord) (w : World) : World :=
  withUi (AuditStateService.setAudits (transformApiAuditsToAudits serverAudits)) w.

(** [fallbackToServer]: the saves completed; the [finalize] runs. *)
Definition fallbackToServer_saved (t : Tick) (serverAudits : list ApiAuditRecord)
           (w : World) : World :=
  withUi (AuditStateService.setLoading false)
    (withDb (saveAllSynced t serverAudits (db w)) w).

(** [fallbackToServer] when the saves succeed and complete before anything
    else runs. *)
Definition fallbackToServer_next (t : Tick) (serverAudits : list ApiAuditRecord)
           (w : World) : World :=
  fallbackToServer_saved t serverAudits (fallbackToServer_publish serverAudits w).

(** [fallbackToServer]: the remote call failed, or a save of the published
    list did (the [catchError], then the [finalize]). *)
Definition fallbackToServer_error (w : World) : World :=
  withUi (AuditStateService.setLoading false)
    (withUi (AuditStateService.setError (Some "Failed to load audit records from server")) w).

Definition finalizeBackgroundSync (w : World) : World :=
  updatePendingCount
    (withSync (SyncStateService.setCurrentOperation None None)
       (withUi (AuditStateService.setLoading false) w)).

(** [backgroundSyncFromServer]: the remote list arrived and its saves
    completed (the writes of [Promise.all(savePromises)]). *)
Definition backgroundSyncFromServer_saved (t : Tick) (serverAudits : list ApiAuditRecord)
           (w : World) : World :=
  withDb (saveAllSynced t serverAudits (db w)) w.

(** [backgroundSyncFromServer]: the [then] of [Promise.all] publishes the
    remote list and sets the status; the [finalize] follows. *)
Definition backgroundSyncFromServer_published (t : Tick) (serverAudits : list ApiAuditRecord)
           (w : World) : World :=
  finalizeBackgroundSync
    (withSync (SyncStateService.setSyncStatus (now t) Success)
       (withUi (AuditStateService.setAudits (transformApiAuditsToAudits serverAudits)) w)).

(** [backgroundSyncFromServer]: the remote list arrived; the outcome when the
    saves succeed and nothing else runs before the list is published
    ([backgroundSyncFromServer_saved], then
    [backgroundSyncFromServer_published]). *)
Definition backgroundSyncFromServer_next (t : Tick) (serverAudits : list ApiAuditRecord)
           (w : World) : World :=
  let w1 := withDb (saveAllSynced t serverAudits (db w)) w in
  let w2 := withUi (AuditStateService.setAudits (transformApiAuditsToAudits serverAudits)) w1 in
  let w3 := withSync (SyncStateService.setSyncStatus (now t) Success) w2 in
  finalizeBackgroundSync w3.

Definition backgroundSyncFromServer_error (w : World) : World :=
  finalizeBackgroundSync
    (withSync (SyncStateService.setSyncError (Some "Failed to sync with server")) w).

(** ** Create *)

(** The optimistic record built in [createAudit]. *)
Definition optimisticAuditOf (t : Tick) (apiRequest : CreateAuditRequest) : ApiAuditRecord :=
  {| ExternalId := localIdOf t;
     SlotNumber := rq_slotNumber apiRequest;
     PrimaryBarcode := rq_primaryBarcode apiRequest;
     WarehouseLogistics := rq_warehouseLogistics apiRequest;
     Comments := rq_comments apiRequest;
     DateReceived := isoDate t;
     TimeReceived := timeOfDay t;
     Auditors := rq_auditors apiRequest;
     WarehouseLocation := rq_warehouseLocation apiRequest;
     Synced := Some 0 |}.

(** The [finalize] of [syncCreateToServer] and of [syncDeleteToServer]. *)
Definition finalizeSync (w : World) : World :=
  updatePendingCount
    (withSync (SyncStateService.setCurrentOperation None None)
       (withUi (AuditStateService.setLoading false) w)).

(** [syncCreateToServer], up to the remote call. *)
Definition syncCreateToServer (t : Tick) (optimisticAudit : ApiAuditRecord)
           (apiRequest : CreateAuditRequest) (w : World) : World :=
  dispatch [AuditApiService.createAudit apiRequest]
    (withSync (SyncStateService.setCurrentOperation (Some OpCreate)
                 (Some (ExternalId optimisticAudit)))
       (withSync (SyncStateService.setSyncStatus (now t) Syncing) w)).

(** [syncCreateToServer]: the remote create succeeded with [serverAudit]. *)
Definition syncCreateToServer_next (t : Tick) (optimisticAudit serverAudit : ApiAuditRecord)
           (w : World) : World :=
  let d1 := removeItem (ExternalId optimisticAudit) (db w) in
  let d2 := fst (saveItem t serverAudit StSynced d1) in
  let w1 := withDb d2 w in
  let w2 := withUi (AuditStateService.updateAudit (transformApiAuditToAudit serverAudit)) w1 in
  let w3 := withSync (SyncStateService.setSyncStatus (now t) Success) w2 in
  finalizeSync w3.

(** [syncCreateToServer]: the remote create failed. *)
Definition syncCreateToServer_error (e : ApiFailure) (w : World) : World :=
  finalizeSync
    (withSync (SyncStateService.setSyncError
                 (Some ("Failed to sync create: " +:+ messageText e))) w).

(** [createAudit], the statements that run in the caller's task: the
    validation and, for a valid request, the flags; [saveItem] is requested. *)
Definition createAudit_called (request : CreateAuditRequest) (w : World) : World :=
  let validationErrors := validateAuditData request in
  if (0 <? List.length validationErrors)%nat
  then withUi (AuditStateService.setError (Some (String.concat ", " validationErrors))) w
  else withUi AuditStateService.clearError (withUi (AuditStateService.setLoading true) w).

(** [createAudit]: the request [saveItem] completed; the callback runs up to
    the remote call when there is one.  [t] is the reading from which the
    optimistic record was built. *)
Definition createAudit_stored (online : bool) (t : Tick) (request : CreateAuditRequest)
           (w : World) : World :=
  let apiRequest := transformCreateRequestToApiRequest request in
  let optimisticAudit := optimisticAuditOf t apiRequest in
  let saved := saveItem t optimisticAudit StPending (db w) in
  let w2 := withDb (fst saved) w in
  let w3 := withUi (AuditStateService.addAudit
                      (transformApiAuditToAudit (api (snd saved)))) w2 in
  let w4 := updatePendingCount w3 in
  if online then syncCreateToServer t optimisticAudit apiRequest w4
  else withUi (AuditStateService.setLoading false) w4.

(** [createAudit]: the request [saveItem] failed (the outer [catchError]). *)
Definition createAudit_storageError (e : ApiFailure) (w : World) : World :=
  withUi (AuditStateService.setLoading false)
    (withUi (AuditStateService.setError (Some (errorOr e "Failed to create audit record"))) w).

(** [createAudit], up to the remote call when there is one: the outcome when
    [saveItem] succeeds and completes before anything else runs
    ([createAudit_called], then [createAudit_stored]). *)
Definition createAudit (online : bool) (t : Tick) (request : CreateAuditRequest)
           (w : World) : World :=
  let validationErrors := validateAuditData request in
  if (0 <? List.length validationErrors)%nat
  then withUi (AuditStateService.setError (Some (String.concat ", " validationErrors))) w
  else
    let w1 := withUi AuditStateService.clearError
                (withUi (AuditStateService.setLoading true) w) in
    let apiRequest := transformCreateRequestToApiRequest request in
    let optimisticAudit := optimisticAuditOf t apiRequest in
    let saved := saveItem t optimisticAudit StPending (db w1) in
    let w2 := withDb (fst saved) w1 in
    let w3 := withUi (AuditStateService.addAudit
                        (transformApiAuditToAudit (api (snd saved)))) w2 in
    let w4 := updatePendingCount w3 in
    if online then syncCreateToServer t optimisticAudit apiRequest w4
    else withUi (AuditStateService.setLoading false) w4.

(** ** Update *)

(** [updateAudit], up to the remote call when there is one. *)
Definition updateAudit (request : UpdateAuditRequest) (w : World) : World :=
  let validationErrors := validateAuditData (up_fields request) in
  if (0 <? List.length validationErrors)%nat
  then withUi (AuditStateService.setError (Some (String.concat ", " validationErrors))) w
  else
    let w1 := withUi AuditStateService.clearError
                (withUi (AuditStateService.setLoading true) w) in
    dispatch [AuditApiService.updateAudit (up_externalId request)
                (transformUpdateRequestToApiRequest request)] w1.

(** [updateAudit]: the remote update succeeded with [apiAudit]. *)
Definition updateAudit_next (apiAudit : ApiAuditRecord) (w : World) : World :=
  withUi (AuditStateService.setLoading false)
    (withUi (AuditStateService.updateAudit (transformApiAuditToAudit apiAudit)) w).

(** [updateAudit]: the remote update failed. *)
Definition updateAudit_error (e : ApiFailure) (w : World) : World :=
  withUi (AuditStateService.setLoading false)
    (withUi (AuditStateService.setError (Some (errorOr e "Failed to update audit record"))) w).

(** ** Delete *)

(** [syncDeleteToServer], up to the remote call. *)
Definition syncDeleteToServer (t : Tick) (id : string) (w : World) : World :=
  dispatch [AuditApiService.deleteAudit id]
    (withSync (SyncStateService.setCurrentOperation (Some OpDelete) (Some id))
       (withSync (SyncStateService.setSyncStatus (now t) Syncing) w)).

(** [syncDeleteToServer]: the remote delete succeeded. *)
Definition syncDeleteToServer_next (t : Tick) (id : string) (w : World) : World :=
  let w1 := withDb (removeItem id (db w)) w in
  finalizeSync (withSync (SyncStateService.setSyncStatus (now t) Success) w1).

(** [syncDeleteToServer]: the remote delete failed.  The [catchError] of
    [syncDeleteToServer] replaces the failure by a value, so the outer
    [catchError] of [deleteAudit], the only caller of [restoreDeletedAudit],
    does not run. *)
Definition syncDeleteToServer_error (e : ApiFailure) (w : World) : World :=
  finalizeSync
    (withSync (SyncStateService.setSyncError
                 (Some ("Failed to sync delete: " +:+ messageText e))) w).

(** [restoreDeletedAudit]: "just reload all audits". *)
Definition restoreDeletedAudit (id : string) (w : World) : World := loadAudits w.

(** [deleteAudit], the statements that run in the caller's task: the flags
    and the removal from the view; [deleteItem] is requested. *)
Definition deleteAudit_called (id : string) (w : World) : World :=
  withUi (AuditStateService.removeAudit id)
    (withUi AuditStateService.clearError (withUi (AuditStateService.setLoading true) w)).

(** [deleteAudit]: the request [deleteItem] completed; the callback runs up
    to the remote call when there is one. *)
Definition deleteAudit_stored (online : bool) (t : Tick) (id : string) (w : World) : World :=
  let w3 := withDb (deleteItem t id (db w)) w in
  let w4 := updatePendingCount w3 in
  if online then syncDeleteToServer t id w4
  else withUi (AuditStateService.setLoading false) w4.

(** [deleteAudit]: the request [deleteItem] failed (the outer [catchError]):
    the reload is started, then the error is set. *)
Definition deleteAudit_storageError (e : ApiFailure) (id : string) (w : World) : World :=
  withUi (AuditStateService.setLoading false)
    (withUi (AuditStateService.setError (Some (errorOr e "Failed to delete audit record")))
       (restoreDeletedAudit id w)).

(** [deleteAudit], up to the remote call when there is one: the outcome when
    [deleteItem] succeeds and completes before anything else runs
    ([deleteAudit_called], then [deleteAudit_stored]). *)
Definition deleteAudit (online : bool) (t : Tick) (id : string) (w : World) : World :=
  let w1 := withUi AuditStateService.clearError
              (withUi (AuditStateService.setLoading true) w) in
  let w2 := withUi (AuditStateService.removeAudit id) w1 in
  let w3 := withDb (deleteItem t id (db w2)) w2 in
  let w4 := updatePendingCount w3 in
  if online then syncDeleteToServer t id w4
  else withUi (AuditStateService.setLoading false) w4.

(** ** Manual synchronisation *)

(** The variables [processed] and [total] closed over by the callbacks of
    one run of [processPendingAudits]. *)
Record SyncRun := mkSyncRun {
  processed : nat;
  total : nat
}.

(** The remote call made for one pending record. *)
Definition callForPending (audit : OfflineAuditItem) : AuditApiService.Call :=
  let apiRequest := transformOfflineRecordToApiRequest audit in
  if startsWith_local (ExternalId (api audit))
  then AuditApiService.createAudit apiRequest
  else AuditApiService.updateAudit (ExternalId (api audit)) apiRequest.

(** The remote call made for one soft-deleted record. *)
Definition callForDeleted (audit : OfflineAuditItem) : AuditApiService.Call :=
  AuditApiService.deleteAudit (ExternalId (api audit)).

(** [processPendingAudits]: the two [forEach] loops subscribe to one remote
    call per record; the callbacks run when the calls report. *)
Definition processPendingAudits (pendingItems deletedItems : list OfflineAuditItem)
           (w : World) : World * SyncRun :=
  (dispatch (List.map callForPending pendingItems ++ List.map callForDeleted deletedItems) w,
   mkSyncRun 0 (List.length pendingItems + List.length deletedItems)).

(** [syncToServer].  The result holds the closure of the run when
    [processPendingAudits] was entered. *)
Definition syncToServer (online : bool) (t : Tick) (w : World) : World * option SyncRun :=
  if negb online
  then (withSync (SyncStateService.setSyncError (Some "Cannot sync: offline")) w, None)
  else if SyncStateService.isSyncing (sync w)
  then (w, None)
  else
    let w1 := withSync (SyncStateService.setCurrentOperation (Some OpFetch) None)
                (withSync (SyncStateService.setSyncStatus (now t) Syncing) w) in
    let pendingItems := getPendingItems (db w1) in
    let deletedItems := getDeletedItems (db w1) in
    let totalItems := (List.length pendingItems + List.length deletedItems)%nat in
    if (totalItems =? 0)%nat
    then (withSync (SyncStateService.setCurrentOperation None None)
            (withSync (SyncStateService.setSyncStatus (now t) Success) w1), None)
    else
      let r := processPendingAudits pendingItems deletedItems w1 in
      (fst r, Some (snd r)).

Definition handleSyncSuccess (t : Tick) (localId : string) (serverAudit : ApiAuditRecord)
           (w : World) : World :=
  if startsWith_local localId
  then
    let d1 := removeItem localId (db w) in
    let d2 := fst (saveItem t serverAudit StSynced d1) in
    withUi (AuditStateService.updateAudit (transformApiAuditToAudit serverAudit))
      (withDb d2 w)
  else
    withUi (AuditStateService.updateAudit (transformApiAuditToAudit serverAudit))
      (withDb (markAsSynced t localId (db w)) w).

(** [isConflictError]: an object with a [status] of 409 and a [serverAudit]. *)
Definition isConflictError (e : ApiFailure) : bool :=
  match f_status e, f_serverAudit e with
  | Some 409, Some _ => true
  | _, _ => false
  end.

Definition handleConflict (t : Tick) (localId : string) (serverAudit : ApiAuditRecord)
           (w : World) : World :=
  match getItem localId (db w) with
  | None => w
  | Some localAudit =>
      match AuditSyncService.detectConflict (now t) (api localAudit) serverAudit
              (_lastModified localAudit) with
      | None => w
      | Some conflict =>
          let resolution := AuditSyncService.resolveConflict conflict in
          let w1 := withSync (SyncStateService.addConflict localId
                                (AuditSyncService.localModified conflict)
                                (AuditSyncService.serverModified conflict)) w in
          match resolution with
          | AuditSyncService.use_server =>
              let d := fst (saveItem t serverAudit StSynced (db w1)) in
              withSync (SyncStateService.markConflictResolved localId)
                (withUi (AuditStateService.updateAudit
                           (transformApiAuditToAudit serverAudit)) (withDb d w1))
          | AuditSyncService.use_local =>
              withSync (SyncStateService.markConflictResolved localId) w1
          end
      end
  end.

Definition handleSyncError (t : Tick) (auditId : string) (e : ApiFailure) (w : World) : World :=
  match isConflictError e, f_serverAudit e with
  | true, Some serverAudit => handleConflict t auditId serverAudit w
  | _, _ => w
  end.

(** [checkSyncCompletion].  Of [loadAudits] only the part that runs in the
    same task is applied; its storage read resolves in a later task
    ([loadFromStorage]). *)
Definition checkSyncCompletion (t : Tick) (processed total : nat) (w : World) : World :=
  if (processed =? total)%nat
  then
    loadAudits
      (updatePendingCount
         (withSync (SyncStateService.setCurrentOperation None None)
            (withSync (SyncStateService.setSyncStatus (now t) Success) w)))
  else w.

(** One remote call of a manual run reports. *)
Inductive Report :=
| report_next (audit : OfflineAuditItem) (serverAudit : ApiAuditRecord)
    (** [next] of a create or of an update *)
| report_deleted (audit : OfflineAuditItem)
    (** [next] of a delete *)
| report_error (audit : OfflineAuditItem) (e : ApiFailure).
    (** [error] of a create, an update or a delete *)

(** The callback of one report: the handler, then [processed++], then
    [checkSyncCompletion(processed, total)]. *)
Definition report (t : Tick) (r : Report) (st : World * SyncRun) : World * SyncRun :=
  let w := fst st in
  let run := snd st in
  let w1 :=
    match r with
    | report_next audit serverAudit =>
        handleSyncSuccess t (ExternalId (api audit)) serverAudit w
    | report_deleted audit =>
        withDb (removeItem (ExternalId (api audit)) (db w)) w
    | report_error audit e =>
        handleSyncError t (ExternalId (api audit)) e w
    end in
  let run1 := mkSyncRun (S (processed run)) (total run) in
  (checkSyncCompletion t (processed run1) (total run1) w1, run1).

(** The reports of a run, in the order in which they arrive. *)
Definition reports (rs : list (Tick * Report)) (st : World * SyncRun) : World * SyncRun :=
  fold_left (fun acc tr => report (fst tr) (snd tr) acc) rs st.

(** ** Selection *)

(** [selectAudit]: a [null] or empty identifier clears the selection;
    otherwise the first record of the view with that identifier is selected,
    or nothing when there is none. *)
Definition selectAudit (auditId : option string) (w : World) : World :=
  match auditId with
  | None => withUi (AuditStateService.selectAudit None) w
  | Some id =>
      if String.eqb id "" then withUi (AuditStateService.selectAudit None) w
      else
        withUi (AuditStateService.selectAudit
                  (List.find (fun a => String.eqb (externalId a) id)
                             (AuditStateService.audits (ui w)))) w
  end.

Definition clearSelection (w : World) : World :=
  withUi (AuditStateService.selectAudit None) w.

(** ** Sequences of operations *)

(** What can happen to the orchestrator when operations do not overlap: a
    public action is called and its storage requests complete (or, for
    [createAudit], [deleteAudit] and the storage read of a load, fail) before
    anything else runs, or a remote call made earlier reports and the
    storage requests of its callback complete.  The reports carry the values
    the callbacks close over. *)
Inductive Event :=
| EvCreate (online : bool) (t : Tick) (request : CreateAuditRequest)
| EvCreateStorageError (request : CreateAuditRequest) (e : ApiFailure)
| EvCreateNext (t : Tick) (optimisticAudit serverAudit : ApiAuditRecord)
| EvCreateError (e : ApiFailure)
| EvUpdate (request : UpdateAuditRequest)
| EvUpdateNext (apiAudit : ApiAuditRecord)
| EvUpdateError (e : ApiFailure)
| EvDelete (online : bool) (t : Tick) (id : string)
| EvDeleteStorageError (id : string) (e : ApiFailure)
| EvDeleteNext (t : Tick) (id : string)
| EvDeleteError (e : ApiFailure)
| EvLoad
| EvLoadFromStorage (online : bool) (t : Tick)
| EvLoadStorageError (online : bool)
| EvLoadServerNext (t : Tick) (serverAudits : list ApiAuditRecord)
| EvLoadServerError
| EvFallbackNext (t : Tick) (serverAudits : list ApiAuditRecord)
| EvFallbackError
| EvBackgroundNext (t : Tick) (serverAudits : list ApiAuditRecord)
| EvBackgroundError
| EvSyncToServer (online : bool) (t : Tick)
| EvReport (t : Tick) (r : Report) (run : SyncRun).

Definition step (ev : Event) (w : World) : World :=
  match ev with
  | EvCreate online t request => createAudit online t request w
  | EvCreateStorageError request e =>
      if (0 <? List.length (validateAuditData request))%nat
      then createAudit_called request w
      else createAudit_storageError e (createAudit_called request w)
  | EvCreateNext t optimisticAudit serverAudit =>
      syncCreateToServer_next t optimisticAudit serverAudit w
  | EvCreateError e => syncCreateToServer_error e w
  | EvUpdate request => updateAudit request w
  | EvUpdateNext apiAudit => updateAudit_next apiAudit w
  | EvUpdateError e => updateAudit_error e w
  | EvDelete online t id => deleteAudit online t id w
  | EvDeleteStorageError id e => deleteAudit_storageError e id (deleteAudit_called id w)
  | EvDeleteNext t id => syncDeleteToServer_next t id w
  | EvDeleteError e => syncDeleteToServer_error e w
  | EvLoad => loadAudits w
  | EvLoadFromStorage online t => loadFromStorage online t w
  | EvLoadStorageError online => loadFromStorage_error online w
  | EvLoadServerNext t serverAudits => loadFromServerWithFallback_next t serverAudits w
  | EvLoadServerError => loadFromServerWithFallback_error w
  | EvFallbackNext t serverAudits => fallbackToServer_next t serverAudits w
  | EvFallbackError => fallbackToServer_error w
  | EvBackgroundNext t serverAudits => backgroundSyncFromServer_next t serverAudits w
  | EvBackgroundError => backgroundSyncFromServer_error w
  | EvSyncToServer online t => fst (syncToServer online t w)
  | EvReport t r run => fst (report t r (w, run))
  end.

Definition run (evs : list Event) (w : World) : World :=
  fold_left (fun acc ev => step ev acc) evs w.

(** ** Tasks *)

(** The tasks of the event loop in which the orchestrator runs: the call of
    a public action (up to its first storage request or remote call); the
    completion, or the failure, of the storage request of a create, of a
    delete or of a load, with the callback that consumes it; the saves of a
    remote list and its publication; and the report of a remote call, with
    the storage requests of its callback.  Nothing orders the tasks of
    different operations: any list of tasks is a schedule. *)
Inductive Task :=
| TCreateCalled (request : CreateAuditRequest)
| TCreateStored (online : bool) (t : Tick) (request : CreateAuditRequest)
| TCreateStorageError (e : ApiFailure)
| TCreateNext (t : Tick) (optimisticAudit serverAudit : ApiAuditRecord)
| TCreateError (e : ApiFailure)
| TUpdate (request : UpdateAuditRequest)
| TUpdateNext (apiAudit : ApiAuditRecord)
| TUpdateError (e : ApiFailure)
| TDeleteCalled (id : string)
| TDeleteStored (online : bool) (t : Tick) (id : string)
| TDeleteStorageError (e : ApiFailure) (id : string)
| TDeleteNext (t : Tick) (id : string)
| TDeleteError (e : ApiFailure)
| TLoad
| TLoadFromStorage (online : bool) (t : Tick)
| TLoadStorageError (online : bool)
| TLoadServerPublished (serverAudits : list ApiAuditRecord)
| TLoadServerSaved (t : Tick) (serverAudits : list ApiAuditRecord)
| TLoadServerError
| TFallbackPublished (serverAudits : list ApiAuditRecord)
| TFallbackSaved (t : Tick) (serverAudits : list ApiAuditRecord)
| TFallbackError
| TBackgroundSaved (t : Tick) (serverAudits : list ApiAuditRecord)
| TBackgroundPublished (t : Tick) (serverAudits : list ApiAuditRecord)
| TBackgroundError
| TSyncToServer (online : bool) (t : Tick)
| TReport (t : Tick) (r : Report) (run : SyncRun).

Definition task (k : Task) (w : World) : World :=
  match k with
  | TCreateCalled request => createAudit_called request w
  | TCreateStored online t request => createAudit_stored online t request w
  | TCreateStorageError e => createAudit_storageError e w
  | TCreateNext t optimisticAudit serverAudit =>
      syncCreateToServer_next t optimisticAudit serverAudit w
  | TCreateError e => syncCreateToServer_error e w
  | TUpdate request => updateAudit request w
  | TUpdateNext apiAudit => updateAudit_next apiAudit w
  | TUpdateError e => updateAudit_error e w
  | TDeleteCalled id => deleteAudit_called id w
  | TDeleteStored online t id => deleteAudit_stored online t id w
  | TDeleteStorageError e id => deleteAudit_storageError e id w
  | TDeleteNext t id => syncDeleteToServer_next t id w
  | TDeleteError e => syncDeleteToServer_error e w
  | TLoad => loadAudits w
  | TLoadFromStorage online t => loadFromStorage online t w
  | TLoadStorageError online => loadFromStorage_error online w
  | TLoadServerPublished serverAudits => loadFromServerWithFallback_publish serverAudits w
  | TLoadServerSaved t serverAudits => loadFromServerWithFallback_saved t serverAudits w
  | TLoadServerError => loadFromServerWithFallback_error w
  | TFallbackPublished serverAudits => fallbackToServer_publish serverAudits w
  | TFallbackSaved t serverAudits => fallbackToServer_saved t serverAudits w
  | TFallbackError => fallbackToServer_error w
  | TBackgroundSaved t serverAudits => backgroundSyncFromServer_saved t serverAudits w
  | TBackgroundPublished t serverAudits => backgroundSyncFromServer_published t serverAudits w
  | TBackgroundError => backgroundSyncFromServer_error w
  | TSyncToServer online t => fst (syncToServer online t w)
  | TReport t r run => fst (report t r (w, run))
  end.

Definition tasks (ks : list Task) (w : World) : World :=
  fold_left (fun acc k => task k acc) ks w.

(** The tasks of an event, in the order in which they run when nothing else
    runs in between. *)
Definition tasksOf (ev : Event) : list Task :=
  match ev with
  | EvCreate online t request =>
      if (0 <? List.length (validateAuditData request))%nat
      then [TCreateCalled request]
      else [TCreateCalled request; TCreateStored online t request]
  | EvCreateStorageError request e =>
      if (0 <? List.length (validateAuditData request))%nat
      then [TCreateCalled request]
      else [TCreateCalled request; TCreateStorageError e]
  | EvCreateNext t optimisticAudit serverAudit => [TCreateNext t optimisticAudit serverAudit]
  | EvCreateError e => [TCreateError e]
  | EvUpdate request => [TUpdate request]
  | EvUpdateNext apiAudit => [TUpdateNext apiAudit]
  | EvUpdateError e => [TUpdateError e]
  | EvDelete online t id => [TDeleteCalled id; TDeleteStored online t id]
  | EvDeleteStorageError id e => [TDeleteCalled id; TDeleteStorageError e id]
  | EvDeleteNext t id => [TDeleteNext t id]
  | EvDeleteError e => [TDeleteError e]
  | EvLoad => [TLoad]
  | EvLoadFromStorage online t => [TLoadFromStorage online t]
  | EvLoadStorageError online => [TLoadStorageError online]
  | EvLoadServerNext t serverAudits =>
      [TLoadServerPublished serverAudits; TLoadServerSaved t serverAudits]
  | EvLoadServerError => [TLoadServerError]
  | EvFallbackNext t serverAudits =>
      [TFallbackPublished serverAudits; TFallbackSaved t serverAudits]
  | EvFallbackError => [TFallbackError]
  | EvBackgroundNext t serverAudits =>
      [TBackgroundSaved t serverAudits; TBackgroundPublished t serverAudits]
  | EvBackgroundError => [TBackgroundError]
  | EvSyncToServer online t => [TSyncToServer online t]
  | EvReport t r run => [TReport t r run]
  end.

(** The schedule in which the operations [evs] do not overlap. *)
Definition settled (evs : list Event) : list Task := flat_map tasksOf evs.

End AuditActionService.

(* ===================================================================== *)
(** * Sample data used by the closed examples *)
(* ===================================================================== *)

Definition tick0 : Tick := mkTick 1700000000000 "k3j9x0q2a" "2023-11-14" "22:13:20".
Definition tick1 : Tick := mkTick 1700000000400 "p0o9i8u7y" "2023-11-14" "22:13:21".

Definition request0 : CreateAuditRequest :=
  mkCreateAuditRequest "A-001" "12345678901234" "Inbound" "New audit entry"
                       "John Doe" "Warehouse A - Zone 1".

(** The record the remote source answers a create of [request0] with, when it
    already holds four records. *)
Definition server5 : ApiAuditRecord :=
  mkApiAuditRecord "5" "A-001" "12345678901234" "Inbound" "New audit entry"
                   "2023-11-14" "22:13:20" "John Doe" "Warehouse A - Zone 1" (Some 1).

(** The first record of the mock data of the remote source, and an edit of it. *)
Definition audit1 : ApiAuditRecord :=
  mkApiAuditRecord "1" "A-001" "01304567890123456789" "Inbound" "Initial audit scan"
                   "2024-01-15" "09:30:00" "John Doe" "Warehouse A - Sector 1" (Some 1).

Definition audit1_edited : ApiAuditRecord :=
  mkApiAuditRecord "1" "A-001" "01304567890123456789" "Inbound" "Recounted"
                   "2024-01-15" "09:30:00" "John Doe" "Warehouse A - Sector 1" (Some 1).

Definition failure404 : ApiFailure :=
  mkApiFailure (Some 404) (Some "Audit record not found") None None.

Definition tick2 : Tick := mkTick 1700000000900 "z1x2c3v4b" "2023-11-14" "22:13:22".

(** The second record of the mock data of the remote source. *)
Definition audit2 : ApiAuditRecord :=
  mkApiAuditRecord "2" "B-045" "01305678901234567890" "Storage" "Weekly inventory check"
                   "2024-01-16" "14:15:00" "Jane Smith" "Warehouse B - Sector 3" (Some 1).

(* ===================================================================== *)
(** * Predicates used in the statements *)
(* ===================================================================== *)

(** At least one of the six business fields differs. *)
Definition someBusinessFieldDiffers (l s : ApiAuditRecord) : Prop :=
  SlotNumber l <> SlotNumber s \/
  PrimaryBarcode l <> PrimaryBarcode s \/
  WarehouseLogistics l <> WarehouseLogistics s \/
  Comments l <> Comments s \/
  Auditors l <> Auditors s \/
  WarehouseLocation l <> WarehouseLocation s.

(** The decision that C3 describes for a record last synchronised at
    [baseline]: a conflict when a business field differs and the local
    modification is after the baseline. *)
Definition conflict_by_baseline (baseline : Z) (l s : ApiAuditRecord) (lm : Z) : Prop :=
  someBusinessFieldDiffers l s /\ baseline < lm.

(** All six business fields agree. *)
Definition sameBusinessFields (l s : ApiAuditRecord) : Prop :=
  SlotNumber l = SlotNumber s /\
  PrimaryBarcode l = PrimaryBarcode s /\
  WarehouseLogistics l = WarehouseLogistics s /\
  Comments l = Comments s /\
  Auditors l = Auditors s /\
  WarehouseLocation l = WarehouseLocation s.

(** A status of success comes with no error. *)
Definition success_has_no_error (s : SyncStateService.State) : Prop :=
  SyncStateService.syncStatus s = Success -> SyncStateService.syncError s = None.

(** A call whose error argument, if any, is [null] or a non-empty message. *)
Definition error_argument_not_empty (c : SyncStateService.Call) : Prop :=
  match c with
  | SyncStateService.CSetSyncError (Some m) => m <> ""
  | _ => True
  end.

(** Every stored record sits under its own [ExternalId]: the object store
    reads the key of a record from its key path. *)
Definition keyed (d : gmap string OfflineAuditItem) : Prop :=
  forall k item, d !! k = Some item -> ExternalId (api item) = k.

(** No record of the list [l] is stored with the status deleted. *)
Definition never_deleted (d : gmap string OfflineAuditItem) (l : list AuditRecord) : Prop :=
  forall a item, In a l -> d !! externalId a = Some item -> _status item <> StDeleted.

(** The active view holds no record whose stored status is deleted. *)
Definition view_never_deleted (w : AuditActionService.World) : Prop :=
  never_deleted (AuditActionService.db w)
                (AuditStateService.audits (AuditActionService.ui w)).

(** [item.ExternalId === id] *)
Definition hasId (id : string) (item : OfflineAuditItem) : bool :=
  String.eqb (ExternalId (api item)) id.

(** A fresh session in which a sync is in progress. *)
Definition world_syncing : AuditActionService.World :=
  AuditActionService.withSync (SyncStateService.setSyncStatus 1700000000000 Syncing)
                              AuditActionService.initial.

(** A session after the first load from the remote source, which answered
    with the single record [audit1]. *)
Definition world_loaded : AuditActionService.World :=
  AuditActionService.loadFromServerWithFallback_next tick0 [audit1]
                                                     AuditActionService.initial.

(** A store with three pending records (two created locally, one known to the
    remote source) and one soft-deleted record, in an idle session. *)
Definition pending_a : OfflineAuditItem :=
  mkOfflineAuditItem
    (mkApiAuditRecord "local_1700000000000_k3j9x0q2a" "A-001" "12345678901234" "Inbound"
                      "New audit entry" "2023-11-14" "22:13:20" "John Doe"
                      "Warehouse A - Zone 1" (Some 0))
    "local_1700000000000_k3j9x0q2a" StPending 1700000000000 None.

Definition pending_b : OfflineAuditItem :=
  mkOfflineAuditItem
    (mkApiAuditRecord "local_1700000000400_p0o9i8u7y" "B-002" "12345678" "Storage"
                      "" "2023-11-14" "22:13:21" "Jane Smith"
                      "Warehouse B - Sector 3" (Some 0))
    "local_1700000000400_p0o9i8u7y" StPending 1700000000400 None.

Definition pending_c : OfflineAuditItem :=
  mkOfflineAuditItem
    (mkApiAuditRecord "2" "B-045" "01305678901234567890" "Storage" "Weekly inventory check"
                      "2024-01-16" "14:15:00" "Jane Smith" "Warehouse B - Sector 3" (Some 1))
    "2" StPending 1700000000500 None.

Definition deleted_d : OfflineAuditItem :=
  mkOfflineAuditItem audit1 "1" StDeleted 1700000000600 None.

Definition world_pending : AuditActionService.World :=
  AuditActionService.withDb
    (AuditStorageService.put pending_a
       (AuditStorageService.put pending_b
          (AuditStorageService.put pending_c
             (AuditStorageService.put deleted_d ∅))))
    AuditActionService.initial.

(** The store is keyed by [ExternalId] and the view shows no deleted record. *)
Definition consistent (w : AuditActionService.World) : Prop :=
  keyed (AuditActionService.db w) /\ view_never_deleted w.

(** A session, online: the first load brings records 1 and 2 from the remote
    source; a record is created; record 1 is deleted before the remote create
    reports; then the create succeeds and the delete fails.  At the end the
    view shows record 2 and the created record, and the store keeps record 1
    as deleted. *)
Definition sample_events : list AuditActionService.Event :=
  [AuditActionService.EvLoad;
   AuditActionService.EvLoadFromStorage true tick0;
   AuditActionService.EvLoadServerNext tick0 [audit1; audit2];
   AuditActionService.EvCreate true tick1 request0;
   AuditActionService.EvDelete true tick2 "1";
   AuditActionService.EvCreateNext tick2
     (AuditActionService.optimisticAuditOf tick1 request0) server5;
   AuditActionService.EvDeleteError failure404].

(** A session, online, in which a delete overlaps a background sync.  The
    first load brings record 1 from the remote source and saves it.  A second
    load shows it from the store and asks the remote source again.  The user
    deletes record 1: it leaves the view and [deleteItem] is requested.  The
    remote list, which still holds record 1, is saved and published.  Then
    [deleteItem] completes. *)
Definition overlapping_tasks : list AuditActionService.Task :=
  [AuditActionService.TLoad;
   AuditActionService.TLoadFromStorage true tick0;
   AuditActionService.TLoadServerPublished [audit1];
   AuditActionService.TLoadServerSaved tick0 [audit1];
   AuditActionService.TLoad;
   AuditActionService.TLoadFromStorage true tick1;
   AuditActionService.TDeleteCalled "1";
   AuditActionService.TBackgroundSaved tick1 [audit1];
   AuditActionService.TBackgroundPublished tick1 [audit1];
   AuditActionService.TDeleteStored true tick2 "1"].

(** The session [world_loaded] after record 1 was deleted online and the
    remote delete failed: the store keeps record 1 as deleted. *)
Definition world_soft_deleted : AuditActionService.World :=
  AuditActionService.syncDeleteToServer_error failure404
    (AuditActionService.deleteAudit true tick1 "1" world_loaded).


(** At most one conflict is kept per item. *)
Definition conflicts_unique (s : SyncStateService.State) : Prop :=
  List.NoDup (List.map itemId (SyncStateService.conflicts s)).

(** The conflicts kept for the item [id]. *)
Definition conflictsOf (id : string) (s : SyncStateService.State) : list ConflictInfo :=
  List.filter (fun c => String.eqb (itemId c) id) (SyncStateService.conflicts s).

(** The text of one no-break space, U+00A0. *)
Definition no_break_space : string := String "194" (String "160" EmptyString).

(** A request whose slot number is a no-break space. *)
Definition request_nbsp_slot : CreateAuditRequest :=
  mkCreateAuditRequest no_break_space "12345678901234" "Inbound" "" "John Doe"
                       "Warehouse A - Zone 1".

(** A request whose slot number is blank (white space only). *)
Definition request_blank_slot : CreateAuditRequest :=
  mkCreateAuditRequest "  " "12345678901234" "Inbound" "" "John Doe" "Warehouse A - Zone 1".

(** A store with one pending record, [pending_c] under identifier 2. *)
Definition store_pending_c : gmap string OfflineAuditItem :=
  AuditStorageService.put pending_c ∅.

(** A store with one soft-deleted record, [deleted_d] under identifier 1. *)
Definition store_deleted_d : gmap string OfflineAuditItem :=
  AuditStorageService.put deleted_d ∅.

(** An update of the comments only. *)
Definition updates_comments : AuditStorageService.PartialApiAuditRecord :=
  AuditStorageService.mkPartialApiAuditRecord None None None None (Some "Recounted")
                                              None None None None None.

(** An update that also carries another identifier. *)
Definition updates_rekey : AuditStorageService.PartialApiAuditRecord :=
  AuditStorageService.mkPartialApiAuditRecord (Some "9") None None None (Some "Recounted")
                                              None None None None None.

(** The sizes of the groups of [auditsByLocation], added up. *)
Definition groupSizes (groups : list (string * list AuditRecord)) : nat :=
  fold_right (fun g n => (List.length (snd g) + n)%nat) 0%nat groups.

(** The number of decimal digits in a barcode. *)
Definition digitCount (barcode : string) : nat :=
  List.length (List.filter AuditTransformationService.isDigit (list_ascii_of_string barcode)).

(** A count of digits that a GTIN can have. *)
Definition gtinLength (n : nat) : Prop := n = 8%nat \/ n = 12%nat \/ n = 13%nat \/ n = 14%nat.

(** The identifier of the record for which a report says that its remote
    call succeeded; [None] for a report of failure. *)
Definition succeededFor (r : AuditActionService.Report) : option string :=
  match r with
  | AuditActionService.report_next audit _ => Some (ExternalId (api audit))
  | AuditActionService.report_deleted audit => Some (ExternalId (api audit))
  | AuditActionService.report_error _ _ => None
  end.

(** Something is stored under [k] that is not synced: pending or deleted. *)
Definition unsettled (d : gmap string OfflineAuditItem) (k : string) : Prop :=
  exists item, d !! k = Some item /\ _status item <> StSynced.

(** Four reports of success for the four records of [world_pending]. *)
Definition reports_all_succeed : list (Tick * AuditActionService.Report) :=
  [(tick1, AuditActionService.report_deleted deleted_d);
   (tick1, AuditActionService.report_next pending_a server5);
   (tick1, AuditActionService.report_next pending_c (api pending_c));
   (tick1, AuditActionService.report_next pending_b
             (mkApiAuditRecord "6" "B-002" "12345678" "Storage" "" "2023-11-14" "22:13:21"
                               "Jane Smith" "Warehouse B - Sector 3" (Some 1)))].

(* ===================================================================== *)
(** * Conflict detection and resolution *)
(* ===================================================================== *)

Section ConflictDetector.

Import AuditSyncService.

Lemma strict_neq_true (a b : string) : strict_neq a b = true <-> a <> b.
Proof.
  unfold strict_neq. rewrite negb_true_iff. split.
  - intros H Heq. apply String.eqb_eq in Heq. congruence.
  - intros H. apply String.eqb_neq. exact H.
Qed.

Lemma strict_neq_false (a b : string) : strict_neq a b = false <-> a = b.
Proof.
  unfold strict_neq. rewrite negb_false_iff. apply String.eqb_eq.
Qed.

Lemma businessFieldsDiffer_true (l s : ApiAuditRecord) :
  businessFieldsDiffer l s = true <-> someBusinessFieldDiffers l s.
Proof.
  unfold businessFieldsDiffer, someBusinessFieldDiffers.
  rewrite !orb_true_iff, !strict_neq_true. tauto.
Qed.

Lemma businessFieldsDiffer_false (l s : ApiAuditRecord) :
  businessFieldsDiffer l s = false <-> sameBusinessFields l s.
Proof.
  unfold businessFieldsDiffer, sameBusinessFields.
  rewrite !orb_false_iff, !strict_neq_false. tauto.
Qed.

Lemma detectConflict_Some_iff (now : Z) (l s : ApiAuditRecord) (lm : Z) :
  is_Some (detectConflict now l s lm) <-> (now < lm /\ businessFieldsDiffer l s = true).
Proof.
  unfold detectConflict.
  destruct (now <? lm) eqn:Hlt; destruct (businessFieldsDiffer l s) eqn:Hd; simpl.
  - apply Z.ltb_lt in Hlt. split; [intros _; split; [lia | reflexivity] | intros _; eauto].
  - split; [intros [c Hc]; discriminate | intros [_ H]; discriminate].
  - apply Z.ltb_ge in Hlt. split; [intros [c Hc]; discriminate | intros [H _]; lia].
  - split; [intros [c Hc]; discriminate | intros [_ H]; discriminate].
Qed.

(** C3, as stated, fails: the method has no sync point to compare with.  A
    record synchronised at time 100 and edited locally at time 200 differs
    from the remote record in its comments, so a conflict is due; the method,
    called at time 300, returns none, because it compares the local
    modification time with the time of the call. *)
Lemma detectConflict_misses_edit_since_sync_point :
  conflict_by_baseline 100 audit1_edited audit1 200 /\
  (100 <= 300 /\ 200 <= 300) /\
  detectConflict 300 audit1_edited audit1 200 = None.
Proof.
  split; [| split].
  - split; [| lia]. right. right. right. left. discriminate.
  - lia.
  - reflexivity.
Qed.

(** C3, amended.  [detectConflict] returns none whenever the six business
    fields are identical, whatever the timestamps; and it returns a conflict
    exactly when at least one business field differs and the local
    modification time is after the time of the call ([now]), the reading of
    the clock that the method takes as the server's modification time in
    place of a sync point; the conflict returned carries the two records and
    the two times. *)
Theorem detectConflict_decision (now : Z) (l s : ApiAuditRecord) (lm : Z) :
  (sameBusinessFields l s -> detectConflict now l s lm = None) /\
  (is_Some (detectConflict now l s lm) <-> (someBusinessFieldDiffers l s /\ now < lm)) /\
  (forall c, detectConflict now l s lm = Some c -> c = mkAuditConflictData l s lm now).
Proof.
  split; [| split].
  - intros Hsame. apply businessFieldsDiffer_false in Hsame.
    unfold detectConflict. rewrite Hsame, andb_false_r. reflexivity.
  - rewrite detectConflict_Some_iff, businessFieldsDiffer_true. tauto.
  - intros c. unfold detectConflict.
    destruct ((now <? lm) && businessFieldsDiffer l s); congruence.
Qed.

(** C4.  [resolveConflict] answers use-server when the server time is the
    larger one, use-local when the local time is the larger one, and
    use-server when the two are equal. *)
Theorem resolveConflict_last_write_wins (c : AuditConflictData) :
  (localModified c < serverModified c -> resolveConflict c = use_server) /\
  (serverModified c < localModified c -> resolveConflict c = use_local) /\
  (localModified c = serverModified c -> resolveConflict c = use_server).
Proof.
  unfold resolveConflict.
  destruct (serverModified c <? localModified c) eqn:H.
  - apply Z.ltb_lt in H. repeat split; intros; try reflexivity; lia.
  - apply Z.ltb_ge in H. repeat split; intros; try reflexivity; lia.
Qed.

(** The three cases of C4 on concrete conflicts. *)
Lemma resolveConflict_last_write_wins_witness :
  resolveConflict (mkAuditConflictData audit1_edited audit1 10 20) = use_server /\
  resolveConflict (mkAuditConflictData audit1_edited audit1 20 10) = use_local /\
  resolveConflict (mkAuditConflictData audit1_edited audit1 10 10) = use_server.
Proof.
  split; [| split].
  - apply (proj1 (resolveConflict_last_write_wins
                    (mkAuditConflictData audit1_edited audit1 10 20))).
    simpl. lia.
  - apply (proj1 (proj2 (resolveConflict_last_write_wins
                           (mkAuditConflictData audit1_edited audit1 20 10)))).
    simpl. lia.
  - apply (proj2 (proj2 (resolveConflict_last_write_wins
                           (mkAuditConflictData audit1_edited audit1 10 10)))).
    reflexivity.
Defined.

(** C5, as stated, fails: the same local record, remote record and local
    modification time give a conflict when the method runs at time 5 and none
    when it runs at time 20. *)
Lemma detectConflict_depends_on_the_clock :
  detectConflict 5 audit1_edited audit1 10
    = Some (mkAuditConflictData audit1_edited audit1 10 5) /\
  detectConflict 20 audit1_edited audit1 10 = None.
Proof. split; reflexivity. Qed.

(** C5, amended.  The decision of [detectConflict] is determined by its three
    inputs together with the clock reading it takes: two invocations on the
    same inputs agree on conflict or none exactly when the business fields are
    identical or the two readings lie on the same side of the local
    modification time; with equal readings the results are equal.
    [resolveConflict] reads nothing but its argument. *)
Theorem detectConflict_determined_by_inputs_and_clock
        (now1 now2 : Z) (l s : ApiAuditRecord) (lm : Z) :
  ((is_Some (detectConflict now1 l s lm) <-> is_Some (detectConflict now2 l s lm))
   <-> (sameBusinessFields l s \/ (now1 < lm <-> now2 < lm))) /\
  (now1 = now2 -> detectConflict now1 l s lm = detectConflict now2 l s lm) /\
  (forall c1 c2, localModified c1 = localModified c2 ->
                 serverModified c1 = serverModified c2 ->
                 resolveConflict c1 = resolveConflict c2).
Proof.
  split; [| split].
  - rewrite !detectConflict_Some_iff, <- businessFieldsDiffer_false.
    destruct (businessFieldsDiffer l s); split; intros H.
    + right. tauto.
    + destruct H as [H | H]; [discriminate | tauto].
    + left. reflexivity.
    + split; intros [_ H']; discriminate.
  - intros ->. reflexivity.
  - intros c1 c2 Hl Hs. unfold resolveConflict. rewrite Hl, Hs. reflexivity.
Qed.

End ConflictDetector.

(* ===================================================================== *)
(** * The sync state container *)
(* ===================================================================== *)

Section SyncState.

Import SyncStateService.

Lemma setSyncStatus_success (now : Z) (s : State) :
  syncStatus (setSyncStatus now Success s) = Success /\
  syncError (setSyncStatus now Success s) = None.
Proof. split; reflexivity. Qed.

Lemma truthy_nonempty (m : string) : m <> "" -> truthy (Some m) = true.
Proof.
  intros H. unfold truthy. apply negb_true_iff, String.eqb_neq. exact H.
Qed.

Lemma setSyncError_nonempty (m : string) (s : State) :
  m <> "" ->
  syncStatus (setSyncError (Some m) s) = Error /\
  syncError (setSyncError (Some m) s) = Some m.
Proof.
  intros H. unfold setSyncError. rewrite (truthy_nonempty m H). split; reflexivity.
Qed.

Lemma call_keeps_success_has_no_error (c : Call) (s : State) :
  error_argument_not_empty c ->
  success_has_no_error s -> success_has_no_error (call c s).
Proof.
  unfold success_has_no_error.
  destruct c as [now st | o i | e | | n | id lm sm | id | id | | now |];
    simpl; intros Hc Hs; try exact Hs.
  - destruct st; simpl; intros H; try discriminate. reflexivity.
  - destruct e as [m |].
    + destruct (setSyncError_nonempty m s Hc) as [Hst _].
      rewrite Hst. discriminate.
    + intros _. reflexivity.
  - unfold clearSyncError. simpl.
    destruct (SyncStatus_eqb (syncStatus s) Error); simpl; intros _; reflexivity.
  - intros H. discriminate.
Qed.

(** The invariant holds along every sequence of calls that never passes the
    empty string to [setSyncError]. *)
Lemma calls_keep_success_has_no_error (cs : list Call) (s : State) :
  Forall error_argument_not_empty cs ->
  success_has_no_error s -> success_has_no_error (calls cs s).
Proof.
  unfold calls. revert s.
  induction cs as [| c cs IH]; simpl; intros s Hcs Hs; [exact Hs |].
  inversion Hcs; subst.
  apply IH; [assumption |].
  apply call_keeps_success_has_no_error; assumption.
Qed.

Lemma calls_keep_success_has_no_error_witness :
  success_has_no_error
    (calls [CSetSyncError (Some "Cannot sync: offline");
            CSetSyncStatus 1700000000000 Success;
            CSetSyncError None] initial).
Proof.
  apply (calls_keep_success_has_no_error
           [CSetSyncError (Some "Cannot sync: offline");
            CSetSyncStatus 1700000000000 Success;
            CSetSyncError None] initial).
  - constructor; [simpl; discriminate |].
    constructor; [exact I |]. constructor; [exact I | constructor].
  - intros H. reflexivity.
Defined.

(** C10 at the input on which the code leaves it: after
    [setSyncStatus('success')] and then [setSyncError('')] the status is
    still success while the error is the empty string, which is not [null]
    ([hasError] is true). *)
Theorem setSyncError_empty_string_keeps_success :
  calls [CSetSyncStatus 1700000000000 Success; CSetSyncError (Some "")] initial
    = mkState Success None None (Some 1700000000000) (Some "") 0 [] /\
  hasError (calls [CSetSyncStatus 1700000000000 Success; CSetSyncError (Some "")] initial)
    = true /\
  ~ success_has_no_error
      (calls [CSetSyncStatus 1700000000000 Success; CSetSyncError (Some "")] initial).
Proof.
  split; [reflexivity | split; [reflexivity |]].
  intros H. specialize (H eq_refl). discriminate H.
Qed.

End SyncState.

(* ===================================================================== *)
(** * The object store *)
(* ===================================================================== *)

Section Storage.

Import AuditStorageService.

Lemma ItemStatus_eqb_eq (a b : ItemStatus) : ItemStatus_eqb a b = true <-> a = b.
Proof. destruct a, b; simpl; split; intros H; congruence. Qed.

Lemma ItemStatus_eqb_neq (a b : ItemStatus) : ItemStatus_eqb a b = false <-> a <> b.
Proof. destruct a, b; simpl; split; intros H; congruence. Qed.

Lemma keyed_empty : keyed ∅.
Proof. intros k item H. rewrite lookup_empty in H. discriminate. Qed.

Lemma keyed_put (item : OfflineAuditItem) (d : gmap string OfflineAuditItem) :
  keyed d -> keyed (put item d).
Proof.
  intros Hk k x. unfold put.
  destruct (decide (ExternalId (api item) = k)) as [<- | Hne].
  - rewrite lookup_insert_eq. intros [= <-]. reflexivity.
  - rewrite lookup_insert_ne by exact Hne. apply Hk.
Qed.

Lemma keyed_removeItem (id : string) (d : gmap string OfflineAuditItem) :
  keyed d -> keyed (removeItem id d).
Proof.
  intros Hk k x. unfold removeItem.
  destruct (decide (id = k)) as [<- | Hne].
  - rewrite lookup_delete_eq. discriminate.
  - rewrite lookup_delete_ne by exact Hne. apply Hk.
Qed.

Lemma keyed_saveItem (t : Tick) (a : ApiAuditRecord) (st : ItemStatus)
      (d : gmap string OfflineAuditItem) :
  keyed d -> keyed (fst (saveItem t a st d)).
Proof. intros Hk. simpl. apply keyed_put, Hk. Qed.

Lemma keyed_deleteItem (t : Tick) (id : string) (d : gmap string OfflineAuditItem) :
  keyed d -> keyed (deleteItem t id d).
Proof.
  intros Hk. unfold deleteItem. destruct (d !! id); [apply keyed_put |]; exact Hk.
Qed.

Lemma keyed_markAsSynced (t : Tick) (id : string) (d : gmap string OfflineAuditItem) :
  keyed d -> keyed (markAsSynced t id d).
Proof.
  intros Hk. unfold markAsSynced. destruct (d !! id); [apply keyed_put |]; exact Hk.
Qed.

Lemma saveItem_lookup (t : Tick) (a : ApiAuditRecord) (st : ItemStatus)
      (d : gmap string OfflineAuditItem) (k : string) :
  fst (saveItem t a st d) !! k =
  if decide (ExternalId a = k) then Some (snd (saveItem t a st d)) else d !! k.
Proof. simpl. unfold put. simpl. apply lookup_insert. Qed.

Lemma saveItem_status (t : Tick) (a : ApiAuditRecord) (st : ItemStatus)
      (d : gmap string OfflineAuditItem) :
  _status (snd (saveItem t a st d)) = st /\ api (snd (saveItem t a st d)) = a.
Proof. split; reflexivity. Qed.

(** The soft delete touches the record under [id] and nothing else. *)
Lemma deleteItem_lookup (t : Tick) (id : string) (d : gmap string OfflineAuditItem)
      (k : string) :
  keyed d ->
  deleteItem t id d !! k =
  if decide (id = k)
  then (fun audit => mkOfflineAuditItem (api audit) (_localId audit) StDeleted (now t)
                                        (_conflictData audit)) <$> d !! id
  else d !! k.
Proof.
  intros Hk. unfold deleteItem.
  destruct (d !! id) as [audit |] eqn:Hid.
  - unfold put. simpl. rewrite (Hk _ _ Hid). rewrite lookup_insert.
    destruct (decide (id = k)); reflexivity.
  - destruct (decide (id = k)) as [<- | Hne]; [rewrite Hid |]; reflexivity.
Qed.

Lemma markAsSynced_lookup (t : Tick) (id : string) (d : gmap string OfflineAuditItem)
      (k : string) :
  keyed d ->
  markAsSynced t id d !! k =
  if decide (id = k)
  then (fun audit => mkOfflineAuditItem (api audit) (_localId audit) StSynced (now t)
                                        (_conflictData audit)) <$> d !! id
  else d !! k.
Proof.
  intros Hk. unfold markAsSynced.
  destruct (d !! id) as [audit |] eqn:Hid.
  - unfold put. simpl. rewrite (Hk _ _ Hid). rewrite lookup_insert.
    destruct (decide (id = k)); reflexivity.
  - destruct (decide (id = k)) as [<- | Hne]; [rewrite Hid |]; reflexivity.
Qed.

Lemma In_getAll (d : gmap string OfflineAuditItem) (item : OfflineAuditItem) :
  In item (getAll d) <-> exists k, d !! k = Some item.
Proof.
  unfold getAll. rewrite in_map_iff. split.
  - intros [[k x] [Hx Hin]]. simpl in Hx. subst x. exists k.
    apply elem_of_map_to_list, list_elem_of_In. exact Hin.
  - intros [k Hk]. exists (k, item). split; [reflexivity |].
    apply list_elem_of_In, elem_of_map_to_list. exact Hk.
Qed.

(** The storage read of the load path never returns a deleted record. *)
Lemma getAllItems_not_deleted (d : gmap string OfflineAuditItem) (item : OfflineAuditItem) :
  In item (getAllItems d) <->
  (exists k, d !! k = Some item) /\ _status item <> StDeleted.
Proof.
  unfold getAllItems. rewrite filter_In, In_getAll, negb_true_iff, ItemStatus_eqb_neq.
  reflexivity.
Qed.

Lemma getItem_Some (id : string) (d : gmap string OfflineAuditItem) (item : OfflineAuditItem) :
  getItem id d = Some item <-> d !! id = Some item /\ _status item <> StDeleted.
Proof.
  unfold getItem. destruct (d !! id) as [x |].
  - destruct (ItemStatus_eqb (_status x) StDeleted) eqn:E; simpl.
    + apply ItemStatus_eqb_eq in E. split; [discriminate |].
      intros [[= ->] H]. contradiction.
    + apply ItemStatus_eqb_neq in E. split.
      * intros [= ->]. split; [reflexivity | exact E].
      * intros [[= ->] _]. reflexivity.
  - split; [discriminate | intros [H _]; discriminate].
Qed.

End Storage.

(* ===================================================================== *)
(** * The orchestrator: single operations *)
(* ===================================================================== *)

Section Orchestrator.

Import AuditStorageService AuditTransformationService AuditActionService.

Lemma List_filter_Permutation {A : Type} (f : A -> bool) (l l' : list A) :
  Permutation l l' -> Permutation (List.filter f l) (List.filter f l').
Proof.
  induction 1 as [| x l l' _ IH | x y l | l l' l'' _ IH1 _ IH2]; simpl.
  - constructor.
  - destruct (f x); [constructor |]; exact IH.
  - destruct (f x), (f y); try reflexivity. constructor.
  - etransitivity; eassumption.
Qed.

Lemma List_filter_none {A : Type} (f : A -> bool) (l : list A) :
  (forall x, In x l -> f x = false) -> List.filter f l = [].
Proof.
  induction l as [| x l IH]; simpl; intros H; [reflexivity |].
  rewrite (H x) by (left; reflexivity). apply IH. intros y Hy. apply H. right. exact Hy.
Qed.

(** After a [put], the store lists the record put and what it listed before
    under the other keys. *)
Lemma getAll_put (item : OfflineAuditItem) (d : gmap string OfflineAuditItem) :
  Permutation (getAll (put item d))
              (item :: getAll (removeItem (ExternalId (api item)) d)).
Proof.
  unfold getAll, put, removeItem.
  rewrite <- (insert_delete_eq d).
  rewrite (map_to_list_insert (delete (ExternalId (api item)) d))
    by apply lookup_delete_eq.
  reflexivity.
Qed.

Lemma removeItem_no_hasId (id : string) (d : gmap string OfflineAuditItem) :
  keyed d -> List.filter (hasId id) (getAll (removeItem id d)) = [].
Proof.
  intros Hk. apply List_filter_none. intros x Hx.
  apply In_getAll in Hx. destruct Hx as [k Hx]. unfold removeItem in Hx.
  destruct (decide (id = k)) as [<- | Hne].
  - rewrite lookup_delete_eq in Hx. discriminate.
  - rewrite lookup_delete_ne in Hx by exact Hne.
    unfold hasId. apply String.eqb_neq. rewrite (Hk _ _ Hx). congruence.
Qed.

(** The store holds exactly one record under the identifier of a record
    that was just put. *)
Lemma put_exactly_one (item : OfflineAuditItem) (d : gmap string OfflineAuditItem) :
  keyed d ->
  List.filter (hasId (ExternalId (api item))) (getAll (put item d)) = [item].
Proof.
  intros Hk. apply Permutation_singleton_r.
  rewrite (List_filter_Permutation _ _ _ (getAll_put item d)). simpl.
  unfold hasId at 1. rewrite String.eqb_refl.
  rewrite (removeItem_no_hasId _ d Hk). reflexivity.
Qed.

Lemma startsWith_local_localIdOf (t : Tick) : startsWith_local (localIdOf t) = true.
Proof.
  unfold startsWith_local, localIdOf. simpl.
  destruct (decimal (now t) +:+ "_" +:+ rand36 t); reflexivity.
Qed.

(** A decimal numeral, the form of identifier the remote source assigns,
    never has the local prefix. *)
Lemma startsWith_local_decimal (n : Z) : startsWith_local (decimal n) = false.
Proof.
  unfold startsWith_local, decimal.
  destruct (Z.to_int n) as [u | u]; destruct u; reflexivity.
Qed.

Lemma createAudit_valid (online : bool) (t : Tick) (request : CreateAuditRequest) (w : World) :
  validateAuditData request = [] ->
  createAudit online t request w =
  let optimisticAudit := optimisticAuditOf t (transformCreateRequestToApiRequest request) in
  let w1 := withUi AuditStateService.clearError
              (withUi (AuditStateService.setLoading true) w) in
  let saved := saveItem t optimisticAudit StPending (db w1) in
  let w4 := updatePendingCount
              (withUi (AuditStateService.addAudit
                         (transformApiAuditToAudit (api (snd saved))))
                      (withDb (fst saved) w1)) in
  if online
  then syncCreateToServer t optimisticAudit (transformCreateRequestToApiRequest request) w4
  else withUi (AuditStateService.setLoading false) w4.
Proof. intros Hv. unfold createAudit. rewrite Hv. reflexivity. Qed.

(** C7, as stated, fails: while a sync is in progress and the network is
    reachable, [syncToServer] returns without touching anything, and no
    error is present afterwards. *)
Lemma syncToServer_while_syncing_sets_no_error :
  SyncStateService.isSyncing (sync world_syncing) = true /\
  syncToServer true tick0 world_syncing = (world_syncing, None) /\
  SyncStateService.syncError (sync (fst (syncToServer true tick0 world_syncing))) = None /\
  AuditStateService.error (ui (fst (syncToServer true tick0 world_syncing))) = None.
Proof. repeat split. Qed.

(** C7, amended.  Called while offline, or while a sync is in progress,
    [syncToServer] makes no remote call, leaves the store and the view as they
    are and starts no run.  When offline it sets the sync error "Cannot sync:
    offline" (and with it the status error); when online with a sync in
    progress it returns silently, the whole state unchanged. *)
Theorem syncToServer_refused (online : bool) (t : Tick) (w : World) :
  online = false \/ SyncStateService.isSyncing (sync w) = true ->
  snd (syncToServer online t w) = None /\
  remote (fst (syncToServer online t w)) = remote w /\
  db (fst (syncToServer online t w)) = db w /\
  ui (fst (syncToServer online t w)) = ui w /\
  (online = false ->
   SyncStateService.syncError (sync (fst (syncToServer online t w)))
     = Some "Cannot sync: offline" /\
   SyncStateService.syncStatus (sync (fst (syncToServer online t w))) = Error) /\
  (online = true -> fst (syncToServer online t w) = w).
Proof.
  intros H. unfold syncToServer. destruct online; simpl.
  - destruct H as [H | H]; [discriminate |]. rewrite H. simpl.
    repeat split; intros; try reflexivity; discriminate.
  - repeat split; intros; try reflexivity; discriminate.
Qed.

Lemma syncToServer_refused_witness :
  snd (syncToServer false tick0 world_loaded) = None /\
  remote (fst (syncToServer false tick0 world_loaded)) = remote world_loaded /\
  db (fst (syncToServer false tick0 world_loaded)) = db world_loaded /\
  ui (fst (syncToServer false tick0 world_loaded)) = ui world_loaded /\
  (false = false ->
   SyncStateService.syncError (sync (fst (syncToServer false tick0 world_loaded)))
     = Some "Cannot sync: offline" /\
   SyncStateService.syncStatus (sync (fst (syncToServer false tick0 world_loaded))) = Error) /\
  (false = true -> fst (syncToServer false tick0 world_loaded) = world_loaded).
Proof.
  apply (syncToServer_refused false tick0 world_loaded). left. reflexivity.
Defined.

(** C8.  A valid create request issued while offline makes no remote call;
    afterwards the store holds exactly one record under the minted
    identifier, that record is pending and carries the fields of the request,
    the identifier has the prefix that marks local-only identifiers (so it
    differs from every identifier without that prefix, among them the decimal
    numerals the remote source assigns), and the record has been appended to
    the active view. *)
Theorem createAudit_offline (t : Tick) (request : CreateAuditRequest) (w : World) :
  validateAuditData request = [] ->
  keyed (db w) ->
  remote (createAudit false t request w) = remote w /\
  (exists item,
      List.filter (hasId (localIdOf t)) (getAll (db (createAudit false t request w))) = [item] /\
      db (createAudit false t request w) !! localIdOf t = Some item /\
      _status item = StPending /\
      api item = optimisticAuditOf t request /\
      In item (getPendingItems (db (createAudit false t request w)))) /\
  startsWith_local (localIdOf t) = true /\
  (forall id, startsWith_local id = false -> id <> localIdOf t) /\
  (forall n, decimal n <> localIdOf t) /\
  AuditStateService.audits (ui (createAudit false t request w))
    = AuditStateService.audits (ui w)
        ++ [transformApiAuditToAudit (optimisticAuditOf t request)].
Proof.
  intros Hv Hk. rewrite (createAudit_valid false t request w Hv). simpl.
  split; [reflexivity |].
  split; [| split; [apply startsWith_local_localIdOf | split; [| split]]].
  - eexists. split; [| split; [| split; [| split]]].
    + apply (put_exactly_one
               (mkOfflineAuditItem (optimisticAuditOf t request) _ StPending (now t) None)).
      exact Hk.
    + unfold put. simpl. apply lookup_insert_eq.
    + reflexivity.
    + destruct request; reflexivity.
    + unfold getPendingItems, getAllByStatus. apply filter_In. split; [| reflexivity].
      apply In_getAll. exists (localIdOf t). unfold put. simpl. apply lookup_insert_eq.
  - intros id Hid ->. rewrite startsWith_local_localIdOf in Hid. discriminate.
  - intros n Hn. pose proof (startsWith_local_decimal n) as Hd.
    rewrite Hn, startsWith_local_localIdOf in Hd. discriminate.
  - destruct request; reflexivity.
Qed.

Lemma createAudit_offline_witness :
  remote (createAudit false tick0 request0 initial) = remote initial /\
  (exists item,
      List.filter (hasId (localIdOf tick0))
                  (getAll (db (createAudit false tick0 request0 initial))) = [item] /\
      db (createAudit false tick0 request0 initial) !! localIdOf tick0 = Some item /\
      _status item = StPending /\
      api item = optimisticAuditOf tick0 request0 /\
      In item (getPendingItems (db (createAudit false tick0 request0 initial)))) /\
  startsWith_local (localIdOf tick0) = true /\
  (forall id, startsWith_local id = false -> id <> localIdOf tick0) /\
  (forall n, decimal n <> localIdOf tick0) /\
  AuditStateService.audits (ui (createAudit false tick0 request0 initial))
    = AuditStateService.audits (ui initial)
        ++ [transformApiAuditToAudit (optimisticAuditOf tick0 request0)].
Proof.
  apply (createAudit_offline tick0 request0 initial).
  - reflexivity.
  - exact keyed_empty.
Defined.

(** [updateAudit] of the view replaces records in place: the identifiers
    listed by the view stay the same, position by position. *)
Lemma updateAudit_ids (u : AuditRecord) (s : AuditStateService.State) :
  List.map externalId (AuditStateService.audits (AuditStateService.updateAudit u s))
  = List.map externalId (AuditStateService.audits s).
Proof.
  simpl. induction (AuditStateService.audits s) as [| a l IH]; simpl; [reflexivity |].
  rewrite IH. destruct (String.eqb (externalId a) (externalId u)) eqn:E; [| reflexivity].
  apply String.eqb_eq in E. rewrite E. reflexivity.
Qed.

(** A record of the view under another identifier is left alone. *)
Lemma updateAudit_other (u a : AuditRecord) (s : AuditStateService.State) :
  externalId a <> externalId u ->
  In a (AuditStateService.audits s) ->
  In a (AuditStateService.audits (AuditStateService.updateAudit u s)).
Proof.
  intros Hne Hin. simpl. apply in_map_iff. exists a. split; [| exact Hin].
  apply String.eqb_neq in Hne. rewrite Hne. reflexivity.
Qed.

(** The success path of a background create, on the store: the record under
    the local identifier is gone and the record of the remote source is stored
    as synced. *)
Lemma syncCreateToServer_next_store (t : Tick) (optimisticAudit serverAudit : ApiAuditRecord)
      (w : World) :
  ExternalId serverAudit <> ExternalId optimisticAudit ->
  db (syncCreateToServer_next t optimisticAudit serverAudit w) !! ExternalId optimisticAudit
    = None /\
  exists item,
    db (syncCreateToServer_next t optimisticAudit serverAudit w) !! ExternalId serverAudit
      = Some item /\
    _status item = StSynced /\ api item = serverAudit.
Proof.
  intros Hne. simpl. unfold put, removeItem. simpl. split.
  - rewrite lookup_insert_ne by exact Hne. apply lookup_delete_eq.
  - eexists. split; [apply lookup_insert_eq | split; reflexivity].
Qed.

(** The success path of a background create, on the view: the optimistic
    record stays, and the view lists the same identifiers as before; the
    remote identifier is listed afterwards only if it was listed before. *)
Lemma syncCreateToServer_next_view (t : Tick) (optimisticAudit serverAudit : ApiAuditRecord)
      (w : World) :
  ExternalId serverAudit <> ExternalId optimisticAudit ->
  List.map externalId
           (AuditStateService.audits (ui (syncCreateToServer_next t optimisticAudit serverAudit w)))
    = List.map externalId (AuditStateService.audits (ui w)) /\
  (forall a, externalId a = ExternalId optimisticAudit ->
             In a (AuditStateService.audits (ui w)) ->
             In a (AuditStateService.audits
                     (ui (syncCreateToServer_next t optimisticAudit serverAudit w)))).
Proof.
  intros Hne. split.
  - apply (updateAudit_ids (transformApiAuditToAudit serverAudit) (ui w)).
  - intros a Ha Hin.
    apply (updateAudit_other (transformApiAuditToAudit serverAudit) a (ui w)); [| exact Hin].
    simpl. congruence.
Qed.

Lemma syncCreateToServer_next_store_witness :
  db (syncCreateToServer_next tick1 (optimisticAuditOf tick0 request0) server5
        (createAudit true tick0 request0 initial))
     !! ExternalId (optimisticAuditOf tick0 request0) = None /\
  exists item,
    db (syncCreateToServer_next tick1 (optimisticAuditOf tick0 request0) server5
          (createAudit true tick0 request0 initial)) !! ExternalId server5 = Some item /\
    _status item = StSynced /\ api item = server5.
Proof.
  apply (syncCreateToServer_next_store tick1 (optimisticAuditOf tick0 request0) server5
           (createAudit true tick0 request0 initial)).
  intros H. vm_compute in H. discriminate H.
Defined.

Lemma syncCreateToServer_next_view_witness :
  List.map externalId
           (AuditStateService.audits
              (ui (syncCreateToServer_next tick1 (optimisticAuditOf tick0 request0) server5
                     (createAudit true tick0 request0 initial))))
    = List.map externalId
               (AuditStateService.audits (ui (createAudit true tick0 request0 initial))).
Proof.
  assert (Hne : ExternalId server5 <> ExternalId (optimisticAuditOf tick0 request0))
    by (intros H; vm_compute in H; discriminate H).
  exact (proj1 (syncCreateToServer_next_view tick1 (optimisticAuditOf tick0 request0) server5
                  (createAudit true tick0 request0 initial) Hne)).
Defined.

(** C1 at the input on which the code leaves it.  A valid request is created
    online in a fresh session and the remote create answers with the record
    of identifier 5.  The store is as C1 says (the local identifier is absent,
    identifier 5 is present and synced).  The active view is not: it still
    holds the optimistic record under the local identifier, unsynced, and no
    record of identifier 5. *)
Theorem create_success_leaves_view_on_local_id :
  localIdOf tick0 = "local_1700000000000_k3j9x0q2a" /\
  remote (createAudit true tick0 request0 initial) = [AuditApiService.createAudit request0] /\
  db (syncCreateToServer_next tick1 (optimisticAuditOf tick0 request0) server5
        (createAudit true tick0 request0 initial)) !! "local_1700000000000_k3j9x0q2a" = None /\
  db (syncCreateToServer_next tick1 (optimisticAuditOf tick0 request0) server5
        (createAudit true tick0 request0 initial)) !! "5"
    = Some (mkOfflineAuditItem server5 "5" StSynced 1700000000400 None) /\
  AuditStateService.audits
    (ui (syncCreateToServer_next tick1 (optimisticAuditOf tick0 request0) server5
           (createAudit true tick0 request0 initial)))
    = [mkAuditRecord "local_1700000000000_k3j9x0q2a" "A-001" "12345678901234" "Inbound"
                     "New audit entry" (mkDate "2023-11-14") "22:13:20" "John Doe"
                     "Warehouse A - Zone 1" false] /\
  SyncStateService.syncStatus
    (sync (syncCreateToServer_next tick1 (optimisticAuditOf tick0 request0) server5
             (createAudit true tick0 request0 initial))) = Success.
Proof. repeat split; vm_compute; reflexivity. Qed.

(** C2, as stated, fails: record 1 is in the view, it is deleted while
    online, the remote delete fails, and afterwards the view is empty. *)
Lemma delete_remote_failure_does_not_restore :
  AuditStateService.audits (ui world_loaded) = [transformApiAuditToAudit audit1] /\
  remote (deleteAudit true tick1 "1" world_loaded) = [AuditApiService.deleteAudit "1"] /\
  AuditStateService.audits
    (ui (syncDeleteToServer_error failure404 (deleteAudit true tick1 "1" world_loaded))) = [].
Proof. repeat split; vm_compute; reflexivity. Qed.

(** C2, amended.  When a stored record is deleted while online and the remote
    delete fails, the record is not restored: the active view holds no record
    of that identifier, the store keeps the record marked deleted (the same
    payload, awaiting a later manual sync), exactly one remote delete was
    attempted, and a sync error is surfaced with the status error. *)
Theorem delete_remote_failure_keeps_soft_delete
        (t : Tick) (id : string) (e : ApiFailure) (item : OfflineAuditItem) (w : World) :
  keyed (db w) ->
  db w !! id = Some item ->
  remote (deleteAudit true t id w) = remote w ++ [AuditApiService.deleteAudit id] /\
  (forall a,
      In a (AuditStateService.audits
              (ui (syncDeleteToServer_error e (deleteAudit true t id w)))) ->
      externalId a <> id) /\
  db (syncDeleteToServer_error e (deleteAudit true t id w)) !! id
    = Some (mkOfflineAuditItem (api item) (_localId item) StDeleted (now t)
                               (_conflictData item)) /\
  In (mkOfflineAuditItem (api item) (_localId item) StDeleted (now t) (_conflictData item))
     (getDeletedItems (db (syncDeleteToServer_error e (deleteAudit true t id w)))) /\
  SyncStateService.syncError (sync (syncDeleteToServer_error e (deleteAudit true t id w)))
    = Some ("Failed to sync delete: " +:+ messageText e) /\
  SyncStateService.syncStatus (sync (syncDeleteToServer_error e (deleteAudit true t id w)))
    = Error.
Proof.
  intros Hk Hid.
  assert (Hdb : db (syncDeleteToServer_error e (deleteAudit true t id w)) !! id
                = Some (mkOfflineAuditItem (api item) (_localId item) StDeleted (now t)
                                           (_conflictData item))).
  { simpl. rewrite (deleteItem_lookup t id (db w) id Hk), Hid.
    destruct (decide (id = id)); [reflexivity | contradiction]. }
  split; [reflexivity |]. split; [| split; [exact Hdb | split; [| split; reflexivity]]].
  - simpl. intros a Ha. apply filter_In in Ha. destruct Ha as [_ Ha].
    apply strict_neq_true in Ha. exact Ha.
  - unfold getDeletedItems, getAllByStatus. apply filter_In. split; [| reflexivity].
    apply In_getAll. exists id. exact Hdb.
Qed.

Lemma delete_remote_failure_keeps_soft_delete_witness :
  remote (deleteAudit true tick1 "1" world_loaded)
    = remote world_loaded ++ [AuditApiService.deleteAudit "1"] /\
  (forall a,
      In a (AuditStateService.audits
              (ui (syncDeleteToServer_error failure404 (deleteAudit true tick1 "1" world_loaded)))) ->
      externalId a <> "1") /\
  db (syncDeleteToServer_error failure404 (deleteAudit true tick1 "1" world_loaded)) !! "1"
    = Some (mkOfflineAuditItem audit1 "1" StDeleted (now tick1) None) /\
  In (mkOfflineAuditItem audit1 "1" StDeleted (now tick1) None)
     (getDeletedItems
        (db (syncDeleteToServer_error failure404 (deleteAudit true tick1 "1" world_loaded)))) /\
  SyncStateService.syncError
    (sync (syncDeleteToServer_error failure404 (deleteAudit true tick1 "1" world_loaded)))
    = Some ("Failed to sync delete: " +:+ messageText failure404) /\
  SyncStateService.syncStatus
    (sync (syncDeleteToServer_error failure404 (deleteAudit true tick1 "1" world_loaded)))
    = Error.
Proof.
  apply (delete_remote_failure_keeps_soft_delete tick1 "1" failure404
           (mkOfflineAuditItem audit1 "1" StSynced (now tick0) None) world_loaded).
  - exact (keyed_put (mkOfflineAuditItem audit1 "1" StSynced (now tick0) None) ∅ keyed_empty).
  - vm_compute. reflexivity.
Defined.

End Orchestrator.

(* ===================================================================== *)
(** * Manual synchronisation *)
(* ===================================================================== *)

Section ManualSync.

Import AuditStorageService AuditTransformationService AuditActionService.

Lemma handleSyncSuccess_sync (t : Tick) (localId : string) (serverAudit : ApiAuditRecord)
      (w : World) :
  sync (handleSyncSuccess t localId serverAudit w) = sync w.
Proof. unfold handleSyncSuccess. destruct (startsWith_local localId); reflexivity. Qed.

Lemma handleConflict_syncStatus (t : Tick) (localId : string) (serverAudit : ApiAuditRecord)
      (w : World) :
  SyncStateService.syncStatus (sync (handleConflict t localId serverAudit w))
  = SyncStateService.syncStatus (sync w).
Proof.
  unfold handleConflict.
  destruct (getItem localId (db w)) as [localAudit |]; [| reflexivity].
  destruct (AuditSyncService.detectConflict _ _ _ _) as [conflict |]; [| reflexivity].
  destruct (AuditSyncService.resolveConflict conflict); reflexivity.
Qed.

Lemma handleSyncError_syncStatus (t : Tick) (auditId : string) (e : ApiFailure) (w : World) :
  SyncStateService.syncStatus (sync (handleSyncError t auditId e w))
  = SyncStateService.syncStatus (sync w).
Proof.
  unfold handleSyncError.
  destruct (isConflictError e); [| reflexivity].
  destruct (f_serverAudit e); [apply handleConflict_syncStatus | reflexivity].
Qed.

(** One report: the counter goes up by one; the status becomes success when
    the counter reaches the total, and is left as it was otherwise. *)
Lemma report_effect (t : Tick) (r : Report) (w : World) (run : SyncRun) :
  snd (report t r (w, run)) = mkSyncRun (S (processed run)) (total run) /\
  SyncStateService.syncStatus (sync (fst (report t r (w, run))))
  = if (S (processed run) =? total run)%nat then Success
    else SyncStateService.syncStatus (sync w).
Proof.
  split; [reflexivity |].
  unfold report, checkSyncCompletion. cbn [fst snd processed total].
  destruct (S (processed run) =? total run)%nat; [reflexivity |].
  destruct r as [audit serverAudit | audit | audit e].
  - rewrite handleSyncSuccess_sync. reflexivity.
  - reflexivity.
  - apply handleSyncError_syncStatus.
Qed.

(** While fewer reports have arrived than the run awaits, the status is the
    one the run started with; the report that completes the count sets it to
    success. *)
Lemma reports_effect (rs : list (Tick * Report)) (w : World) (run : SyncRun) :
  snd (reports rs (w, run)) = mkSyncRun (processed run + List.length rs) (total run) /\
  ((processed run + List.length rs < total run)%nat ->
   SyncStateService.syncStatus (sync (fst (reports rs (w, run))))
   = SyncStateService.syncStatus (sync w)) /\
  ((processed run + List.length rs = total run)%nat -> rs <> [] ->
   SyncStateService.syncStatus (sync (fst (reports rs (w, run)))) = Success).
Proof.
  revert w run.
  induction rs as [| [t r] rs IH]; intros w run.
  - cbn [reports fold_left fst snd List.length]. rewrite Nat.add_0_r. destruct run.
    split; [reflexivity | split; [intros _; reflexivity | intros _ H; congruence]].
  - change (reports ((t, r) :: rs) (w, run)) with (reports rs (report t r (w, run))).
    destruct (report_effect t r w run) as [Hrun Hst].
    destruct (report t r (w, run)) as [w1 run1]. cbn [fst snd] in Hrun, Hst. subst run1.
    destruct (IH w1 (mkSyncRun (S (processed run)) (total run))) as [IH1 [IH2 IH3]].
    cbn [processed total] in IH1, IH2, IH3. cbn [List.length].
    split; [| split].
    + rewrite IH1. f_equal. lia.
    + intros Hlt. rewrite IH2 by lia. rewrite Hst.
      destruct (Nat.eqb_spec (S (processed run)) (total run)); [lia | reflexivity].
    + intros Heq _. destruct rs as [| x rs'].
      * cbn [reports fold_left fst]. rewrite Hst. cbn [List.length] in Heq.
        destruct (Nat.eqb_spec (S (processed run)) (total run)); [reflexivity | lia].
      * apply IH3; [cbn [List.length] in *; lia | discriminate].
Qed.

(** A report does not read the record of remote calls: it gives the same
    state whether it arrives after all calls of the run were made or while
    the loop is still making them (a call that fails at once reports within
    the loop). *)
Lemma report_dispatch (t : Tick) (r : Report) (cs : list AuditApiService.Call)
      (w : World) (run : SyncRun) :
  report t r (dispatch cs w, run)
  = (dispatch cs (fst (report t r (w, run))), snd (report t r (w, run))).
Proof.
  unfold report, checkSyncCompletion. cbn [fst snd processed total].
  f_equal.
  destruct (S (processed run) =? total run)%nat;
    destruct r as [audit serverAudit | audit | audit e]; try reflexivity.
  - unfold handleSyncSuccess. destruct (startsWith_local _); reflexivity.
  - unfold handleSyncError.
    destruct (isConflictError e); [| reflexivity].
    destruct (f_serverAudit e) as [serverAudit |]; [| reflexivity].
    unfold handleConflict. cbn [dispatch db].
    destruct (getItem _ (db w)) as [localAudit |]; [| reflexivity].
    destruct (AuditSyncService.detectConflict _ _ _ _) as [conflict |]; [| reflexivity].
    destruct (AuditSyncService.resolveConflict conflict); reflexivity.
  - unfold handleSyncSuccess. destruct (startsWith_local _); reflexivity.
  - unfold handleSyncError.
    destruct (isConflictError e); [| reflexivity].
    destruct (f_serverAudit e) as [serverAudit |]; [| reflexivity].
    unfold handleConflict. cbn [dispatch db].
    destruct (getItem _ (db w)) as [localAudit |]; [| reflexivity].
    destruct (AuditSyncService.detectConflict _ _ _ _) as [conflict |]; [| reflexivity].
    destruct (AuditSyncService.resolveConflict conflict); reflexivity.
Qed.

Lemma getAllByStatus_status (st : ItemStatus) (d : gmap string OfflineAuditItem)
      (item : OfflineAuditItem) :
  In item (getAllByStatus st d) -> _status item = st.
Proof.
  unfold getAllByStatus. rewrite filter_In. intros [_ H].
  apply ItemStatus_eqb_eq. exact H.
Qed.

(** C6.  A manual sync started online, with no sync in progress, over a store
    with n pending and m soft-deleted records (n + m > 0) makes exactly n + m
    remote calls: for each pending record a create when its identifier has
    the local prefix and an update otherwise, and a delete for each deleted
    record.  The status is syncing once the calls are made; it stays syncing
    while fewer than n + m of them have reported, whatever they report and in
    whatever order, and it is success once n + m have reported. *)
Theorem manual_sync_dispatch_and_completion (t : Tick) (w : World) :
  SyncStateService.isSyncing (sync w) = false ->
  (0 < List.length (getPendingItems (db w)) + List.length (getDeletedItems (db w)))%nat ->
  exists w1 run,
    syncToServer true t w = (w1, Some run) /\
    remote w1 = remote w ++ (List.map callForPending (getPendingItems (db w))
                             ++ List.map callForDeleted (getDeletedItems (db w))) /\
    (List.length (remote w1)
     = List.length (remote w)
       + (List.length (getPendingItems (db w)) + List.length (getDeletedItems (db w))))%nat /\
    (forall audit, In audit (getPendingItems (db w)) ->
       _status audit = StPending /\
       (startsWith_local (ExternalId (api audit)) = true ->
        callForPending audit
        = AuditApiService.createAudit (transformOfflineRecordToApiRequest audit)) /\
       (startsWith_local (ExternalId (api audit)) = false ->
        callForPending audit
        = AuditApiService.updateAudit (ExternalId (api audit))
                                      (transformOfflineRecordToApiRequest audit))) /\
    (forall audit, In audit (getDeletedItems (db w)) ->
       _status audit = StDeleted /\
       callForDeleted audit = AuditApiService.deleteAudit (ExternalId (api audit))) /\
    SyncStateService.syncStatus (sync w1) = Syncing /\
    (forall rs,
       (List.length rs
        < List.length (getPendingItems (db w)) + List.length (getDeletedItems (db w)))%nat ->
       SyncStateService.syncStatus (sync (fst (reports rs (w1, run)))) = Syncing) /\
    (forall rs,
       (List.length rs
        = List.length (getPendingItems (db w)) + List.length (getDeletedItems (db w)))%nat ->
       SyncStateService.syncStatus (sync (fst (reports rs (w1, run)))) = Success).
Proof.
  intros Hidle Hpos.
  unfold syncToServer. simpl. rewrite Hidle. simpl.
  destruct (Nat.eqb_spec
              (List.length (getPendingItems (db w)) + List.length (getDeletedItems (db w))) 0)
    as [H0 | _]; [lia |].
  eexists. eexists. split; [reflexivity |]. simpl.
  split; [reflexivity |]. split; [| split; [| split; [| split; [reflexivity | split]]]].
  - rewrite !length_app, !length_map. reflexivity.
  - intros audit Hin. split; [exact (getAllByStatus_status _ _ _ Hin) |].
    unfold callForPending. split; intros ->; reflexivity.
  - intros audit Hin. split; [exact (getAllByStatus_status _ _ _ Hin) | reflexivity].
  - intros rs Hlt.
    match goal with |- context [reports rs (?w1, ?run)] =>
      destruct (reports_effect rs w1 run) as [_ [H _]] end.
    rewrite H by (simpl; lia). reflexivity.
  - intros rs Heq.
    match goal with |- context [reports rs (?w1, ?run)] =>
      destruct (reports_effect rs w1 run) as [_ [_ H]] end.
    apply H; [simpl; lia |]. intros ->. simpl in Heq. lia.
Qed.

(** The scenario of the specification: three pending records and one deleted
    record give four remote calls, and success with the fourth report. *)
Lemma manual_sync_dispatch_and_completion_witness :
  exists w1 run,
    syncToServer true tick0 world_pending = (w1, Some run) /\
    List.length (remote w1) = 4%nat /\
    (forall rs, (List.length rs < 4)%nat ->
                SyncStateService.syncStatus (sync (fst (reports rs (w1, run)))) = Syncing) /\
    (forall rs, (List.length rs = 4)%nat ->
                SyncStateService.syncStatus (sync (fst (reports rs (w1, run)))) = Success).
Proof.
  assert (Hn : (List.length (getPendingItems (db world_pending))
                + List.length (getDeletedItems (db world_pending)) = 4)%nat)
    by (vm_compute; reflexivity).
  destruct (manual_sync_dispatch_and_completion tick0 world_pending)
    as (w1 & run & H1 & _ & H3 & _ & _ & _ & H7 & H8).
  - reflexivity.
  - rewrite Hn. lia.
  - exists w1, run. rewrite Hn in H3, H7, H8. repeat split; assumption.
Defined.

End ManualSync.

(* ===================================================================== *)
(** * The active view never shows a deleted record *)
(* ===================================================================== *)

Section ViewInvariant.

Import AuditStorageService AuditTransformationService AuditActionService.

Lemma never_deleted_nil (d : gmap string OfflineAuditItem) : never_deleted d [].
Proof. intros a item []. Qed.

(** Records that list the same identifiers are judged alike. *)
Lemma never_deleted_same_ids (d : gmap string OfflineAuditItem) (l l' : list AuditRecord) :
  List.map externalId l' = List.map externalId l ->
  never_deleted d l -> never_deleted d l'.
Proof.
  intros Hids Hnd a item Hin Hlk.
  assert (Hid : In (externalId a) (List.map externalId l)).
  { rewrite <- Hids. apply in_map. exact Hin. }
  apply in_map_iff in Hid. destruct Hid as [a' [Heq Hin']].
  apply (Hnd a' item Hin'). rewrite Heq. exact Hlk.
Qed.

Lemma never_deleted_put (item : OfflineAuditItem) (d : gmap string OfflineAuditItem)
      (l : list AuditRecord) :
  _status item <> StDeleted ->
  never_deleted d l -> never_deleted (put item d) l.
Proof.
  intros Hst Hnd a x Hin. unfold put. rewrite lookup_insert.
  destruct (decide (ExternalId (api item) = externalId a)).
  - intros [= <-]. exact Hst.
  - apply Hnd. exact Hin.
Qed.

Lemma never_deleted_put_app (item : OfflineAuditItem) (d : gmap string OfflineAuditItem)
      (l : list AuditRecord) (a : AuditRecord) :
  _status item <> StDeleted ->
  externalId a = ExternalId (api item) ->
  never_deleted d l -> never_deleted (put item d) (l ++ [a]).
Proof.
  intros Hst Hid Hnd b x Hin. apply in_app_or in Hin. destruct Hin as [Hin | [<- | []]].
  - apply (never_deleted_put item d l Hst Hnd b x Hin).
  - unfold put. rewrite Hid, lookup_insert_eq. intros [= <-]. exact Hst.
Qed.

Lemma never_deleted_removeItem (id : string) (d : gmap string OfflineAuditItem)
      (l : list AuditRecord) :
  never_deleted d l -> never_deleted (removeItem id d) l.
Proof.
  intros Hnd a x Hin. unfold removeItem. rewrite lookup_delete.
  destruct (decide (id = externalId a)); [discriminate |]. apply Hnd. exact Hin.
Qed.

(** The soft delete: the record is taken out of the view and marked deleted. *)
Lemma never_deleted_deleteItem (t : Tick) (id : string) (d : gmap string OfflineAuditItem)
      (l : list AuditRecord) :
  keyed d ->
  never_deleted d l ->
  never_deleted (deleteItem t id d)
                (List.filter (fun audit => strict_neq (externalId audit) id) l).
Proof.
  intros Hk Hnd a x Hin. apply filter_In in Hin. destruct Hin as [Hin Hne].
  apply strict_neq_true in Hne.
  rewrite (deleteItem_lookup t id d (externalId a) Hk).
  destruct (decide (id = externalId a)); [congruence |]. apply Hnd. exact Hin.
Qed.

Lemma never_deleted_markAsSynced (t : Tick) (id : string) (d : gmap string OfflineAuditItem)
      (l : list AuditRecord) :
  keyed d ->
  never_deleted d l -> never_deleted (markAsSynced t id d) l.
Proof.
  intros Hk Hnd a x Hin.
  rewrite (markAsSynced_lookup t id d (externalId a) Hk).
  destruct (decide (id = externalId a)).
  - destruct (d !! id); simpl; [intros [= <-]; discriminate | discriminate].
  - apply Hnd. exact Hin.
Qed.

(** What the load path publishes from the store. *)
Lemma never_deleted_getAllItems (d : gmap string OfflineAuditItem) :
  keyed d ->
  never_deleted d (List.map (fun item => transformApiAuditToAudit (api item)) (getAllItems d)).
Proof.
  intros Hk a x Hin. apply in_map_iff in Hin. destruct Hin as [item [<- Hin]].
  apply getAllItems_not_deleted in Hin. destruct Hin as [[k Hlk] Hst].
  simpl. rewrite (Hk _ _ Hlk), Hlk. intros [= <-]. exact Hst.
Qed.

Lemma keyed_saveAllSynced (t : Tick) (l : list ApiAuditRecord)
      (d : gmap string OfflineAuditItem) :
  keyed d -> keyed (saveAllSynced t l d).
Proof.
  unfold saveAllSynced. revert d.
  induction l as [| x l IH]; simpl; intros d Hk; [exact Hk |].
  apply IH, keyed_put, Hk.
Qed.

(** A key of the store after the remote list was saved holds a synced
    record or what it held before. *)
Lemma saveAllSynced_lookup (t : Tick) (l : list ApiAuditRecord)
      (d : gmap string OfflineAuditItem) (k : string) (item : OfflineAuditItem) :
  saveAllSynced t l d !! k = Some item ->
  _status item = StSynced \/ d !! k = Some item.
Proof.
  unfold saveAllSynced. revert d.
  induction l as [| x l IH]; simpl; intros d H; [right; exact H |].
  destruct (IH _ H) as [Hs | Hlk]; [left; exact Hs |].
  unfold put in Hlk. rewrite lookup_insert in Hlk. simpl in Hlk.
  destruct (decide (ExternalId x = k)); [| right; exact Hlk].
  left. injection Hlk as <-. reflexivity.
Qed.

Lemma saveAllSynced_keeps_synced (t : Tick) (l : list ApiAuditRecord)
      (d : gmap string OfflineAuditItem) (k : string) (item : OfflineAuditItem) :
  d !! k = Some item -> _status item = StSynced ->
  exists item', saveAllSynced t l d !! k = Some item' /\ _status item' = StSynced.
Proof.
  unfold saveAllSynced. revert d item.
  induction l as [| x l IH]; simpl; intros d item Hlk Hst; [eauto |].
  destruct (decide (ExternalId x = k)) as [Heq | Hne].
  - eapply IH; [unfold put; simpl; rewrite Heq; apply lookup_insert_eq | reflexivity].
  - eapply IH; [unfold put; simpl; rewrite lookup_insert_ne by exact Hne; exact Hlk | exact Hst].
Qed.

Lemma saveAllSynced_saved (t : Tick) (l : list ApiAuditRecord)
      (d : gmap string OfflineAuditItem) (a : ApiAuditRecord) :
  In a l ->
  exists item, saveAllSynced t l d !! ExternalId a = Some item /\ _status item = StSynced.
Proof.
  revert d. induction l as [| x l IH]; intros d Hin; [destruct Hin |].
  destruct Hin as [-> | Hin].
  - change (saveAllSynced t (a :: l) d)
      with (saveAllSynced t l (fst (saveItem t a StSynced d))).
    eapply saveAllSynced_keeps_synced;
      [simpl; unfold put; simpl; apply lookup_insert_eq | reflexivity].
  - apply (IH (fst (saveItem t x StSynced d)) Hin).
Qed.

Lemma never_deleted_saveAllSynced (t : Tick) (l : list ApiAuditRecord)
      (d : gmap string OfflineAuditItem) (v : list AuditRecord) :
  never_deleted d v -> never_deleted (saveAllSynced t l d) v.
Proof.
  intros Hnd a x Hin Hlk.
  destruct (saveAllSynced_lookup t l d _ _ Hlk) as [Hs | Hold].
  - rewrite Hs. discriminate.
  - apply (Hnd a x Hin Hold).
Qed.

(** What the load paths publish from the remote source, once it is saved. *)
Lemma never_deleted_server (t : Tick) (l : list ApiAuditRecord)
      (d : gmap string OfflineAuditItem) :
  never_deleted (saveAllSynced t l d) (transformApiAuditsToAudits l).
Proof.
  intros a x Hin Hlk. apply in_map_iff in Hin. destruct Hin as [s [<- Hin]].
  destruct (saveAllSynced_saved t l d s Hin) as [item [Hitem Hst]].
  simpl in Hlk. rewrite Hitem in Hlk. injection Hlk as <-. rewrite Hst. discriminate.
Qed.

Lemma consistent_initial : consistent initial.
Proof. split; [exact keyed_empty | apply never_deleted_nil]. Qed.

Lemma consistent_createAudit (online : bool) (t : Tick) (request : CreateAuditRequest)
      (w : World) :
  consistent w -> consistent (createAudit online t request w).
Proof.
  intros [Hk Hv]. unfold createAudit.
  destruct (0 <? List.length (validateAuditData request))%nat; [split; assumption |].
  destruct online; (split; [apply keyed_put, Hk |]);
    apply never_deleted_put_app; try exact Hv; (discriminate || reflexivity).
Qed.

Lemma consistent_createAudit_called (request : CreateAuditRequest) (w : World) :
  consistent w -> consistent (createAudit_called request w).
Proof.
  intros H. unfold createAudit_called.
  destruct (0 <? List.length (validateAuditData request))%nat; exact H.
Qed.

Lemma consistent_syncCreateToServer_next (t : Tick) (optimisticAudit serverAudit : ApiAuditRecord)
      (w : World) :
  consistent w -> consistent (syncCreateToServer_next t optimisticAudit serverAudit w).
Proof.
  intros [Hk Hv]. split.
  - apply keyed_put, keyed_removeItem, Hk.
  - unfold view_never_deleted. cbn [syncCreateToServer_next finalizeSync updatePendingCount
                                     withSync withUi withDb db ui].
    eapply never_deleted_same_ids; [apply updateAudit_ids |].
    apply never_deleted_put; [discriminate |].
    apply never_deleted_removeItem, Hv.
Qed.

Lemma consistent_updateAudit (request : UpdateAuditRequest) (w : World) :
  consistent w -> consistent (updateAudit request w).
Proof.
  intros H. unfold updateAudit.
  destruct (0 <? List.length (validateAuditData (up_fields request)))%nat; exact H.
Qed.

Lemma consistent_updateAudit_next (apiAudit : ApiAuditRecord) (w : World) :
  consistent w -> consistent (updateAudit_next apiAudit w).
Proof.
  intros [Hk Hv]. split; [exact Hk |].
  unfold view_never_deleted. cbn [updateAudit_next withUi db ui].
  eapply never_deleted_same_ids; [apply updateAudit_ids | exact Hv].
Qed.

Lemma consistent_deleteAudit (online : bool) (t : Tick) (id : string) (w : World) :
  consistent w -> consistent (deleteAudit online t id w).
Proof.
  intros [Hk Hv]. unfold deleteAudit.
  destruct online; (split; [apply keyed_deleteItem, Hk |]);
    apply (never_deleted_deleteItem t id (db w) _ Hk Hv).
Qed.

(** A view that lost records shows no deleted record if it showed none. *)
Lemma never_deleted_filter (p : AuditRecord -> bool) (d : gmap string OfflineAuditItem)
      (l : list AuditRecord) :
  never_deleted d l -> never_deleted d (List.filter p l).
Proof.
  intros Hnd a x Hin. apply filter_In in Hin. apply Hnd. exact (proj1 Hin).
Qed.

Lemma consistent_deleteAudit_storageError (e : ApiFailure) (id : string) (w : World) :
  consistent w -> consistent (deleteAudit_storageError e id (deleteAudit_called id w)).
Proof.
  intros [Hk Hv]. split; [exact Hk |].
  apply (never_deleted_filter _ (db w) _ Hv).
Qed.

Lemma consistent_syncDeleteToServer_next (t : Tick) (id : string) (w : World) :
  consistent w -> consistent (syncDeleteToServer_next t id w).
Proof.
  intros [Hk Hv]. split.
  - apply keyed_removeItem, Hk.
  - apply (never_deleted_removeItem id (db w) _ Hv).
Qed.

Lemma consistent_loadFromStorage (online : bool) (t : Tick) (w : World) :
  consistent w -> consistent (loadFromStorage online t w).
Proof.
  intros [Hk Hv]. unfold loadFromStorage.
  destruct ((List.length (getAllItems (db w)) =? 0)%nat && online); [split; assumption |].
  destruct online; (split; [exact Hk |]); apply (never_deleted_getAllItems (db w) Hk).
Qed.

Lemma consistent_loadFromServerWithFallback_next (t : Tick) (serverAudits : list ApiAuditRecord)
      (w : World) :
  consistent w -> consistent (loadFromServerWithFallback_next t serverAudits w).
Proof.
  intros [Hk Hv]. split.
  - apply (keyed_saveAllSynced t serverAudits (db w) Hk).
  - apply (never_deleted_server t serverAudits (db w)).
Qed.

Lemma consistent_fallbackToServer_next (t : Tick) (serverAudits : list ApiAuditRecord)
      (w : World) :
  consistent w -> consistent (fallbackToServer_next t serverAudits w).
Proof.
  intros [Hk Hv]. split.
  - apply (keyed_saveAllSynced t serverAudits (db w) Hk).
  - apply (never_deleted_server t serverAudits (db w)).
Qed.

Lemma consistent_backgroundSyncFromServer_next (t : Tick) (serverAudits : list ApiAuditRecord)
      (w : World) :
  consistent w -> consistent (backgroundSyncFromServer_next t serverAudits w).
Proof.
  intros [Hk Hv]. split.
  - apply (keyed_saveAllSynced t serverAudits (db w) Hk).
  - apply (never_deleted_server t serverAudits (db w)).
Qed.

Lemma consistent_syncToServer (online : bool) (t : Tick) (w : World) :
  consistent w -> consistent (fst (syncToServer online t w)).
Proof.
  intros H. unfold syncToServer.
  destruct online; simpl; [| exact H].
  destruct (SyncStateService.isSyncing (sync w)); simpl; [exact H |].
  destruct (List.length (getPendingItems (db w)) + List.length (getDeletedItems (db w))
            =? 0)%nat; exact H.
Qed.

Lemma consistent_handleSyncSuccess (t : Tick) (localId : string) (serverAudit : ApiAuditRecord)
      (w : World) :
  consistent w -> consistent (handleSyncSuccess t localId serverAudit w).
Proof.
  intros [Hk Hv]. unfold handleSyncSuccess. destruct (startsWith_local localId).
  - split; [apply keyed_put, keyed_removeItem, Hk |].
    unfold view_never_deleted. cbn [withUi withDb db ui].
    eapply never_deleted_same_ids; [apply updateAudit_ids |].
    apply never_deleted_put; [discriminate |]. apply never_deleted_removeItem, Hv.
  - split; [apply keyed_markAsSynced, Hk |].
    unfold view_never_deleted. cbn [withUi withDb db ui].
    eapply never_deleted_same_ids; [apply updateAudit_ids |].
    apply never_deleted_markAsSynced; assumption.
Qed.

Lemma consistent_handleConflict (t : Tick) (localId : string) (serverAudit : ApiAuditRecord)
      (w : World) :
  consistent w -> consistent (handleConflict t localId serverAudit w).
Proof.
  intros H. unfold handleConflict.
  destruct (getItem localId (db w)) as [localAudit |]; [| exact H].
  destruct (AuditSyncService.detectConflict _ _ _ _) as [conflict |]; [| exact H].
  destruct (AuditSyncService.resolveConflict conflict); [exact H |].
  destruct H as [Hk Hv]. split; [apply keyed_put, Hk |].
  unfold view_never_deleted. cbn [withSync withUi withDb db ui].
  eapply never_deleted_same_ids; [apply updateAudit_ids |].
  apply never_deleted_put; [discriminate | exact Hv].
Qed.

Lemma consistent_handleSyncError (t : Tick) (auditId : string) (e : ApiFailure) (w : World) :
  consistent w -> consistent (handleSyncError t auditId e w).
Proof.
  intros H. unfold handleSyncError.
  destruct (isConflictError e); [| exact H].
  destruct (f_serverAudit e); [apply consistent_handleConflict |]; exact H.
Qed.

Lemma consistent_checkSyncCompletion (t : Tick) (p n : nat) (w : World) :
  consistent w -> consistent (checkSyncCompletion t p n w).
Proof.
  intros H. unfold checkSyncCompletion. destruct (p =? n)%nat; exact H.
Qed.

Lemma consistent_report (t : Tick) (r : Report) (w : World) (run : SyncRun) :
  consistent w -> consistent (fst (report t r (w, run))).
Proof.
  intros H. unfold report. cbn [fst snd].
  apply consistent_checkSyncCompletion.
  destruct r as [audit serverAudit | audit | audit e].
  - apply consistent_handleSyncSuccess, H.
  - destruct H as [Hk Hv]. split; [apply keyed_removeItem, Hk |].
    apply (never_deleted_removeItem _ (db w) _ Hv).
  - apply consistent_handleSyncError, H.
Qed.

(** Every event of the orchestrator keeps the store keyed and the view free
    of deleted records. *)
Lemma consistent_step (ev : Event) (w : World) :
  consistent w -> consistent (step ev w).
Proof.
  intros H. destruct ev; simpl.
  - apply consistent_createAudit, H.
  - destruct (0 <? List.length (validateAuditData request))%nat eqn:E.
    + apply consistent_createAudit_called, H.
    + apply (consistent_createAudit_called request w) in H. exact H.
  - apply consistent_syncCreateToServer_next, H.
  - exact H.
  - apply consistent_updateAudit, H.
  - apply consistent_updateAudit_next, H.
  - exact H.
  - apply consistent_deleteAudit, H.
  - apply consistent_deleteAudit_storageError, H.
  - apply consistent_syncDeleteToServer_next, H.
  - exact H.
  - exact H.
  - apply consistent_loadFromStorage, H.
  - destruct online; exact H.
  - apply consistent_loadFromServerWithFallback_next, H.
  - exact H.
  - apply consistent_fallbackToServer_next, H.
  - exact H.
  - apply consistent_backgroundSyncFromServer_next, H.
  - exact H.
  - apply consistent_syncToServer, H.
  - apply consistent_report, H.
Qed.

(** An event is the run of its tasks. *)
Lemma step_tasks (ev : Event) (w : World) : step ev w = tasks (tasksOf ev) w.
Proof.
  destruct ev; try reflexivity.
  - unfold step, tasksOf, createAudit, createAudit_called.
    destruct (0 <? List.length (validateAuditData request))%nat eqn:E.
    + unfold tasks. simpl. unfold createAudit_called. rewrite E. reflexivity.
    + unfold tasks. simpl. unfold createAudit_stored, createAudit_called. rewrite E.
      reflexivity.
  - unfold step, tasksOf.
    destruct (0 <? List.length (validateAuditData request))%nat; reflexivity.
Qed.

(** Operations that do not overlap: the run of the events is the run of
    their tasks, one event after the other. *)
Lemma run_settled (evs : list Event) (w : World) : run evs w = tasks (settled evs) w.
Proof.
  unfold run, settled, tasks. revert w.
  induction evs as [| ev evs IH]; intros w; [reflexivity |].
  cbn [fold_left flat_map]. rewrite fold_left_app, IH. f_equal.
  apply step_tasks.
Qed.

Lemma consistent_run (evs : list Event) (w : World) :
  consistent w -> consistent (run evs w).
Proof.
  unfold run. revert w.
  induction evs as [| ev evs IH]; simpl; intros w H; [exact H |].
  apply IH, consistent_step, H.
Qed.

(** After [deleteAudit] the view holds no record of the identifier deleted. *)
Lemma deleteAudit_removes_from_view (online : bool) (t : Tick) (id : string) (w : World)
      (a : AuditRecord) :
  In a (AuditStateService.audits (ui (deleteAudit online t id w))) -> externalId a <> id.
Proof.
  unfold deleteAudit. destruct online; simpl; intros Hin;
    apply filter_In in Hin; destruct Hin as [_ Hne]; apply strict_neq_true in Hne; exact Hne.
Qed.

(** The first-load callback publishes the remote list before it saves it: on
    a store that keeps record 1 as deleted, the view shows record 1 between
    the publication and the saves, and is consistent again once the callback
    with its saves is through. *)
Lemma first_load_publishes_before_saving :
  getAllItems (db world_soft_deleted) = [] /\
  ~ view_never_deleted (loadFromServerWithFallback_publish [audit1] world_soft_deleted) /\
  view_never_deleted (loadFromServerWithFallback_next tick1 [audit1] world_soft_deleted).
Proof.
  split; [vm_compute; reflexivity | split].
  - intros H.
    apply (H (transformApiAuditToAudit audit1)
             (mkOfflineAuditItem audit1 "1" StDeleted (now tick1) None)).
    + left. reflexivity.
    + vm_compute. reflexivity.
    + reflexivity.
  - apply never_deleted_server.
Qed.

(** From a fresh session, operations that do not overlap leave no deleted
    record in the view. *)
Corollary view_never_deleted_from_start (evs : list Event) :
  view_never_deleted (run evs initial).
Proof. apply (consistent_run evs initial consistent_initial). Qed.

(** When the saves of the first load fail, the published list stays: on a
    store that keeps record 1 as deleted the view then shows record 1. *)
Lemma first_load_whose_saves_fail_shows_deleted_record :
  ~ view_never_deleted
      (tasks [TLoadServerPublished [audit1]; TLoadServerError] world_soft_deleted).
Proof.
  intros H.
  apply (H (transformApiAuditToAudit audit1)
           (mkOfflineAuditItem audit1 "1" StDeleted (now tick1) None)).
  - left. reflexivity.
  - vm_compute. reflexivity.
  - reflexivity.
Qed.

(** C9, as stated, fails: the tasks of different operations interleave, and a
    remote list is published without regard to what the store marks as
    deleted.  In [overlapping_tasks] record 1 is deleted while a background
    sync is under way: the delete takes it out of the view, the background
    sync saves and publishes the remote list, which still holds it, and then
    the soft delete of the store completes.  The view shows record 1 and the
    store holds record 1 as deleted. *)
Lemma delete_overlapping_background_sync_shows_deleted_record :
  AuditStateService.audits (ui (tasks overlapping_tasks initial))
    = [transformApiAuditToAudit audit1] /\
  db (tasks overlapping_tasks initial) !! "1"
    = Some (mkOfflineAuditItem audit1 "1" StDeleted (now tick2) None) /\
  ~ view_never_deleted (tasks overlapping_tasks initial).
Proof.
  assert (Hdb : db (tasks overlapping_tasks initial) !! "1"
                = Some (mkOfflineAuditItem audit1 "1" StDeleted (now tick2) None))
    by (vm_compute; reflexivity).
  split; [vm_compute; reflexivity | split; [exact Hdb |]].
  intros H.
  apply (H (transformApiAuditToAudit audit1)
           (mkOfflineAuditItem audit1 "1" StDeleted (now tick2) None)).
  - left. reflexivity.
  - exact Hdb.
  - reflexivity.
Qed.

(** C9, amended.  Start from a state whose store is keyed by identifier and
    whose view shows no record stored as deleted (the fresh session is one).
    Let operations follow that do not overlap: create, update and delete, the
    load steps and the manual sync, the reports of their remote calls in any
    order, and the failure of the storage request of a create, of a delete or
    of a load, each with its storage requests completed, and the saves of a
    published remote list done, before the next one runs ([settled]).  Then
    the view shows no record stored as deleted; the storage read of the load
    path returns no deleted record; and a delete issued then leaves no record
    of the deleted identifier in the view. *)
Theorem view_never_shows_deleted_record (evs : list Event) (w : World) :
  keyed (db w) ->
  view_never_deleted w ->
  view_never_deleted (tasks (settled evs) w) /\
  (forall item, In item (getAllItems (db (tasks (settled evs) w))) ->
                _status item <> StDeleted) /\
  (forall online t id a,
      In a (AuditStateService.audits
              (ui (tasks (settled (evs ++ [EvDelete online t id])) w))) ->
      externalId a <> id) /\
  (forall online t id,
      view_never_deleted (tasks (settled (evs ++ [EvDelete online t id])) w)).
Proof.
  intros Hk Hv.
  assert (Hc : forall l, consistent (tasks (settled l) w)).
  { intros l. rewrite <- run_settled. apply consistent_run. split; assumption. }
  split; [exact (proj2 (Hc evs)) |]. split; [| split].
  - intros item Hin. apply getAllItems_not_deleted in Hin. exact (proj2 Hin).
  - intros online t id a. rewrite <- run_settled. unfold run. rewrite fold_left_app.
    apply deleteAudit_removes_from_view.
  - intros online t id. exact (proj2 (Hc _)).
Qed.

(** C9 on [sample_events]: at the end the view shows two records, the store
    keeps record 1 as deleted, and the view does not show it. *)
Lemma view_never_shows_deleted_record_witness :
  (view_never_deleted (tasks (settled sample_events) initial) /\
   (forall item, In item (getAllItems (db (tasks (settled sample_events) initial))) ->
                 _status item <> StDeleted)) /\
  List.map externalId (AuditStateService.audits (ui (tasks (settled sample_events) initial)))
    = ["2"; localIdOf tick1] /\
  option_map _status (db (tasks (settled sample_events) initial) !! "1") = Some StDeleted.
Proof.
  split; [| split; vm_compute; reflexivity].
  destruct (view_never_shows_deleted_record sample_events initial)
    as [H1 [H2 _]].
  - exact keyed_empty.
  - apply never_deleted_nil.
  - split; [exact H1 | exact H2].
Defined.

End ViewInvariant.

(* ===================================================================== *)
(** * More on conflict detection *)
(* ===================================================================== *)

Section ConflictDetectorMore.

Import AuditSyncService.

(** A conflict that [detectConflict] reports is always resolved in favour of
    the local version, by [resolveConflict] and by
    [getConflictResolutionStrategy] alike: the conflict is only reported when
    the local time is after the time taken as the server's. *)
Theorem detected_conflict_resolves_to_local
        (now : Z) (l s : ApiAuditRecord) (lm : Z) (c : AuditConflictData) :
  detectConflict now l s lm = Some c ->
  resolveConflict c = use_local /\
  action (getConflictResolutionStrategy c) = action_use_local /\
  serverModified c < localModified c.
Proof.
  intros H.
  assert (Hs : is_Some (detectConflict now l s lm)) by (rewrite H; eauto).
  apply detectConflict_Some_iff in Hs. destruct Hs as [Hlt _].
  unfold detectConflict in H.
  destruct ((now <? lm) && businessFieldsDiffer l s); [| discriminate].
  injection H as <-. unfold resolveConflict, getConflictResolutionStrategy. simpl.
  apply Z.ltb_lt in Hlt. rewrite Hlt. repeat split. apply Z.ltb_lt. exact Hlt.
Qed.

Lemma detected_conflict_resolves_to_local_witness :
  resolveConflict (mkAuditConflictData audit1_edited audit1 10 5) = use_local /\
  action (getConflictResolutionStrategy (mkAuditConflictData audit1_edited audit1 10 5))
    = action_use_local /\
  serverModified (mkAuditConflictData audit1_edited audit1 10 5)
    < localModified (mkAuditConflictData audit1_edited audit1 10 5).
Proof.
  exact (detected_conflict_resolves_to_local 5 audit1_edited audit1 10
           (mkAuditConflictData audit1_edited audit1 10 5) eq_refl).
Defined.

(** [getConflictResolutionStrategy] decides as [resolveConflict] does, for
    every conflict record: it never proposes a merge and never carries a
    merged record. *)
Theorem getConflictResolutionStrategy_agrees (c : AuditConflictData) :
  mergedAudit (getConflictResolutionStrategy c) = None /\
  action (getConflictResolutionStrategy c) <> merge /\
  (action (getConflictResolutionStrategy c) = action_use_local
   <-> resolveConflict c = use_local) /\
  (action (getConflictResolutionStrategy c) = action_use_server
   <-> resolveConflict c = use_server).
Proof.
  unfold getConflictResolutionStrategy, resolveConflict.
  destruct (serverModified c <? localModified c); simpl;
    repeat split; intros; congruence.
Qed.

Lemma areAuditsIdentical_true (l s : ApiAuditRecord) :
  areAuditsIdentical l s = true <->
  SlotNumber l = SlotNumber s /\ PrimaryBarcode l = PrimaryBarcode s /\
  WarehouseLogistics l = WarehouseLogistics s /\ Comments l = Comments s /\
  DateReceived l = DateReceived s /\ TimeReceived l = TimeReceived s /\
  Auditors l = Auditors s /\ WarehouseLocation l = WarehouseLocation s.
Proof.
  unfold areAuditsIdentical. rewrite !andb_true_iff, !String.eqb_eq. tauto.
Qed.

(** Records that [areAuditsIdentical] accepts never give a conflict, at any
    clock reading and for any local modification time; and the test is
    symmetric and transitive.  (System fields, [ExternalId] and [Synced], are
    not compared.) *)
Theorem areAuditsIdentical_no_conflict (l s : ApiAuditRecord) :
  areAuditsIdentical l s = true ->
  (forall now lm, detectConflict now l s lm = None) /\
  areAuditsIdentical s l = true /\
  (forall r, areAuditsIdentical s r = true -> areAuditsIdentical l r = true).
Proof.
  intros H. apply areAuditsIdentical_true in H.
  destruct H as (H1 & H2 & H3 & H4 & H5 & H6 & H7 & H8).
  split; [| split].
  - intros now lm. unfold detectConflict.
    assert (Hsame : businessFieldsDiffer l s = false)
      by (apply businessFieldsDiffer_false; repeat split; assumption).
    rewrite Hsame, andb_false_r. reflexivity.
  - apply areAuditsIdentical_true. repeat split; congruence.
  - intros r Hr. apply areAuditsIdentical_true in Hr. apply areAuditsIdentical_true.
    destruct Hr as (R1 & R2 & R3 & R4 & R5 & R6 & R7 & R8). repeat split; congruence.
Qed.

Lemma areAuditsIdentical_no_conflict_witness :
  (forall now lm, detectConflict now audit1 audit1 lm = None) /\
  areAuditsIdentical audit1 audit1 = true /\
  (forall r, areAuditsIdentical audit1 r = true -> areAuditsIdentical audit1 r = true).
Proof.
  exact (areAuditsIdentical_no_conflict audit1 audit1 eq_refl).
Defined.

(** [isSyncNeeded] does not depend on the order of its arguments, and it is
    false exactly when the two times are at most one second apart. *)
Theorem isSyncNeeded_tolerance (a b : Z) :
  isSyncNeeded a b = isSyncNeeded b a /\
  (isSyncNeeded a b = false <-> - 1000 <= a - b <= 1000).
Proof.
  unfold isSyncNeeded. split.
  - f_equal. lia.
  - rewrite Z.ltb_ge. lia.
Qed.

End ConflictDetectorMore.

(* ===================================================================== *)
(** * More on the sync state container *)
(* ===================================================================== *)

Section SyncStateMore.

Import SyncStateService.

Lemma map_itemId_replace (id : string) (c : ConflictInfo) (cs : list ConflictInfo) :
  itemId c = id ->
  List.map itemId (List.map (fun x => if String.eqb (itemId x) id then c else x) cs)
  = List.map itemId cs.
Proof.
  intros Hc. induction cs as [| x cs IH]; simpl; [reflexivity |].
  rewrite IH. destruct (String.eqb (itemId x) id) eqn:E; [| reflexivity].
  apply String.eqb_eq in E. congruence.
Qed.

Lemma find_none_not_in (id : string) (cs : list ConflictInfo) :
  List.find (fun c => String.eqb (itemId c) id) cs = None ->
  ~ In id (List.map itemId cs).
Proof.
  intros H Hin. apply in_map_iff in Hin. destruct Hin as [c [Hc Hin]].
  pose proof (find_none _ _ H c Hin) as Hn. simpl in Hn.
  apply String.eqb_neq in Hn. contradiction.
Qed.

Lemma NoDup_map_filter {A B : Type} (f : A -> B) (p : A -> bool) (l : list A) :
  List.NoDup (List.map f l) -> List.NoDup (List.map f (List.filter p l)).
Proof.
  induction l as [| x l IH]; simpl; intros H; [constructor |].
  inversion H as [| ? ? Hnin Hnd]; subst.
  destruct (p x); simpl; [| apply IH, Hnd].
  constructor; [| apply IH, Hnd].
  intros Hin. apply Hnin. apply in_map_iff in Hin. destruct Hin as [y [Hy Hin]].
  apply filter_In in Hin. apply in_map_iff. exists y. tauto.
Qed.

Lemma map_itemId_replace_resolved (id : string) (cs : list ConflictInfo) :
  List.map itemId
    (List.map (fun c => if String.eqb (itemId c) id
                        then mkConflictInfo (itemId c) (ci_localModified c)
                                            (ci_serverModified c) true
                        else c) cs)
  = List.map itemId cs.
Proof.
  induction cs as [| x cs IH]; simpl; [reflexivity |].
  rewrite IH. destruct (String.eqb (itemId x) id); reflexivity.
Qed.

Lemma call_keeps_conflicts_unique (c : Call) (s : State) :
  conflicts_unique s -> conflicts_unique (call c s).
Proof.
  unfold conflicts_unique.
  destruct c as [now st | o i | e | | n | id lm sm | id | id | | now |];
    simpl; intros H; try exact H.
  - destruct st; exact H.
  - unfold setSyncError. destruct (truthy e); exact H.
  - unfold clearSyncError. simpl. destruct (SyncStatus_eqb (syncStatus s) Error); exact H.
  - destruct (List.find _ (conflicts s)) eqn:E.
    + rewrite map_itemId_replace by reflexivity. exact H.
    + rewrite map_app. simpl. apply NoDup_ListNoDup, NoDup_app.
      split; [apply NoDup_ListNoDup, H | split].
      * intros x Hx Hx'. apply list_elem_of_In in Hx, Hx'.
        destruct Hx' as [<- | []]. exact (find_none_not_in _ _ E Hx).
      * apply NoDup_ListNoDup. constructor; [intros [] | constructor].
  - apply NoDup_map_filter, H.
  - rewrite (map_itemId_replace_resolved id (conflicts s)). exact H.
  - constructor.
  - constructor.
Qed.

(** The conflict list never holds two entries for one item: every sequence of
    calls keeps the item identifiers of the conflicts distinct. *)
Theorem calls_keep_conflicts_unique (cs : list Call) (s : State) :
  conflicts_unique s -> conflicts_unique (calls cs s).
Proof.
  unfold calls. revert s.
  induction cs as [| c cs IH]; simpl; intros s H; [exact H |].
  apply IH, call_keeps_conflicts_unique, H.
Qed.

Lemma calls_keep_conflicts_unique_witness :
  conflicts_unique
    (calls [CAddConflict "1" 20 10; CAddConflict "2" 5 7; CAddConflict "1" 30 10;
            CMarkConflictResolved "2"; CRemoveConflict "3"] initial).
Proof.
  apply (calls_keep_conflicts_unique
           [CAddConflict "1" 20 10; CAddConflict "2" 5 7; CAddConflict "1" 30 10;
            CMarkConflictResolved "2"; CRemoveConflict "3"] initial).
  constructor.
Defined.

Lemma filter_id_not_in (id : string) (cs : list ConflictInfo) :
  ~ In id (List.map itemId cs) ->
  List.filter (fun c => String.eqb (itemId c) id) cs = [].
Proof.
  intros H. induction cs as [| x cs IH]; simpl; [reflexivity |].
  destruct (String.eqb (itemId x) id) eqn:E.
  - apply String.eqb_eq in E. exfalso. apply H. left. exact E.
  - apply IH. intros Hin. apply H. right. exact Hin.
Qed.

Lemma filter_id_replace_unique (id : string) (c : ConflictInfo) (cs : list ConflictInfo) :
  itemId c = id ->
  List.NoDup (List.map itemId cs) ->
  In id (List.map itemId cs) ->
  List.filter (fun x => String.eqb (itemId x) id)
              (List.map (fun x => if String.eqb (itemId x) id then c else x) cs) = [c].
Proof.
  intros Hc. induction cs as [| x cs IH]; simpl; intros Hnd Hin; [destruct Hin |].
  inversion Hnd as [| ? ? Hnin Hnd']; subst.
  destruct (String.eqb (itemId x) (itemId c)) eqn:E.
  - apply String.eqb_eq in E. rewrite String.eqb_refl. f_equal.
    rewrite E in Hnin.
    assert (Hmap : List.map (fun x0 => if String.eqb (itemId x0) (itemId c) then c else x0) cs
                   = cs).
    { clear -Hnin. induction cs as [| y cs IH]; simpl; [reflexivity |].
      destruct (String.eqb (itemId y) (itemId c)) eqn:Ey.
      - apply String.eqb_eq in Ey. exfalso. apply Hnin. left. exact Ey.
      - f_equal. apply IH. intros H. apply Hnin. right. exact H. }
    rewrite Hmap. apply filter_id_not_in. exact Hnin.
  - rewrite E. apply IH; [exact Hnd' |].
    destruct Hin as [Hx | Hin]; [| exact Hin].
    apply String.eqb_neq in E. contradiction.
Qed.

Lemma filter_id_resolved (id : string) (cs : list ConflictInfo) :
  List.filter (fun c => String.eqb (itemId c) id)
    (List.map (fun c => if String.eqb (itemId c) id
                        then mkConflictInfo (itemId c) (ci_localModified c)
                                            (ci_serverModified c) true
                        else c) cs)
  = List.map (fun c => mkConflictInfo (itemId c) (ci_localModified c)
                                      (ci_serverModified c) true)
             (List.filter (fun c => String.eqb (itemId c) id) cs).
Proof.
  induction cs as [| x cs IH]; simpl; [reflexivity |].
  destruct (String.eqb (itemId x) id) eqn:E; simpl; rewrite E, IH; reflexivity.
Qed.

Lemma filter_id_removed (id : string) (cs : list ConflictInfo) :
  List.filter (fun c => String.eqb (itemId c) id)
              (List.filter (fun c => strict_neq (itemId c) id) cs) = [].
Proof.
  induction cs as [| x cs IH]; simpl; [reflexivity |].
  unfold strict_neq at 1. destruct (String.eqb (itemId x) id) eqn:E; simpl; [exact IH |].
  rewrite E. exact IH.
Qed.

Lemma filter_other_replace (id other : string) (c : ConflictInfo) (cs : list ConflictInfo) :
  itemId c = id -> other <> id ->
  List.filter (fun x => String.eqb (itemId x) other)
              (List.map (fun x => if String.eqb (itemId x) id then c else x) cs)
  = List.filter (fun x => String.eqb (itemId x) other) cs.
Proof.
  intros Hc Hne. induction cs as [| x cs IH]; simpl; [reflexivity |].
  destruct (String.eqb (itemId x) id) eqn:E.
  - apply String.eqb_eq in E.
    assert (E1 : String.eqb (itemId c) other = false) by (apply String.eqb_neq; congruence).
    assert (E2 : String.eqb (itemId x) other = false) by (apply String.eqb_neq; congruence).
    rewrite E1, E2. exact IH.
  - rewrite IH. reflexivity.
Qed.

(** After [addConflict] the item has exactly one conflict, the new one and
    unresolved, whether it had one before or not; [markConflictResolved]
    then leaves exactly that conflict, resolved; [removeConflict] leaves none. *)
Theorem addConflict_single_entry (id : string) (lm sm : Z) (s : State) :
  conflicts_unique s ->
  conflictsOf id (addConflict id lm sm s) = [mkConflictInfo id lm sm false] /\
  conflictsOf id (markConflictResolved id (addConflict id lm sm s))
    = [mkConflictInfo id lm sm true] /\
  conflictsOf id (removeConflict id (addConflict id lm sm s)) = [] /\
  (forall other, other <> id ->
     conflictsOf other (addConflict id lm sm s) = conflictsOf other s).
Proof.
  intros Hu. unfold conflicts_unique in Hu.
  assert (H1 : conflictsOf id (addConflict id lm sm s) = [mkConflictInfo id lm sm false]).
  { unfold conflictsOf, addConflict. simpl.
    destruct (List.find _ (conflicts s)) as [c0 |] eqn:E.
    - apply filter_id_replace_unique; [reflexivity | exact Hu |].
      apply find_some in E. destruct E as [Hin Heq]. apply String.eqb_eq in Heq.
      apply in_map_iff. exists c0. split; assumption.
    - rewrite List.filter_app. simpl. rewrite String.eqb_refl.
      rewrite (filter_id_not_in id _ (find_none_not_in _ _ E)). reflexivity. }
  split; [exact H1 | split; [| split]].
  - unfold conflictsOf in *. unfold markConflictResolved, with_conflicts at 1.
    cbn [conflicts]. rewrite filter_id_resolved, H1. reflexivity.
  - unfold conflictsOf, removeConflict, with_conflicts at 1. cbn [conflicts].
    apply filter_id_removed.
  - intros other Hne. unfold conflictsOf, addConflict. simpl.
    destruct (List.find _ (conflicts s)) as [c0 |].
    + apply filter_other_replace; [reflexivity | exact Hne].
    + rewrite List.filter_app. simpl.
      assert (E1 : String.eqb id other = false) by (apply String.eqb_neq; congruence).
      rewrite E1. apply app_nil_r.
Qed.

Lemma addConflict_single_entry_witness :
  conflictsOf "1" (addConflict "1" 30 10 (addConflict "1" 20 10 initial))
    = [mkConflictInfo "1" 30 10 false].
Proof.
  apply (addConflict_single_entry "1" 30 10 (addConflict "1" 20 10 initial)).
  unfold conflicts_unique. simpl. constructor; [intros [] | constructor].
Defined.

(** The pending count is never negative, whatever is passed to
    [setPendingRecordsCount]. *)
Theorem calls_keep_pending_count_nonnegative (cs : list Call) (s : State) :
  0 <= pendingRecordsCount s -> 0 <= pendingRecordsCount (calls cs s).
Proof.
  unfold calls. revert s.
  induction cs as [| c cs IH]; simpl; intros s H; [exact H |].
  apply IH.
  destruct c as [now st | o i | e | | n | id lm sm | id | id | | now |]; simpl;
    try exact H.
  - destruct st; exact H.
  - unfold setSyncError. destruct (truthy e); exact H.
  - unfold clearSyncError. simpl. destruct (SyncStatus_eqb (syncStatus s) Error); exact H.
  - lia.
  - lia.
Qed.

Lemma calls_keep_pending_count_nonnegative_witness :
  0 <= pendingRecordsCount (calls [CSetPendingRecordsCount (-3)] initial).
Proof.
  apply (calls_keep_pending_count_nonnegative [CSetPendingRecordsCount (-3)] initial).
  simpl. lia.
Defined.

End SyncStateMore.

(* ===================================================================== *)
(** * More on the object store *)
(* ===================================================================== *)

Section StorageMore.

Import AuditStorageService.

Lemma status_counts (l : list OfflineAuditItem) :
  (List.length (List.filter (fun a => ItemStatus_eqb (_status a) StSynced) l)
   + List.length (List.filter (fun a => ItemStatus_eqb (_status a) StPending) l)
   + List.length (List.filter (fun a => ItemStatus_eqb (_status a) StDeleted) l)
   = List.length l)%nat /\
  (List.length (List.filter (fun a => negb (ItemStatus_eqb (_status a) StDeleted)) l)
   + List.length (List.filter (fun a => ItemStatus_eqb (_status a) StDeleted) l)
   = List.length l)%nat.
Proof.
  induction l as [| x l [IH1 IH2]]; simpl; [split; reflexivity |].
  destruct (_status x); simpl; split; lia.
Qed.

Lemma length_getAll (d : gmap string OfflineAuditItem) : List.length (getAll d) = size d.
Proof. unfold getAll. rewrite length_map. apply length_map_to_list. Qed.

(** Every stored record is listed under exactly one status: the synced, the
    pending and the deleted records add up to the size of the store, and the
    active listing is the synced and the pending records together. *)
Theorem statuses_partition_the_store (d : gmap string OfflineAuditItem) :
  (List.length (getAllByStatus StSynced d) + List.length (getPendingItems d)
   + List.length (getDeletedItems d) = size d)%nat /\
  (List.length (getAllItems d) + List.length (getDeletedItems d) = size d)%nat /\
  (forall item, In item (getAllItems d) <->
                In item (getAllByStatus StSynced d) \/ In item (getPendingItems d)) /\
  (forall item, In item (getDeletedItems d) -> ~ In item (getAllItems d)).
Proof.
  unfold getPendingItems, getDeletedItems, getAllByStatus, getAllItems.
  destruct (status_counts (getAll d)) as [H1 H2]. rewrite length_getAll in H1, H2.
  split; [exact H1 | split; [exact H2 | split]].
  - intros item. rewrite !filter_In, negb_true_iff.
    destruct (_status item); simpl; intuition discriminate.
  - intros item. rewrite !filter_In, negb_true_iff. intros [_ H] [_ H']. congruence.
Qed.

(** What [saveItem] stores can be read back: [getItem] under the identifier
    of the record returns the stored item (payload, status and time as
    given), other identifiers read as before, and saving the same record
    again at the same time changes nothing. *)
Theorem saveItem_then_getItem (t : Tick) (a : ApiAuditRecord) (st : ItemStatus)
        (d : gmap string OfflineAuditItem) :
  st <> StDeleted ->
  getItem (ExternalId a) (fst (saveItem t a st d)) = Some (snd (saveItem t a st d)) /\
  api (snd (saveItem t a st d)) = a /\
  _status (snd (saveItem t a st d)) = st /\
  _lastModified (snd (saveItem t a st d)) = now t /\
  (forall k, k <> ExternalId a -> getItem k (fst (saveItem t a st d)) = getItem k d) /\
  fst (saveItem t a st (fst (saveItem t a st d))) = fst (saveItem t a st d).
Proof.
  intros Hst. split; [| split; [| split; [| split; [| split]]]]; try reflexivity.
  - unfold getItem. rewrite saveItem_lookup.
    destruct (decide (ExternalId a = ExternalId a)); [| contradiction]. simpl.
    destruct st; try reflexivity. contradiction.
  - intros k Hk. unfold getItem. rewrite saveItem_lookup.
    destruct (decide (ExternalId a = k)); [congruence | reflexivity].
  - simpl. unfold put. simpl. apply insert_insert_eq.
Qed.

Lemma saveItem_then_getItem_witness :
  getItem (ExternalId audit1) (fst (saveItem tick0 audit1 StSynced store_pending_c))
    = Some (snd (saveItem tick0 audit1 StSynced store_pending_c)) /\
  getItem "2" (fst (saveItem tick0 audit1 StSynced store_pending_c)) = Some pending_c.
Proof.
  destruct (saveItem_then_getItem tick0 audit1 StSynced store_pending_c)
    as (H1 & _ & _ & _ & H5 & _); [discriminate |].
  split; [exact H1 |]. rewrite H5; [vm_compute; reflexivity | discriminate].
Defined.

(** The soft delete hides the record from [getItem] and from the active
    listing and puts it in the deleted listing with its payload; other
    identifiers read as before; on an identifier that is not stored it does
    nothing at all. *)
Theorem deleteItem_hides_record (t : Tick) (id : string) (d : gmap string OfflineAuditItem) :
  keyed d ->
  getItem id (deleteItem t id d) = None /\
  (forall item, In item (getAllItems (deleteItem t id d)) -> ExternalId (api item) <> id) /\
  (forall item, d !! id = Some item ->
     In (mkOfflineAuditItem (api item) (_localId item) StDeleted (now t) (_conflictData item))
        (getDeletedItems (deleteItem t id d))) /\
  (forall k, k <> id -> getItem k (deleteItem t id d) = getItem k d) /\
  (d !! id = None -> deleteItem t id d = d).
Proof.
  intros Hk. split; [| split; [| split; [| split]]].
  - unfold getItem. rewrite (deleteItem_lookup t id d id Hk).
    destruct (decide (id = id)); [| contradiction].
    destruct (d !! id); reflexivity.
  - intros item Hin Heq. apply getAllItems_not_deleted in Hin.
    destruct Hin as [[k Hlk] Hst].
    pose proof (keyed_deleteItem t id d Hk _ _ Hlk) as Hkey.
    rewrite Heq in Hkey. subst k.
    rewrite (deleteItem_lookup t id d id Hk) in Hlk.
    destruct (decide (id = id)); [| contradiction].
    destruct (d !! id); simpl in Hlk; [| discriminate].
    injection Hlk as <-. apply Hst. reflexivity.
  - intros item Hid. unfold getDeletedItems, getAllByStatus.
    apply filter_In. split; [| reflexivity].
    apply In_getAll. exists id. rewrite (deleteItem_lookup t id d id Hk), Hid.
    destruct (decide (id = id)); [reflexivity | contradiction].
  - intros k Hne. unfold getItem. rewrite (deleteItem_lookup t id d k Hk).
    destruct (decide (id = k)); [congruence | reflexivity].
  - intros Hnone. unfold deleteItem. rewrite Hnone. reflexivity.
Qed.

Lemma deleteItem_hides_record_witness :
  getItem "2" (deleteItem tick1 "2" store_pending_c) = None /\
  deleteItem tick1 "7" store_pending_c = store_pending_c.
Proof.
  destruct (deleteItem_hides_record tick1 "2" store_pending_c)
    as (H1 & _); [exact (keyed_put pending_c ∅ keyed_empty) |].
  split; [exact H1 | vm_compute; reflexivity].
Defined.

(** The hard delete: nothing is stored under the identifier afterwards, in
    any listing; other identifiers are untouched; removing what is not
    stored, or removing twice, changes nothing. *)
Theorem removeItem_forgets_record (id : string) (d : gmap string OfflineAuditItem) :
  removeItem id d !! id = None /\
  getItem id (removeItem id d) = None /\
  (forall k, k <> id -> removeItem id d !! k = d !! k) /\
  (d !! id = None -> removeItem id d = d) /\
  removeItem id (removeItem id d) = removeItem id d /\
  (is_Some (d !! id) -> size d = S (size (removeItem id d))).
Proof.
  unfold removeItem, getItem. rewrite lookup_delete_eq.
  split; [reflexivity | split; [reflexivity | split; [| split; [| split]]]].
  - intros k Hne. apply lookup_delete_ne. congruence.
  - apply delete_id.
  - apply delete_delete_eq.
  - intros [x Hx]. rewrite <- (insert_delete_id d id x Hx) at 1.
    apply map_size_insert_None, lookup_delete_eq.
Qed.

(** [markAsSynced] leaves no pending record under the identifier; it marks
    whatever is stored there as synced, a soft-deleted record included, which
    thereby becomes readable again; on an identifier that is not stored it
    does nothing. *)
Theorem markAsSynced_effect (t : Tick) (id : string) (d : gmap string OfflineAuditItem) :
  keyed d ->
  (forall item, In item (getPendingItems (markAsSynced t id d)) ->
                ExternalId (api item) <> id) /\
  (forall item, d !! id = Some item ->
     getItem id (markAsSynced t id d)
     = Some (mkOfflineAuditItem (api item) (_localId item) StSynced (now t)
                                (_conflictData item))) /\
  (forall k, k <> id -> markAsSynced t id d !! k = d !! k) /\
  (d !! id = None -> markAsSynced t id d = d).
Proof.
  intros Hk. split; [| split; [| split]].
  - intros item Hin Heq. unfold getPendingItems, getAllByStatus in Hin.
    apply filter_In in Hin. destruct Hin as [Hin Hst].
    apply In_getAll in Hin. destruct Hin as [k Hlk].
    pose proof (keyed_markAsSynced t id d Hk _ _ Hlk) as Hkey.
    rewrite Heq in Hkey. subst k.
    rewrite (markAsSynced_lookup t id d id Hk) in Hlk.
    destruct (decide (id = id)); [| contradiction].
    destruct (d !! id); simpl in Hlk; [| discriminate].
    injection Hlk as <-. discriminate Hst.
  - intros item Hid. unfold getItem. rewrite (markAsSynced_lookup t id d id Hk), Hid.
    destruct (decide (id = id)); [reflexivity | contradiction].
  - intros k Hne. rewrite (markAsSynced_lookup t id d k Hk).
    destruct (decide (id = k)); [congruence | reflexivity].
  - intros Hnone. unfold markAsSynced. rewrite Hnone. reflexivity.
Qed.

Lemma markAsSynced_effect_witness :
  getItem "1" store_deleted_d = None /\
  getItem "1" (markAsSynced tick1 "1" store_deleted_d)
    = Some (mkOfflineAuditItem audit1 "1" StSynced (now tick1) None).
Proof.
  destruct (markAsSynced_effect tick1 "1" store_deleted_d)
    as (_ & H2 & _); [exact (keyed_put deleted_d ∅ keyed_empty) |].
  split; [vm_compute; reflexivity |].
  apply (H2 deleted_d). vm_compute. reflexivity.
Defined.

(** [updateItem] is rejected, and writes nothing, when no record is stored
    under the identifier (a soft-deleted record is stored, and is updated).
    Otherwise the merged record is written under the identifier the merged
    record carries: when the update leaves [ExternalId] alone the record
    under [id] is replaced and nothing else changes; when the update carries
    another [ExternalId] the old record stays under [id] and the merged
    record is written under the new identifier as well. *)
Theorem updateItem_effect (t : Tick) (id : string) (updates : PartialApiAuditRecord)
        (st : ItemStatus) (d : gmap string OfflineAuditItem) :
  keyed d ->
  (d !! id = None ->
   updateItem t id updates st d = (d, inr ("Audit with id " +:+ id +:+ " not found"))) /\
  (forall existing, d !! id = Some existing ->
     exists updated,
       snd (updateItem t id updates st d) = inl updated /\
       api updated = spread (api existing) updates /\
       _status updated = st /\ _lastModified updated = now t /\
       fst (updateItem t id updates st d) !! ExternalId (api updated) = Some updated /\
       (p_ExternalId updates = None ->
        ExternalId (api updated) = id /\
        forall k, k <> id -> fst (updateItem t id updates st d) !! k = d !! k) /\
       (forall k', p_ExternalId updates = Some k' -> k' <> id ->
        ExternalId (api updated) = k' /\
        fst (updateItem t id updates st d) !! id = Some existing)).
Proof.
  intros Hk. split.
  - intros Hnone. unfold updateItem. rewrite Hnone. reflexivity.
  - intros existing Hid. unfold updateItem. rewrite Hid. simpl.
    eexists. split; [reflexivity |]. simpl.
    split; [reflexivity | split; [reflexivity | split; [reflexivity | split; [| split]]]].
    + unfold put. simpl. apply lookup_insert_eq.
    + intros Hnone. rewrite Hnone. simpl. rewrite (Hk _ _ Hid).
      split; [reflexivity |]. intros k Hne. unfold put. simpl.
      rewrite Hnone. simpl. rewrite (Hk _ _ Hid). apply lookup_insert_ne. congruence.
    + intros k' Hsome Hne. rewrite Hsome. simpl. split; [reflexivity |].
      unfold put. simpl. rewrite Hsome. simpl.
      rewrite lookup_insert_ne by exact Hne. exact Hid.
Qed.

Lemma updateItem_effect_witness :
  updateItem tick1 "7" updates_comments StPending store_pending_c
    = (store_pending_c, inr "Audit with id 7 not found") /\
  fst (updateItem tick1 "2" updates_rekey StPending store_pending_c) !! "2"
    = Some pending_c /\
  is_Some (fst (updateItem tick1 "2" updates_rekey StPending store_pending_c) !! "9").
Proof.
  destruct (updateItem_effect tick1 "7" updates_comments StPending store_pending_c)
    as [H1 _]; [exact (keyed_put pending_c ∅ keyed_empty) |].
  split; [apply H1; vm_compute; reflexivity |].
  split; vm_compute; eauto.
Defined.

End StorageMore.

(* ===================================================================== *)
(** * More on the published view *)
(* ===================================================================== *)

Section ViewMore.

Import AuditStateService.

(** [removeAudit] takes every record of the identifier out of the view and
    keeps the others in their order; the selection is cleared exactly when
    the selected record had that identifier; removing again changes nothing. *)
Theorem removeAudit_effect (id : string) (s : State) :
  (forall a, In a (audits (removeAudit id s)) <-> In a (audits s) /\ externalId a <> id) /\
  audits (removeAudit id s)
    = List.filter (fun a => strict_neq (externalId a) id) (audits s) /\
  (selectedAudit (removeAudit id s) = None <->
   selectedAudit s = None \/ exists a, selectedAudit s = Some a /\ externalId a = id) /\
  (forall a, selectedAudit (removeAudit id s) = Some a ->
             selectedAudit s = Some a /\ externalId a <> id) /\
  removeAudit id (removeAudit id s) = removeAudit id s /\
  ((forall a, In a (audits s) -> externalId a <> id) -> audits (removeAudit id s) = audits s).
Proof.
  split; [| split; [reflexivity | split; [| split; [| split]]]].
  - intros a. simpl. rewrite filter_In, strict_neq_true. reflexivity.
  - unfold removeAudit, selectedIs. simpl.
    destruct (selectedAudit s) as [a |]; [| tauto].
    destruct (String.eqb (externalId a) id) eqn:E.
    + apply String.eqb_eq in E. split; [intros _; right; eauto | reflexivity].
    + apply String.eqb_neq in E. split; [discriminate |].
      intros [H | [b [[= <-] Hb]]]; [discriminate | contradiction].
  - intros a. unfold removeAudit, selectedIs. simpl.
    destruct (selectedAudit s) as [b |]; [| discriminate].
    destruct (String.eqb (externalId b) id) eqn:E; [discriminate |].
    apply String.eqb_neq in E. intros [= <-]. split; [reflexivity | exact E].
  - unfold removeAudit at 1 3. unfold selectedIs. f_equal.
    + simpl. induction (audits s) as [| x l IH]; simpl; [reflexivity |].
      destruct (strict_neq (externalId x) id) eqn:E; simpl; [rewrite E, IH |]; auto.
    + simpl. unfold selectedIs.
      destruct (selectedAudit s) as [b |]; [| reflexivity].
      destruct (String.eqb (externalId b) id) eqn:E; [reflexivity |]. rewrite E. reflexivity.
  - intros H. simpl. induction (audits s) as [| x l IH]; simpl; [reflexivity |].
    assert (Hx : strict_neq (externalId x) id = true)
      by (apply strict_neq_true, H; left; reflexivity).
    rewrite Hx. f_equal. apply IH. intros a Ha. apply H. right. exact Ha.
Qed.

(** [updateAudit] keeps the length of the view and the identifiers in it.
    When no record of the view has the identifier of the updated record, the
    view is left exactly as it was (nothing is added); otherwise the updated
    record is in the view afterwards and no other version under that
    identifier is. *)
Theorem updateAudit_effect (u : AuditRecord) (s : State) :
  List.length (audits (updateAudit u s)) = List.length (audits s) /\
  ((forall a, In a (audits s) -> externalId a <> externalId u) ->
   audits (updateAudit u s) = audits s) /\
  ((exists a, In a (audits s) /\ externalId a = externalId u) ->
   In u (audits (updateAudit u s))) /\
  (forall a, In a (audits (updateAudit u s)) -> externalId a = externalId u -> a = u) /\
  (forall a, In a (audits s) -> externalId a <> externalId u ->
             In a (audits (updateAudit u s))).
Proof.
  split; [| split; [| split; [| split]]].
  - simpl. apply length_map.
  - intros H. simpl. induction (audits s) as [| x l IH]; simpl; [reflexivity |].
    assert (Hx : String.eqb (externalId x) (externalId u) = false)
      by (apply String.eqb_neq, H; left; reflexivity).
    rewrite Hx. f_equal. apply IH. intros a Ha. apply H. right. exact Ha.
  - intros [a [Hin Heq]]. simpl. apply in_map_iff. exists a.
    apply String.eqb_eq in Heq. rewrite Heq. split; [reflexivity | exact Hin].
  - intros a Hin Heq. simpl in Hin. apply in_map_iff in Hin.
    destruct Hin as [x [Hx _]].
    destruct (String.eqb (externalId x) (externalId u)) eqn:E; [congruence |].
    apply String.eqb_neq in E. congruence.
  - intros a Hin Hne. apply updateAudit_other; assumption.
Qed.

Lemma In_distinct (values : list string) (v : string) :
  In v (distinct values) <-> In v values.
Proof.
  induction values as [| x l IH]; simpl; [reflexivity |].
  rewrite filter_In, IH, strict_neq_true.
  destruct (String.eqb_spec x v); [tauto |]. split; [tauto |].
  intros [H | H]; [contradiction | right; split; [exact H | congruence]].
Qed.

Lemma NoDup_distinct (values : list string) : List.NoDup (distinct values).
Proof.
  induction values as [| x l IH]; simpl; constructor.
  - rewrite filter_In, strict_neq_true. intros [_ H]. contradiction.
  - clear -IH. induction (distinct l) as [| y l' IH']; simpl; [constructor |].
    inversion IH as [| ? ? Hnin Hnd]; subst.
    destruct (strict_neq y x); [| apply IH', Hnd].
    constructor; [| apply IH', Hnd].
    rewrite filter_In. tauto.
Qed.

(** The sizes of the classes of a list under a key, taken over distinct
    keys that cover the list, add up to the length of the list. *)
Lemma class_sizes (key : AuditRecord -> string) (l : list AuditRecord) (keys : list string) :
  List.NoDup keys ->
  (forall a, In a l -> In (key a) keys) ->
  groupSizes (List.map (fun k => (k, List.filter (fun a => String.eqb (key a) k) l)) keys)
  = List.length l.
Proof.
  intros Hnd. induction l as [| x l IH]; intros Hcov.
  - simpl. clear. induction keys as [| k ks IH]; simpl; [reflexivity | exact IH].
  - assert (Hx : In (key x) keys) by (apply Hcov; left; reflexivity).
    specialize (IH (fun a Ha => Hcov a (or_intror Ha))).
    simpl. rewrite <- IH. clear IH Hcov.
    induction keys as [| k ks IHk]; [destruct Hx |].
    inversion Hnd as [| ? ? Hnin Hnd']; subst. simpl.
    destruct (String.eqb_spec (key x) k) as [Heq | Hne].
    + simpl. f_equal. f_equal.
      clear IHk Hx Hnd. subst k.
      induction ks as [| k' ks IH']; simpl; [reflexivity |].
      assert (Hk' : String.eqb (key x) k' = false).
      { apply String.eqb_neq. intros H. apply Hnin. left. congruence. }
      rewrite Hk'. f_equal. apply IH'.
      * intros H. apply Hnin. right. exact H.
      * inversion Hnd'; assumption.
    + destruct Hx as [Hx | Hx]; [congruence |].
      rewrite (IHk Hnd' Hx). lia.
Qed.

(** [auditsByLocation] partitions the view: the locations listed are
    distinct, no group is empty, each group holds the records of its location
    and only those, and the groups together hold as many records as the view. *)
Theorem auditsByLocation_partitions (s : State) :
  List.NoDup (List.map fst (auditsByLocation s)) /\
  (forall location group, In (location, group) (auditsByLocation s) ->
     group <> [] /\
     forall a, In a group <-> In a (audits s) /\ warehouseLocation a = location) /\
  (forall a, In a (audits s) ->
     exists group, In (warehouseLocation a, group) (auditsByLocation s) /\ In a group) /\
  groupSizes (auditsByLocation s) = auditCount s.
Proof.
  unfold auditsByLocation, auditCount.
  split; [| split; [| split]].
  - rewrite map_map. simpl. rewrite map_id. apply NoDup_distinct.
  - intros location group Hin. apply in_map_iff in Hin.
    destruct Hin as [k [[= <- <-] Hk]].
    apply (proj1 (In_distinct _ _)) in Hk. apply in_map_iff in Hk.
    destruct Hk as [a [Ha Hin]].
    split.
    + intros Hnil.
      assert (Hmem : In a (List.filter (fun audit => String.eqb (warehouseLocation audit) k)
                                       (audits s))).
      { apply filter_In. split; [exact Hin | apply String.eqb_eq, Ha]. }
      rewrite Hnil in Hmem. destruct Hmem.
    + intros b. rewrite filter_In, String.eqb_eq. reflexivity.
  - intros a Hin. eexists. split.
    + apply in_map_iff. exists (warehouseLocation a). split; [reflexivity |].
      apply In_distinct, in_map, Hin.
    + apply filter_In. split; [exact Hin | apply String.eqb_refl].
  - apply (class_sizes warehouseLocation (audits s)); [apply NoDup_distinct |].
    intros a Ha. apply In_distinct, in_map, Ha.
Qed.

End ViewMore.

(* ===================================================================== *)
(** * Validation and barcodes *)
(* ===================================================================== *)

Section Validation.

Import AuditTransformationService.

Lemma gtinLength_test (n : nat) :
  (n =? 8)%nat || (n =? 12)%nat || (n =? 13)%nat || (n =? 14)%nat = true <-> gtinLength n.
Proof.
  unfold gtinLength. rewrite !orb_true_iff, !Nat.eqb_eq. tauto.
Qed.

Lemma isValidGTIN_true (barcode : string) :
  isValidGTIN barcode = true <-> gtinLength (digitCount barcode).
Proof.
  unfold isValidGTIN. fold (digitCount barcode).
  destruct ((digitCount barcode =? 8)%nat || (digitCount barcode =? 12)%nat
            || (digitCount barcode =? 13)%nat || (digitCount barcode =? 14)%nat) eqn:E;
    cbn [negb].
  - apply gtinLength_test in E. split; [intros _; exact E |].
    intros _. apply Nat.leb_le. unfold gtinLength in E. lia.
  - split; [discriminate |]. intros H. apply gtinLength_test in H. congruence.
Qed.

Lemma blank_empty : blank "" = true.
Proof. reflexivity. Qed.

Lemma validateAuditData_nil (audit : CreateAuditRequest) :
  validateAuditData audit = [] ->
  blank (rq_slotNumber audit) = false /\
  blank (rq_primaryBarcode audit) = false /\
  blank (rq_warehouseLogistics audit) = false /\
  blank (rq_auditors audit) = false /\
  blank (rq_warehouseLocation audit) = false.
Proof.
  unfold validateAuditData.
  destruct (blank (rq_slotNumber audit)), (blank (rq_primaryBarcode audit)),
           (blank (rq_warehouseLogistics audit)), (blank (rq_auditors audit)),
           (blank (rq_warehouseLocation audit)); simpl; intros H;
    try discriminate H; repeat split.
Qed.

(** White space outside ASCII is white space for [trim]: a slot number that
    is one no-break space is blank, and the request is rejected. *)
Lemma validateAuditData_no_break_space :
  blank no_break_space = true /\
  validateAuditData request_nbsp_slot = ["Slot number is required"].
Proof. split; reflexivity. Qed.

(** [validateAuditData] accepts a request exactly when the five required
    fields are not blank and the barcode holds 8, 12, 13 or 14 digits
    (characters that are not digits are ignored; the comments are never
    checked).  A field is blank when [trim] leaves nothing of it: it is empty
    or holds white space only, the white space of the language, in ASCII or
    not ([blank]).  It reports at most six messages. *)
Theorem validateAuditData_accepts (audit : CreateAuditRequest) :
  (validateAuditData audit = [] <->
   blank (rq_slotNumber audit) = false /\
   blank (rq_primaryBarcode audit) = false /\
   blank (rq_warehouseLogistics audit) = false /\
   blank (rq_auditors audit) = false /\
   blank (rq_warehouseLocation audit) = false /\
   gtinLength (digitCount (rq_primaryBarcode audit))) /\
  (List.length (validateAuditData audit) <= 6)%nat.
Proof.
  unfold validateAuditData. rewrite <- isValidGTIN_true.
  destruct (blank (rq_slotNumber audit)), (blank (rq_primaryBarcode audit)) eqn:Eb,
           (blank (rq_warehouseLogistics audit)), (blank (rq_auditors audit)),
           (blank (rq_warehouseLocation audit)),
           (isValidGTIN (rq_primaryBarcode audit)),
           (String.eqb (rq_primaryBarcode audit) "") eqn:Ee;
    simpl; (split; [split; [intros H; try discriminate H; tauto
                           | intros H; try reflexivity; intuition discriminate]
                   | lia]) || idtac.
  all: apply String.eqb_eq in Ee; rewrite Ee, blank_empty in Eb; discriminate Eb.
Qed.

(** A request that passes the local validation passes the validation of the
    remote source as well, so its remote create is never refused: the mock
    appends one record that carries the fields of the request, the next
    identifier and the synced flag, and answers with it. *)
Theorem valid_request_is_created_remotely
        (t : Tick) (request : CreateAuditRequest) (remoteAudits : list ApiAuditRecord) :
  validateAuditData request = [] ->
  AuditApiMock.validateCreateRequest request = None /\
  exists created,
    AuditApiMock.createAudit t request remoteAudits = (remoteAudits ++ [created], inl created) /\
    ExternalId created = decimal (Z.of_nat (List.length remoteAudits) + 1) /\
    SlotNumber created = rq_slotNumber request /\
    PrimaryBarcode created = rq_primaryBarcode request /\
    WarehouseLogistics created = rq_warehouseLogistics request /\
    Comments created = rq_comments request /\
    Auditors created = rq_auditors request /\
    WarehouseLocation created = rq_warehouseLocation request /\
    DateReceived created = isoDate t /\ TimeReceived created = timeOfDay t /\
    Synced created = Some 1.
Proof.
  intros Hv. apply validateAuditData_nil in Hv.
  destruct Hv as (H1 & H2 & H3 & H4 & H5).
  assert (Hval : AuditApiMock.validateCreateRequest request = None).
  { unfold AuditApiMock.validateCreateRequest. rewrite H1, H2, H3, H4, H5. reflexivity. }
  split; [exact Hval |].
  unfold AuditApiMock.createAudit. rewrite Hval.
  eexists. split; [reflexivity |]. simpl.
  repeat split.
  destruct (String.eqb (rq_comments request) "") eqn:E; [| reflexivity].
  apply String.eqb_eq in E. congruence.
Qed.

Lemma valid_request_is_created_remotely_witness :
  AuditApiMock.validateCreateRequest request0 = None /\
  fst (AuditApiMock.createAudit tick0 request0 AuditApiMock.mockAudits)
    = AuditApiMock.mockAudits ++ [server5].
Proof.
  destruct (valid_request_is_created_remotely tick0 request0 AuditApiMock.mockAudits)
    as [H1 _]; [reflexivity |].
  split; [exact H1 | vm_compute; reflexivity].
Defined.

Lemma prefix_first_char (p s : string) (c : ascii) :
  String.prefix (String c p) s = true -> exists rest, s = String c rest.
Proof.
  destruct s as [| c' s']; simpl; [discriminate |].
  destruct (ascii_dec c c') as [<- | _]; [eauto | discriminate].
Qed.

(** Every barcode that [isValidGTIN] accepts gets a barcode type from
    [parseBarcodeType]: the answer "Unknown" is given only to barcodes that
    [isValidGTIN] rejects; and the answer "GTIN" of the inner default branch
    is never given. *)
Theorem parseBarcodeType_known (barcode : string) :
  (isValidGTIN barcode = true -> parseBarcodeType barcode <> "Unknown") /\
  parseBarcodeType barcode <> "GTIN" /\
  (parseBarcodeType barcode = "EAN-8" -> digitCount barcode = 8%nat) /\
  (parseBarcodeType barcode = "UPC-A" -> digitCount barcode = 12%nat) /\
  (parseBarcodeType barcode = "EAN-13" -> digitCount barcode = 13%nat) /\
  (parseBarcodeType barcode = "GTIN-14" -> digitCount barcode = 14%nat).
Proof.
  unfold parseBarcodeType. fold (digitCount barcode).
  destruct (String.eqb barcode "") eqn:Ee.
  - apply String.eqb_eq in Ee. subst barcode.
    repeat split; intros; discriminate.
  - destruct (String.prefix "]C1" barcode); [repeat split; intros; discriminate |].
    destruct (String.prefix "]d2" barcode); [repeat split; intros; discriminate |].
    rewrite isValidGTIN_true.
    destruct (Nat.eqb_spec (digitCount barcode) 8) as [-> | H8]; simpl;
      [repeat split; intros; (discriminate || reflexivity) |].
    destruct (Nat.eqb_spec (digitCount barcode) 12) as [-> | H12]; simpl;
      [repeat split; intros; (discriminate || reflexivity) |].
    destruct (Nat.eqb_spec (digitCount barcode) 13) as [-> | H13]; simpl;
      [repeat split; intros; (discriminate || reflexivity) |].
    destruct (Nat.eqb_spec (digitCount barcode) 14) as [-> | H14]; simpl;
      [repeat split; intros; (discriminate || reflexivity) |].
    repeat split; intros; try discriminate.
    unfold gtinLength in *. lia.
Qed.

Lemma filter_complement_length {A : Type} (p : A -> bool) (l : list A) :
  (List.length (List.filter p l) + List.length (List.filter (fun x => negb (p x)) l)
   = List.length l)%nat.
Proof.
  induction l as [| x l IH]; simpl; [reflexivity |].
  destruct (p x); simpl; lia.
Qed.

Lemma filter_length_le {A : Type} (p : A -> bool) (l : list A) :
  (List.length (List.filter p l) <= List.length l)%nat.
Proof.
  induction l as [| x l IH]; simpl; [lia |]. destruct (p x); simpl; lia.
Qed.

(** The figures of [getAuditSummary] are consistent: synced and pending
    records add up to the total, the records of today are at most the total,
    and the locations and auditors listed are exactly those that occur, each
    once. *)
Theorem getAuditSummary_consistent (toDateString : Date -> string) (today : string)
        (audits : list AuditRecord) :
  (syncedAudits (getAuditSummary toDateString today audits)
   + pendingAudits (getAuditSummary toDateString today audits)
   = totalAudits (getAuditSummary toDateString today audits))%nat /\
  (todayAudits (getAuditSummary toDateString today audits)
   <= totalAudits (getAuditSummary toDateString today audits))%nat /\
  List.NoDup (locations (getAuditSummary toDateString today audits)) /\
  List.NoDup (auditorNames (getAuditSummary toDateString today audits)) /\
  (forall v, In v (locations (getAuditSummary toDateString today audits))
             <-> exists a, In a audits /\ warehouseLocation a = v) /\
  (forall v, In v (auditorNames (getAuditSummary toDateString today audits))
             <-> exists a, In a audits /\ auditors a = v).
Proof.
  simpl. split; [apply filter_complement_length | split; [apply filter_length_le |]].
  split; [apply NoDup_distinct | split; [apply NoDup_distinct | split]].
  - intros v. rewrite In_distinct, in_map_iff. firstorder.
  - intros v. rewrite In_distinct, in_map_iff. firstorder.
Qed.

End Validation.

(* ===================================================================== *)
(** * More on the orchestrator *)
(* ===================================================================== *)

Section OrchestratorMore.

Import AuditStorageService AuditTransformationService AuditActionService.

Lemma saveAllSynced_other (t : Tick) (l : list ApiAuditRecord)
      (d : gmap string OfflineAuditItem) (k : string) :
  ~ In k (List.map ExternalId l) -> saveAllSynced t l d !! k = d !! k.
Proof.
  unfold saveAllSynced. revert d.
  induction l as [| x l IH]; simpl; intros d Hk; [reflexivity |].
  rewrite IH by tauto. unfold put. simpl. apply lookup_insert_ne. tauto.
Qed.

Lemma detected_conflict_resolves_to_local_aux
      (now : Z) (l s : ApiAuditRecord) (lm : Z) (c : AuditSyncService.AuditConflictData) :
  AuditSyncService.detectConflict now l s lm = Some c ->
  AuditSyncService.resolveConflict c = AuditSyncService.use_local /\
  AuditSyncService.localModified c = lm.
Proof.
  unfold AuditSyncService.detectConflict, AuditSyncService.resolveConflict.
  destruct (now <? lm) eqn:Hlt; simpl; [| discriminate].
  destruct (AuditSyncService.businessFieldsDiffer l s); [| discriminate].
  intros [= <-]. simpl. rewrite Hlt. split; reflexivity.
Qed.

(** A request that fails the validation is rejected on the spot, by
    [createAudit] and by [updateAudit] alike: the only effect is the error
    message (the messages joined by a comma); the store, the view's records,
    the loading flag, the sync state and the remote source are not touched. *)
Theorem invalid_request_touches_nothing
        (online : bool) (t : Tick) (id : string) (request : CreateAuditRequest) (w : World) :
  validateAuditData request <> [] ->
  createAudit online t request w
    = withUi (AuditStateService.setError
                (Some (String.concat ", " (validateAuditData request)))) w /\
  updateAudit (mkUpdateAuditRequest id request) w = createAudit online t request w /\
  db (createAudit online t request w) = db w /\
  sync (createAudit online t request w) = sync w /\
  remote (createAudit online t request w) = remote w /\
  AuditStateService.audits (ui (createAudit online t request w))
    = AuditStateService.audits (ui w) /\
  AuditStateService.loading (ui (createAudit online t request w))
    = AuditStateService.loading (ui w).
Proof.
  intros Hv. unfold createAudit, updateAudit. simpl.
  destruct (validateAuditData request) as [| m ms]; [contradiction |]. simpl.
  repeat split.
Qed.

Lemma invalid_request_touches_nothing_witness :
  createAudit true tick0 request_blank_slot world_loaded
    = withUi (AuditStateService.setError (Some "Slot number is required")) world_loaded.
Proof.
  destruct (invalid_request_touches_nothing true tick0 "1" request_blank_slot world_loaded)
    as [H _]; [vm_compute; discriminate |].
  rewrite H. reflexivity.
Defined.

(** The view after [updateAudit_next]: the answer of the remote source takes
    the place of the records of its identifier, if the view holds one. *)
Lemma updateAudit_next_view (apiAudit : ApiAuditRecord) (w : World) :
  ((exists a, In a (AuditStateService.audits (ui w)) /\ externalId a = ExternalId apiAudit) ->
   In (transformApiAuditToAudit apiAudit)
      (AuditStateService.audits (ui (updateAudit_next apiAudit w)))) /\
  ((forall a, In a (AuditStateService.audits (ui w)) -> externalId a <> ExternalId apiAudit) ->
   AuditStateService.audits (ui (updateAudit_next apiAudit w))
   = AuditStateService.audits (ui w)).
Proof.
  split.
  - intros [a [Hin Heq]]. simpl. apply in_map_iff. exists a.
    apply String.eqb_eq in Heq. rewrite Heq. split; [reflexivity | exact Hin].
  - intros H. simpl.
    induction (AuditStateService.audits (ui w)) as [| x l IH]; simpl; [reflexivity |].
    assert (Hx : String.eqb (externalId x) (ExternalId apiAudit) = false)
      by (apply String.eqb_neq, H; left; reflexivity).
    rewrite Hx. f_equal. apply IH. intros a Ha. apply H. right. exact Ha.
Qed.

(** An update goes to the remote source only: none of its three steps writes
    the store or the sync state, and the store reads as before.  After a
    successful update the view lists the same identifiers as before: the
    answer of the remote source is shown in place of the records of its
    identifier when the view holds one, and is not shown when the view holds
    none. *)
Theorem update_never_touches_store
        (request : UpdateAuditRequest) (apiAudit : ApiAuditRecord) (e : ApiFailure)
        (w : World) :
  db (updateAudit request w) = db w /\
  db (updateAudit_next apiAudit w) = db w /\
  db (updateAudit_error e w) = db w /\
  sync (updateAudit request w) = sync w /\
  sync (updateAudit_next apiAudit w) = sync w /\
  sync (updateAudit_error e w) = sync w /\
  (forall id, getItem id (db (updateAudit_next apiAudit (updateAudit request w)))
              = getItem id (db w)) /\
  (validateAuditData (up_fields request) = [] ->
   remote (updateAudit request w)
   = remote w ++ [AuditApiService.updateAudit (up_externalId request) (up_fields request)]) /\
  AuditStateService.audits (ui (updateAudit_error e w)) = AuditStateService.audits (ui w) /\
  AuditStateService.error (ui (updateAudit_error e w))
    = Some (errorOr e "Failed to update audit record") /\
  List.map externalId (AuditStateService.audits (ui (updateAudit_next apiAudit w)))
    = List.map externalId (AuditStateService.audits (ui w)) /\
  ((exists a, In a (AuditStateService.audits (ui w)) /\ externalId a = ExternalId apiAudit) ->
   In (transformApiAuditToAudit apiAudit)
      (AuditStateService.audits (ui (updateAudit_next apiAudit w)))) /\
  ((forall a, In a (AuditStateService.audits (ui w)) -> externalId a <> ExternalId apiAudit) ->
   AuditStateService.audits (ui (updateAudit_next apiAudit w))
   = AuditStateService.audits (ui w)) /\
  (forall a, In a (AuditStateService.audits (ui (updateAudit_next apiAudit w))) ->
             externalId a = ExternalId apiAudit -> a = transformApiAuditToAudit apiAudit).
Proof.
  assert (H : db (updateAudit request w) = db w /\ sync (updateAudit request w) = sync w).
  { unfold updateAudit.
    destruct (0 <? List.length (validateAuditData (up_fields request)))%nat;
      split; reflexivity. }
  destruct H as [Hd Hs].
  split; [exact Hd |]. split; [reflexivity |]. split; [reflexivity |].
  split; [exact Hs |]. split; [reflexivity |]. split; [reflexivity |].
  split; [| split; [| split; [reflexivity | split; [reflexivity |]]]].
  - intros id. simpl. rewrite Hd. reflexivity.
  - intros Hv. unfold updateAudit. rewrite Hv. reflexivity.
  - split; [apply (updateAudit_ids (transformApiAuditToAudit apiAudit) (ui w)) |].
    split; [exact (proj1 (updateAudit_next_view apiAudit w)) |].
    split; [exact (proj2 (updateAudit_next_view apiAudit w)) |].
    intros a Hin Heq. simpl in Hin. apply in_map_iff in Hin.
    destruct Hin as [x [Hx _]].
    destruct (String.eqb (externalId x) (ExternalId apiAudit)) eqn:E; [congruence |].
    apply String.eqb_neq in E. congruence.
Qed.

(** Loading while offline: the view shows exactly the stored records that
    are not deleted, the pending count is the number of pending records, the
    loading flag and the error are cleared, and neither the remote source,
    nor the store, nor the sync status is touched; this holds for an empty
    store as well (the view is then empty and no error is set). *)
Theorem load_offline_publishes_the_store (t : Tick) (w : World) :
  AuditStateService.audits (ui (loadFromStorage false t (loadAudits w)))
    = List.map (fun item => transformApiAuditToAudit (api item)) (getAllItems (db w)) /\
  SyncStateService.pendingRecordsCount (sync (loadFromStorage false t (loadAudits w)))
    = Z.of_nat (List.length (getPendingItems (db w))) /\
  AuditStateService.loading (ui (loadFromStorage false t (loadAudits w))) = false /\
  AuditStateService.error (ui (loadFromStorage false t (loadAudits w))) = None /\
  remote (loadFromStorage false t (loadAudits w)) = remote w /\
  db (loadFromStorage false t (loadAudits w)) = db w /\
  SyncStateService.syncStatus (sync (loadFromStorage false t (loadAudits w)))
    = SyncStateService.syncStatus (sync w) /\
  SyncStateService.syncError (sync (loadFromStorage false t (loadAudits w)))
    = SyncStateService.syncError (sync w).
Proof.
  unfold loadFromStorage. rewrite andb_false_r. simpl.
  repeat split. lia.
Qed.

(** Loading while online over a store with no active record asks the remote
    source for everything, once, and shows nothing new until the answer
    arrives; over a store with active records it shows them at once, sets the
    status to syncing and asks the remote source in the background. *)
Theorem load_online_asks_the_remote_source (t : Tick) (w : World) :
  remote (loadFromStorage true t (loadAudits w)) = remote w ++ [AuditApiService.getAudits] /\
  db (loadFromStorage true t (loadAudits w)) = db w /\
  (getAllItems (db w) = [] ->
   AuditStateService.audits (ui (loadFromStorage true t (loadAudits w)))
     = AuditStateService.audits (ui w) /\
   AuditStateService.loading (ui (loadFromStorage true t (loadAudits w))) = true /\
   sync (loadFromStorage true t (loadAudits w)) = sync w) /\
  (getAllItems (db w) <> [] ->
   AuditStateService.audits (ui (loadFromStorage true t (loadAudits w)))
     = List.map (fun item => transformApiAuditToAudit (api item)) (getAllItems (db w)) /\
   SyncStateService.syncStatus (sync (loadFromStorage true t (loadAudits w))) = Syncing /\
   SyncStateService.currentOperation (sync (loadFromStorage true t (loadAudits w)))
     = Some OpFetch).
Proof.
  unfold loadFromStorage. rewrite andb_true_r. simpl.
  destruct (getAllItems (db w)) as [| x l] eqn:E; simpl.
  - repeat split; intros; congruence.
  - repeat split; intros; congruence.
Qed.

(** The first load from the remote source: the view shows the remote list,
    every remote record is stored as synced, records stored under other
    identifiers are untouched, and the loading flag is cleared.  The pending
    count is not recomputed on this path. *)
Theorem first_load_stores_the_remote_list
        (t : Tick) (serverAudits : list ApiAuditRecord) (w : World) :
  AuditStateService.audits (ui (loadFromServerWithFallback_next t serverAudits w))
    = transformApiAuditsToAudits serverAudits /\
  (forall a, In a serverAudits ->
     exists item,
       db (loadFromServerWithFallback_next t serverAudits w) !! ExternalId a = Some item /\
       _status item = StSynced) /\
  (forall k, ~ In k (List.map ExternalId serverAudits) ->
     db (loadFromServerWithFallback_next t serverAudits w) !! k = db w !! k) /\
  AuditStateService.loading (ui (loadFromServerWithFallback_next t serverAudits w)) = false /\
  sync (loadFromServerWithFallback_next t serverAudits w) = sync w.
Proof.
  split; [reflexivity |]. split; [| split; [| split; reflexivity]].
  - intros a Hin. apply (saveAllSynced_saved t serverAudits (db w) a Hin).
  - intros k Hk. apply (saveAllSynced_other t serverAudits (db w) k Hk).
Qed.

(** A background sync that fails keeps what is shown and what is stored; it
    sets the sync error "Failed to sync with server" and with it the status
    error, clears the loading flag and the current operation. *)
Theorem background_sync_failure_keeps_data (w : World) :
  AuditStateService.audits (ui (backgroundSyncFromServer_error w))
    = AuditStateService.audits (ui w) /\
  db (backgroundSyncFromServer_error w) = db w /\
  remote (backgroundSyncFromServer_error w) = remote w /\
  SyncStateService.syncStatus (sync (backgroundSyncFromServer_error w)) = Error /\
  SyncStateService.syncError (sync (backgroundSyncFromServer_error w))
    = Some "Failed to sync with server" /\
  AuditStateService.loading (ui (backgroundSyncFromServer_error w)) = false /\
  AuditStateService.error (ui (backgroundSyncFromServer_error w))
    = AuditStateService.error (ui w) /\
  SyncStateService.currentOperation (sync (backgroundSyncFromServer_error w)) = None.
Proof. repeat split. Qed.

(** A background sync that succeeds replaces the view by the remote list and
    stores every remote record as synced, also over a local record of the
    same identifier that was pending or deleted.  Records stored under
    identifiers the remote source does not list are kept as they are, so a
    record created locally and not yet known remotely stays pending in the
    store, and is no longer shown. *)
Theorem background_sync_success_overwrites
        (t : Tick) (serverAudits : list ApiAuditRecord) (w : World) :
  AuditStateService.audits (ui (backgroundSyncFromServer_next t serverAudits w))
    = transformApiAuditsToAudits serverAudits /\
  (forall a, In a serverAudits ->
     exists item,
       db (backgroundSyncFromServer_next t serverAudits w) !! ExternalId a = Some item /\
       _status item = StSynced) /\
  (forall k, ~ In k (List.map ExternalId serverAudits) ->
     db (backgroundSyncFromServer_next t serverAudits w) !! k = db w !! k) /\
  (forall item, In item (getPendingItems (db w)) ->
     ~ In (ExternalId (api item)) (List.map ExternalId serverAudits) ->
     keyed (db w) ->
     In item (getPendingItems (db (backgroundSyncFromServer_next t serverAudits w))) /\
     forall a, In a (AuditStateService.audits
                       (ui (backgroundSyncFromServer_next t serverAudits w))) ->
               externalId a <> ExternalId (api item)) /\
  SyncStateService.syncStatus (sync (backgroundSyncFromServer_next t serverAudits w))
    = Success /\
  SyncStateService.syncError (sync (backgroundSyncFromServer_next t serverAudits w)) = None.
Proof.
  split; [reflexivity |]. split; [| split; [| split; [| split; reflexivity]]].
  - intros a Hin. apply (saveAllSynced_saved t serverAudits (db w) a Hin).
  - intros k Hk. apply (saveAllSynced_other t serverAudits (db w) k Hk).
  - intros item Hin Hnot Hk. split.
    + unfold getPendingItems, getAllByStatus in *.
      apply filter_In in Hin. destruct Hin as [Hin Hst].
      apply filter_In. split; [| exact Hst].
      apply In_getAll in Hin. destruct Hin as [k Hlk]. apply In_getAll. exists k.
      simpl. rewrite (saveAllSynced_other t serverAudits (db w) k); [exact Hlk |].
      rewrite <- (Hk _ _ Hlk). exact Hnot.
    + intros a Ha Heq. simpl in Ha. apply in_map_iff in Ha.
      destruct Ha as [x [<- Hx]]. apply Hnot. rewrite <- Heq. simpl.
      apply in_map. exact Hx.
Qed.

(** [handleSyncError] never writes the store or the view and never changes
    the sync status or error, conflict report or not: the branch of
    [handleConflict] that would take the server version cannot be reached,
    because a detected conflict always resolves to the local version.  Only
    the conflict list can change. *)
Theorem handleSyncError_keeps_store_and_view
        (t : Tick) (auditId : string) (e : ApiFailure) (w : World) :
  db (handleSyncError t auditId e w) = db w /\
  ui (handleSyncError t auditId e w) = ui w /\
  remote (handleSyncError t auditId e w) = remote w /\
  SyncStateService.syncStatus (sync (handleSyncError t auditId e w))
    = SyncStateService.syncStatus (sync w) /\
  SyncStateService.syncError (sync (handleSyncError t auditId e w))
    = SyncStateService.syncError (sync w) /\
  (isConflictError e = false -> handleSyncError t auditId e w = w) /\
  (forall c, In c (SyncStateService.conflicts (sync (handleSyncError t auditId e w))) ->
     In c (SyncStateService.conflicts (sync w)) \/ (itemId c = auditId /\ resolved c = true)).
Proof.
  unfold handleSyncError.
  destruct (isConflictError e); [| repeat split; intros; (discriminate || auto)].
  destruct (f_serverAudit e) as [serverAudit |]; [| repeat split; intros; (discriminate || auto)].
  unfold handleConflict.
  destruct (getItem auditId (db w)) as [localAudit |];
    [| repeat split; intros; (discriminate || auto)].
  destruct (AuditSyncService.detectConflict _ _ _ _) as [conflict |] eqn:E;
    [| repeat split; intros; (discriminate || auto)].
  destruct (detected_conflict_resolves_to_local_aux _ _ _ _ _ E) as [Hres _].
  rewrite Hres.
  split; [reflexivity |]. split; [reflexivity |]. split; [reflexivity |].
  split; [reflexivity |]. split; [reflexivity |]. split; [discriminate |].
  intros c Hc. simpl in Hc. apply in_map_iff in Hc. destruct Hc as [x [Hx Hin]].
  destruct (String.eqb (itemId x) auditId) eqn:Ex.
  - right. subst c. simpl. apply String.eqb_eq in Ex. split; [exact Ex | reflexivity].
  - subst c. apply String.eqb_neq in Ex.
    destruct (List.find _ (SyncStateService.conflicts (sync w))).
    + apply in_map_iff in Hin. destruct Hin as [y [Hy Hin]].
      destruct (String.eqb (itemId y) auditId) eqn:Ey; [subst x; contradiction |].
      subst y. left. exact Hin.
    + apply in_app_or in Hin. destruct Hin as [Hin | [<- | []]]; [left; exact Hin |].
      contradiction.
Qed.

Lemma handleSyncError_db (t : Tick) (auditId : string) (e : ApiFailure) (w : World) :
  db (handleSyncError t auditId e w) = db w /\ ui (handleSyncError t auditId e w) = ui w.
Proof.
  unfold handleSyncError.
  destruct (isConflictError e); [| split; reflexivity].
  destruct (f_serverAudit e) as [serverAudit |]; [| split; reflexivity].
  unfold handleConflict.
  destruct (getItem auditId (db w)) as [localAudit |]; [| split; reflexivity].
  destruct (AuditSyncService.detectConflict _ _ _ _) as [conflict |] eqn:E;
    [| split; reflexivity].
  destruct (detected_conflict_resolves_to_local_aux _ _ _ _ _ E) as [Hres _].
  rewrite Hres. split; reflexivity.
Qed.

(** [selectAudit] selects only records that are in the view: after the call
    the selection is empty or it is the first record of the view with the
    requested identifier.  A [null] or empty identifier, and an identifier
    that is not in the view, clear the selection.  Nothing else changes. *)
Theorem selectAudit_selects_from_the_view (auditId : option string) (w : World) :
  (forall a, AuditStateService.selectedAudit (ui (selectAudit auditId w)) = Some a ->
     In a (AuditStateService.audits (ui w)) /\ auditId = Some (externalId a)) /\
  ((auditId = None \/ auditId = Some "" \/
    exists id, auditId = Some id /\
               forall a, In a (AuditStateService.audits (ui w)) -> externalId a <> id) ->
   AuditStateService.selectedAudit (ui (selectAudit auditId w)) = None) /\
  (forall a, In a (AuditStateService.audits (ui w)) -> externalId a <> "" ->
     exists b, AuditStateService.selectedAudit (ui (selectAudit (Some (externalId a)) w))
               = Some b /\ externalId b = externalId a) /\
  AuditStateService.audits (ui (selectAudit auditId w)) = AuditStateService.audits (ui w) /\
  db (selectAudit auditId w) = db w /\ sync (selectAudit auditId w) = sync w /\
  remote (selectAudit auditId w) = remote w.
Proof.
  split; [| split; [| split]].
  - intros a. unfold selectAudit. destruct auditId as [id |]; [| discriminate].
    destruct (String.eqb id "") eqn:E; [discriminate |]. simpl.
    intros H. apply find_some in H. destruct H as [Hin Heq].
    apply String.eqb_eq in Heq. split; [exact Hin | congruence].
  - intros [-> | [-> | [id [-> H]]]]; try reflexivity.
    unfold selectAudit. destruct (String.eqb id ""); [reflexivity |]. simpl.
    destruct (List.find _ _) as [a |] eqn:E; [| reflexivity].
    apply find_some in E. destruct E as [Hin Heq]. apply String.eqb_eq in Heq.
    exfalso. exact (H a Hin Heq).
  - intros a Hin Hne. unfold selectAudit.
    apply String.eqb_neq in Hne. rewrite Hne. simpl.
    destruct (List.find _ _) as [b |] eqn:E.
    + exists b. split; [reflexivity |]. apply find_some in E.
      destruct E as [_ Heq]. apply String.eqb_eq. exact Heq.
    + pose proof (find_none _ _ E a Hin) as Hn. simpl in Hn.
      rewrite String.eqb_refl in Hn. discriminate.
  - unfold selectAudit. destruct auditId as [id |]; [| repeat split].
    destruct (String.eqb id ""); repeat split.
Qed.

(** A record created while offline is sent by the next manual sync as a
    create that carries the fields of the original request. *)
Theorem offline_create_is_sent_by_manual_sync
        (t t' : Tick) (request : CreateAuditRequest) (w : World) :
  validateAuditData request = [] ->
  SyncStateService.isSyncing (sync w) = false ->
  exists w2 run calls,
    syncToServer true t' (createAudit false t request w) = (w2, Some run) /\
    remote w2 = remote w ++ calls /\
    In (AuditApiService.createAudit request) calls /\
    (1 <= total run)%nat /\
    SyncStateService.syncStatus (sync w2) = Syncing.
Proof.
  intros Hv Hidle. rewrite (createAudit_valid false t request w Hv).
  cbv zeta.
  set (w1 := withUi _ (updatePendingCount _)).
  assert (Hin : In (snd (saveItem t (optimisticAuditOf t
                                       (transformCreateRequestToApiRequest request))
                                  StPending (db w)))
                   (getPendingItems (db w1))).
  { unfold getPendingItems, getAllByStatus. apply filter_In. split; [| reflexivity].
    apply In_getAll. exists (localIdOf t). subst w1. simpl. unfold put. simpl.
    apply lookup_insert_eq. }
  assert (Hs : SyncStateService.isSyncing (sync w1) = false) by exact Hidle.
  assert (Hr : remote w1 = remote w) by reflexivity.
  unfold syncToServer. cbn [negb]. rewrite Hs.
  cbn [withSync db].
  destruct (Nat.eqb_spec
              (List.length (getPendingItems (db w1)) + List.length (getDeletedItems (db w1))) 0)
    as [H0 | _].
  - destruct (getPendingItems (db w1)); [destruct Hin | simpl in H0; lia].
  - eexists. eexists. eexists. split; [reflexivity |]. cbn [fst snd processPendingAudits].
    split; [| split; [| split]].
    + cbn [dispatch remote withSync]. rewrite Hr. reflexivity.
    + apply in_or_app. left. apply in_map_iff. eexists. split; [| exact Hin].
      unfold callForPending. simpl. rewrite startsWith_local_localIdOf.
      f_equal. destruct request; reflexivity.
    + cbn [total]. destruct (getPendingItems (db w1)); [destruct Hin | simpl; lia].
    + reflexivity.
Qed.

Lemma offline_create_is_sent_by_manual_sync_witness :
  exists w2 run calls,
    syncToServer true tick1 (createAudit false tick0 request0 initial) = (w2, Some run) /\
    remote w2 = remote initial ++ calls /\
    In (AuditApiService.createAudit request0) calls /\
    (1 <= total run)%nat /\
    SyncStateService.syncStatus (sync w2) = Syncing.
Proof.
  apply (offline_create_is_sent_by_manual_sync tick0 tick1 request0 initial); reflexivity.
Defined.

(** A record deleted while offline stays in the store, marked deleted, with
    no remote call; the next manual sync sends its delete, and when that
    delete reports success the record is removed from the store for good. *)
Theorem offline_delete_is_sent_by_manual_sync
        (t t' t'' : Tick) (id : string) (item : OfflineAuditItem) (w : World) :
  keyed (db w) ->
  db w !! id = Some item ->
  SyncStateService.isSyncing (sync w) = false ->
  remote (deleteAudit false t id w) = remote w /\
  (exists deleted, db (deleteAudit false t id w) !! id = Some deleted /\
                   _status deleted = StDeleted /\ api deleted = api item) /\
  exists w2 run calls deleted,
    syncToServer true t' (deleteAudit false t id w) = (w2, Some run) /\
    remote w2 = remote w ++ calls /\
    In (AuditApiService.deleteAudit id) calls /\
    db (fst (report t'' (report_deleted deleted) (w2, run))) !! id = None.
Proof.
  intros Hk Hid Hidle.
  set (deleted := mkOfflineAuditItem (api item) (_localId item) StDeleted (now t)
                                     (_conflictData item)).
  assert (Hdb : db (deleteAudit false t id w) !! id = Some deleted).
  { simpl. rewrite (deleteItem_lookup t id (db w) id Hk), Hid.
    destruct (decide (id = id)); [reflexivity | contradiction]. }
  split; [reflexivity |]. split; [exists deleted; repeat split; exact Hdb |].
  assert (Hin : In deleted (getDeletedItems (db (deleteAudit false t id w)))).
  { unfold getDeletedItems, getAllByStatus. apply filter_In. split; [| reflexivity].
    apply In_getAll. exists id. exact Hdb. }
  assert (Hs : SyncStateService.isSyncing (sync (deleteAudit false t id w)) = false)
    by exact Hidle.
  unfold syncToServer. cbn [negb]. rewrite Hs. cbn [withSync db].
  destruct (Nat.eqb_spec
              (List.length (getPendingItems (db (deleteAudit false t id w)))
               + List.length (getDeletedItems (db (deleteAudit false t id w)))) 0)
    as [H0 | _].
  - destruct (getDeletedItems (db (deleteAudit false t id w)));
      [destruct Hin | simpl in H0; lia].
  - eexists. eexists. eexists. exists deleted.
    split; [reflexivity |]. cbn [fst snd processPendingAudits].
    split; [| split].
    + cbn [dispatch remote withSync]. reflexivity.
    + apply in_or_app. right. apply in_map_iff. exists deleted. split; [| exact Hin].
      unfold callForDeleted. simpl. rewrite (Hk _ _ Hid). reflexivity.
    + unfold report, checkSyncCompletion. cbn [fst snd processed total].
      assert (Hkey : ExternalId (api deleted) = id) by (simpl; apply (Hk _ _ Hid)).
      rewrite Hkey.
      match goal with |- context [if ?b then _ else _] => destruct b end;
        simpl; unfold removeItem; apply lookup_delete_eq.
Qed.

Lemma offline_delete_is_sent_by_manual_sync_witness :
  remote (deleteAudit false tick1 "1" world_loaded) = remote world_loaded /\
  exists w2 run calls deleted,
    syncToServer true tick1 (deleteAudit false tick1 "1" world_loaded) = (w2, Some run) /\
    remote w2 = remote world_loaded ++ calls /\
    In (AuditApiService.deleteAudit "1") calls /\
    db (fst (report tick1 (report_deleted deleted) (w2, run))) !! "1" = None.
Proof.
  destruct (offline_delete_is_sent_by_manual_sync tick1 tick1 tick1 "1"
              (mkOfflineAuditItem audit1 "1" StSynced (now tick0) None) world_loaded)
    as (H1 & _ & H3).
  - exact (keyed_put (mkOfflineAuditItem audit1 "1" StSynced (now tick0) None) ∅ keyed_empty).
  - vm_compute. reflexivity.
  - reflexivity.
  - split; [exact H1 | exact H3].
Defined.

(** A remote delete that succeeds right away (online delete) removes the
    record from the store for good and ends in the status success. *)
Theorem online_delete_success_removes_record (t t' : Tick) (id : string) (w : World) :
  db (syncDeleteToServer_next t' id (deleteAudit true t id w)) !! id = None /\
  getItem id (db (syncDeleteToServer_next t' id (deleteAudit true t id w))) = None /\
  (forall a, In a (AuditStateService.audits
                     (ui (syncDeleteToServer_next t' id (deleteAudit true t id w)))) ->
             externalId a <> id) /\
  remote (syncDeleteToServer_next t' id (deleteAudit true t id w))
    = remote w ++ [AuditApiService.deleteAudit id] /\
  SyncStateService.syncStatus (sync (syncDeleteToServer_next t' id (deleteAudit true t id w)))
    = Success /\
  AuditStateService.loading (ui (syncDeleteToServer_next t' id (deleteAudit true t id w)))
    = false.
Proof.
  assert (H : db (syncDeleteToServer_next t' id (deleteAudit true t id w)) !! id = None).
  { simpl. unfold removeItem. apply lookup_delete_eq. }
  split; [exact H |]. split; [unfold getItem; rewrite H; reflexivity |].
  split; [| repeat split].
  intros a Ha. simpl in Ha. apply filter_In in Ha. destruct Ha as [_ Ha].
  apply strict_neq_true in Ha. exact Ha.
Qed.

Lemma keyed_report (t : Tick) (r : Report) (w : World) (run : SyncRun) :
  keyed (db w) -> keyed (db (fst (report t r (w, run)))).
Proof.
  intros Hk. unfold report, checkSyncCompletion. cbn [fst snd processed total].
  assert (H : keyed (db match r with
                        | report_next audit serverAudit =>
                            handleSyncSuccess t (ExternalId (api audit)) serverAudit w
                        | report_deleted audit =>
                            withDb (removeItem (ExternalId (api audit)) (db w)) w
                        | report_error audit e =>
                            handleSyncError t (ExternalId (api audit)) e w
                        end)).
  { destruct r as [audit serverAudit | audit | audit e].
    - unfold handleSyncSuccess. destruct (startsWith_local _); simpl;
        [apply keyed_put, keyed_removeItem, Hk | apply keyed_markAsSynced, Hk].
    - simpl. apply keyed_removeItem, Hk.
    - rewrite (proj1 (handleSyncError_db t (ExternalId (api audit)) e w)). exact Hk. }
  destruct (S (processed run) =? total run)%nat; exact H.
Qed.

(** A report leaves nothing unsettled that was not unsettled before, and a
    report of success settles the record it is about. *)
Lemma report_settles (t : Tick) (r : Report) (w : World) (run : SyncRun) (k : string) :
  keyed (db w) ->
  unsettled (db (fst (report t r (w, run)))) k ->
  unsettled (db w) k /\ succeededFor r <> Some k.
Proof.
  intros Hk. unfold report, checkSyncCompletion. cbn [fst snd processed total].
  assert (H : unsettled (db match r with
                            | report_next audit serverAudit =>
                                handleSyncSuccess t (ExternalId (api audit)) serverAudit w
                            | report_deleted audit =>
                                withDb (removeItem (ExternalId (api audit)) (db w)) w
                            | report_error audit e =>
                                handleSyncError t (ExternalId (api audit)) e w
                            end) k ->
              unsettled (db w) k /\ succeededFor r <> Some k).
  { destruct r as [audit serverAudit | audit | audit e]; simpl.
    - unfold handleSyncSuccess. destruct (startsWith_local _); simpl;
        intros [item [Hlk Hst]].
      + unfold put, removeItem in Hlk. simpl in Hlk. rewrite lookup_insert in Hlk.
        destruct (decide (ExternalId serverAudit = k)).
        * injection Hlk as <-. contradiction.
        * rewrite lookup_delete in Hlk.
          destruct (decide (ExternalId (api audit) = k)); [discriminate |].
          split; [exists item; split; assumption | congruence].
      + rewrite (markAsSynced_lookup t _ (db w) k Hk) in Hlk.
        destruct (decide (ExternalId (api audit) = k)).
        * destruct (db w !! ExternalId (api audit)); simpl in Hlk; [| discriminate].
          injection Hlk as <-. contradiction.
        * split; [exists item; split; assumption | congruence].
    - intros [item [Hlk Hst]]. unfold removeItem in Hlk. rewrite lookup_delete in Hlk.
      destruct (decide (ExternalId (api audit) = k)); [discriminate |].
      split; [exists item; split; assumption | congruence].
    - rewrite (proj1 (handleSyncError_db t (ExternalId (api audit)) e w)).
      intros H. split; [exact H | discriminate]. }
  destruct (S (processed run) =? total run)%nat; exact H.
Qed.

Lemma reports_settle (rs : list (Tick * Report)) (w : World) (run : SyncRun) (k : string) :
  keyed (db w) ->
  unsettled (db (fst (reports rs (w, run)))) k ->
  unsettled (db w) k /\ ~ In (Some k) (List.map (fun tr => succeededFor (snd tr)) rs).
Proof.
  revert w run. induction rs as [| [t r] rs IH]; intros w run Hk H.
  - split; [exact H | intros []].
  - change (reports ((t, r) :: rs) (w, run)) with (reports rs (report t r (w, run))) in H.
    destruct (report t r (w, run)) as [w1 run1] eqn:E.
    assert (Hk1 : keyed (db w1)).
    { pose proof (keyed_report t r w run Hk) as Hk'. rewrite E in Hk'. exact Hk'. }
    destruct (IH w1 run1 Hk1 H) as [H1 H2].
    pose proof (report_settles t r w run k Hk) as Hr. rewrite E in Hr.
    destruct (Hr H1) as [H3 H4].
    split; [exact H3 |]. simpl. intros [Heq | Hin]; [congruence | contradiction].
Qed.

Lemma nothing_unsettled (d : gmap string OfflineAuditItem) :
  (forall k, ~ unsettled d k) -> getPendingItems d = [] /\ getDeletedItems d = [].
Proof.
  intros H. unfold getPendingItems, getDeletedItems, getAllByStatus.
  split; apply List_filter_none; intros x Hx; apply In_getAll in Hx;
    destruct Hx as [k Hlk]; apply ItemStatus_eqb_neq; intros Hst;
    apply (H k); exists x; (split; [exact Hlk | rewrite Hst; discriminate]).
Qed.

(** When every remote call of a manual sync succeeds, nothing is left to
    sync: once a report of success has arrived for each record that was
    pending or deleted, in whatever order, the store holds no pending and no
    deleted record. *)
Theorem manual_sync_all_succeed_settles_store
        (rs : list (Tick * Report)) (w : World) (run : SyncRun) :
  keyed (db w) ->
  (forall item, In item (getPendingItems (db w)) \/ In item (getDeletedItems (db w)) ->
     In (Some (ExternalId (api item))) (List.map (fun tr => succeededFor (snd tr)) rs)) ->
  getPendingItems (db (fst (reports rs (w, run)))) = [] /\
  getDeletedItems (db (fst (reports rs (w, run)))) = [] /\
  (forall item, In item (getAllItems (db (fst (reports rs (w, run))))) ->
                _status item = StSynced).
Proof.
  intros Hk Hcov.
  assert (Hnone : forall k, ~ unsettled (db (fst (reports rs (w, run)))) k).
  { intros k Hu. destruct (reports_settle rs w run k Hk Hu) as [[item [Hlk Hst]] Hnot].
    apply Hnot. rewrite <- (Hk _ _ Hlk). apply Hcov.
    unfold getPendingItems, getDeletedItems, getAllByStatus. rewrite !filter_In, !In_getAll.
    destruct (_status item) eqn:Es; [congruence | left | right];
      (split; [exists k; exact Hlk | reflexivity]). }
  destruct (nothing_unsettled _ Hnone) as [Hp Hd].
  split; [exact Hp | split; [exact Hd |]].
  intros item Hin. apply getAllItems_not_deleted in Hin. destruct Hin as [[k Hlk] _].
  destruct (_status item) eqn:Es; [reflexivity | |];
    exfalso; apply (Hnone k); exists item; (split; [exact Hlk | rewrite Es; discriminate]).
Qed.

Lemma manual_sync_all_succeed_settles_store_witness :
  getPendingItems (db (fst (reports reports_all_succeed (world_pending, mkSyncRun 0 4)))) = [] /\
  getDeletedItems (db (fst (reports reports_all_succeed (world_pending, mkSyncRun 0 4)))) = [].
Proof.
  destruct (manual_sync_all_succeed_settles_store reports_all_succeed world_pending
              (mkSyncRun 0 4)) as (H1 & H2 & _).
  - exact (keyed_put pending_a _
             (keyed_put pending_b _
                (keyed_put pending_c _ (keyed_put deleted_d ∅ keyed_empty)))).
  - intros item Hin.
    destruct Hin as [Hin | Hin]; vm_compute in Hin;
      repeat (destruct Hin as [<- | Hin]; [vm_compute; tauto |]); destruct Hin.
  - split; assumption.
Defined.

End OrchestratorMore.

(* ===================================================================== *)
(** * The mock of the remote source *)
(* ===================================================================== *)

Section RemoteMock.

Import AuditTransformationService AuditApiMock.

Lemma findIndex_None (id : string) (audits : list ApiAuditRecord) :
  findIndex id audits = None <-> forall a, In a audits -> ExternalId a <> id.
Proof.
  induction audits as [| x l IH]; simpl; [split; [intros _ a [] | reflexivity] |].
  destruct (String.eqb_spec (ExternalId x) id) as [Heq | Hne].
  - split; [discriminate |]. intros H. exfalso. apply (H x); [left; reflexivity | exact Heq].
  - destruct (findIndex id l) as [i |].
    + split; [discriminate |]. intros H.
      assert (Hn : None = Some i -> False) by discriminate.
      exfalso. apply Hn. symmetry. apply IH. intros a Ha. apply H. right. exact Ha.
    + split; [| reflexivity]. intros _ a [<- | Ha]; [exact Hne |].
      apply (proj1 IH eq_refl a Ha).
Qed.

Lemma findIndex_Some (id : string) (audits : list ApiAuditRecord) (i : nat) :
  findIndex id audits = Some i ->
  exists a, audits !! i = Some a /\ ExternalId a = id /\
            List.find (fun x => String.eqb (ExternalId x) id) audits = Some a.
Proof.
  revert i. induction audits as [| x l IH]; simpl; intros i H; [discriminate |].
  destruct (String.eqb_spec (ExternalId x) id) as [Heq | Hne].
  - injection H as <-. exists x. repeat split. exact Heq.
  - destruct (findIndex id l) as [j |]; [| discriminate]. injection H as <-.
    destruct (IH j eq_refl) as [a [H1 [H2 H3]]]. exists a. repeat split; assumption.
Qed.

Lemma findIndex_app (id : string) (front back : list ApiAuditRecord) :
  In id (List.map ExternalId front) ->
  exists i, findIndex id (front ++ back) = Some i /\ (i < List.length front)%nat.
Proof.
  induction front as [| x l IH]; simpl; intros Hin; [destruct Hin |].
  destruct (String.eqb_spec (ExternalId x) id) as [Heq | Hne].
  - exists 0%nat. split; [reflexivity | lia].
  - destruct Hin as [Heq | Hin]; [contradiction |].
    destruct (IH Hin) as [i [Hi Hlt]]. rewrite Hi. exists (S i). split; [reflexivity | lia].
Qed.

(** A call that the mock refuses changes none of its data, and it is refused
    with 400 for a blank identifier or an invalid create request and with
    404 for an identifier it does not hold. *)
Theorem mock_refused_calls_change_nothing
        (t : Tick) (id : string) (request : CreateAuditRequest)
        (partialRequest : PartialCreateAuditRequest) (audits : list ApiAuditRecord) :
  (forall audits' e, updateAudit t id partialRequest audits = (audits', inr e) ->
     audits' = audits /\
     ((status e = 400 /\ blank id = true) \/
      (status e = 404 /\ forall a, In a audits -> ExternalId a <> id))) /\
  (forall audits' e, deleteAudit t id audits = (audits', inr e) ->
     audits' = audits /\
     ((status e = 400 /\ blank id = true) \/
      (status e = 404 /\ forall a, In a audits -> ExternalId a <> id))) /\
  (forall audits' e, createAudit t request audits = (audits', inr e) ->
     audits' = audits /\ status e = 400 /\ validateCreateRequest request = Some (error e)) /\
  (forall e, getAudit t id audits = inr e ->
     (status e = 400 /\ blank id = true) \/
     (status e = 404 /\ forall a, In a audits -> ExternalId a <> id)).
Proof.
  split; [| split; [| split]].
  - intros audits' e. unfold updateAudit.
    destruct (blank id) eqn:Eb; [intros [= <- <-]; split; [reflexivity | left; split; reflexivity] |].
    destruct (findIndex id audits) as [i |] eqn:Ei.
    + destruct (findIndex_Some id audits i Ei) as [a [Ha _]]. rewrite Ha. discriminate.
    + intros [= <- <-]. split; [reflexivity |]. right. split; [reflexivity |].
      apply findIndex_None, Ei.
  - intros audits' e. unfold deleteAudit.
    destruct (blank id) eqn:Eb; [intros [= <- <-]; split; [reflexivity | left; split; reflexivity] |].
    destruct (findIndex id audits) as [i |] eqn:Ei; [discriminate |].
    intros [= <- <-]. split; [reflexivity |]. right. split; [reflexivity |].
    apply findIndex_None, Ei.
  - intros audits' e. unfold createAudit.
    destruct (validateCreateRequest request) as [m |]; [| discriminate].
    intros [= <- <-]. repeat split.
  - intros e. unfold getAudit.
    destruct (blank id) eqn:Eb; [intros [= <-]; left; split; reflexivity |].
    destruct (List.find _ audits) as [a |] eqn:Ef; [discriminate |].
    intros [= <-]. right. split; [reflexivity |].
    intros a Ha Heq. pose proof (find_none _ _ Ef a Ha) as Hn. simpl in Hn.
    apply String.eqb_neq in Hn. contradiction.
Qed.

(** The mock numbers a new record by the length of its array, so identifiers
    are reused after a delete: when the last record carries the length of the
    array as its identifier (as in the initial data) and a record before it is
    deleted, the next record created gets the identifier of that last record,
    and the array then holds two records with one identifier. *)
Theorem mock_create_after_delete_reuses_identifier
        (t t' : Tick) (id : string) (request : CreateAuditRequest)
        (front : list ApiAuditRecord) (last : ApiAuditRecord) :
  validateCreateRequest request = None ->
  ExternalId last = decimal (Z.of_nat (List.length (front ++ [last]))) ->
  blank id = false ->
  In id (List.map ExternalId front) ->
  snd (deleteAudit t id (front ++ [last])) = inl tt /\
  exists created,
    snd (createAudit t' request (fst (deleteAudit t id (front ++ [last])))) = inl created /\
    ExternalId created = ExternalId last /\
    In last (fst (createAudit t' request (fst (deleteAudit t id (front ++ [last]))))) /\
    fst (createAudit t' request (fst (deleteAudit t id (front ++ [last]))))
      = fst (deleteAudit t id (front ++ [last])) ++ [created] /\
    ~ List.NoDup
        (List.map ExternalId
           (fst (createAudit t' request (fst (deleteAudit t id (front ++ [last])))))).
Proof.
  intros Hv Hlast Hb Hin.
  destruct (findIndex_app id front [last] Hin) as [i [Hi Hlt]].
  unfold deleteAudit. rewrite Hb, Hi. cbn [fst snd].
  split; [reflexivity |].
  assert (Hdel : firstn i (front ++ [last]) ++ skipn (S i) (front ++ [last])
                 = (firstn i front ++ skipn (S i) front) ++ [last]).
  { rewrite firstn_app, skipn_app.
    replace (i - List.length front)%nat with 0%nat by lia.
    replace (S i - List.length front)%nat with 0%nat by lia.
    simpl. rewrite app_nil_r, app_assoc. reflexivity. }
  rewrite Hdel.
  assert (Hlen : List.length ((firstn i front ++ skipn (S i) front) ++ [last])
                 = List.length front).
  { rewrite !length_app, length_firstn, length_skipn. simpl. lia. }
  unfold createAudit. rewrite Hv. cbn [fst snd].
  eexists. split; [reflexivity |]. cbn [ExternalId].
  split; [| split; [| split; [reflexivity |]]].
  - rewrite Hlast, Hlen, length_app. simpl. f_equal. lia.
  - apply in_or_app. left. apply in_or_app. right. left. reflexivity.
  - rewrite !map_app. simpl. intros Hnd.
    apply NoDup_remove_2 in Hnd. apply Hnd.
    rewrite app_nil_r. apply in_or_app. right. left.
    rewrite Hlast, Hlen, length_app. simpl. f_equal. lia.
Qed.

Lemma mock_create_after_delete_reuses_identifier_witness :
  exists created,
    snd (createAudit tick1 request0 (fst (deleteAudit tick0 "2" mockAudits))) = inl created /\
    ExternalId created = "4" /\
    List.map ExternalId (fst (createAudit tick1 request0 (fst (deleteAudit tick0 "2" mockAudits))))
      = ["1"; "3"; "4"; "4"].
Proof.
  destruct (mock_create_after_delete_reuses_identifier tick0 tick1 "2" request0
              (firstn 3 mockAudits)
              (mkApiAuditRecord "4" "A-234" "01307890123456789012" "Quality Check"
                                "Damaged packaging inspection" "2024-01-18" "16:20:00"
                                "Sarah Wilson" "Warehouse A - QC Station" (Some 1)))
    as (_ & created & H1 & H2 & _).
  - reflexivity.
  - reflexivity.
  - reflexivity.
  - simpl. tauto.
  - exists created. split; [exact H1 | split; [exact H2 | vm_compute; reflexivity]].
Defined.

(** An update that the mock accepts keeps the number of records, every
    identifier and the dates of the record; the record can be read back with
    [getAudit], carrying the requested fields and the synced flag. *)
Theorem mock_update_then_get
        (t t' : Tick) (id : string) (partialRequest : PartialCreateAuditRequest)
        (audits audits' : list ApiAuditRecord) (updated : ApiAuditRecord) :
  updateAudit t id partialRequest audits = (audits', inl updated) ->
  getAudit t' id audits' = inl updated /\
  List.map ExternalId audits' = List.map ExternalId audits /\
  ExternalId updated = id /\
  Synced updated = Some 1 /\
  (forall v, pr_comments partialRequest = Some v -> Comments updated = v) /\
  (exists current, List.find (fun x => String.eqb (ExternalId x) id) audits = Some current /\
                   DateReceived updated = DateReceived current /\
                   TimeReceived updated = TimeReceived current /\
                   (pr_comments partialRequest = None -> Comments updated = Comments current)).
Proof.
  unfold updateAudit. destruct (blank id) eqn:Eb; [discriminate |].
  destruct (findIndex id audits) as [i |] eqn:Ei; [| discriminate].
  destruct (findIndex_Some id audits i Ei) as [current [Hcur [Hid Hfind]]].
  rewrite Hcur. intros [= <- <-]. cbn [ExternalId Synced Comments DateReceived TimeReceived].
  split; [| split; [| split; [exact Hid | split; [reflexivity | split]]]].
  - unfold getAudit. rewrite Eb.
    clear Hfind. revert i Ei Hcur. induction audits as [| x l IH]; intros i Ei Hcur;
      [discriminate |].
    simpl in Ei. destruct (String.eqb_spec (ExternalId x) id) as [Heq | Hne].
    + injection Ei as <-. simpl in Hcur. injection Hcur as <-. simpl.
      rewrite Hid, String.eqb_refl. reflexivity.
    + destruct (findIndex id l) as [j |] eqn:Ej; [| discriminate]. injection Ei as <-.
      simpl in Hcur. simpl.
      apply String.eqb_neq in Hne. rewrite Hne. apply (IH j eq_refl Hcur).
  - clear Hfind Ei. revert i Hcur. induction audits as [| x l IH]; intros i Hcur;
      [discriminate |].
    destruct i as [| j]; simpl in *.
    + injection Hcur as <-. reflexivity.
    + f_equal. apply (IH j Hcur).
  - intros v Hv. rewrite Hv. reflexivity.
  - exists current. split; [exact Hfind |]. split; [reflexivity | split; [reflexivity |]].
    intros Hn. rewrite Hn. reflexivity.
Qed.

Lemma mock_update_then_get_witness :
  getAudit tick1 "2"
    (fst (updateAudit tick0 "2"
            (mkPartialCreateAuditRequest None None None (Some "Recounted") None None)
            mockAudits))
  = snd (updateAudit tick0 "2"
           (mkPartialCreateAuditRequest None None None (Some "Recounted") None None)
           mockAudits).
Proof.
  destruct (updateAudit tick0 "2"
              (mkPartialCreateAuditRequest None None None (Some "Recounted") None None)
              mockAudits) as [audits' [updated | e]] eqn:E.
  - exact (proj1 (mock_update_then_get tick0 tick1 "2" _ mockAudits audits' updated E)).
  - vm_compute in E. discriminate E.
Defined.

End RemoteMock.
